(** * LingoLens: the orchestration core, embedded and verified

    A shallow embedding of the client-side logic of LingoLens:
    - [types.ts]                       -> module [Types]
    - [services/geminiService.ts]      -> module [GeminiService]
    - [components/AnalysisCard.tsx]    -> module [AnalysisCard]
    - [App.tsx]                        -> module [App]
    - [components/DailyStudy.tsx]      -> module [DailyStudy]
    - [components/StoryGenerator.tsx]  -> module [StoryGenerator]

    Everything outside the program (the generative-AI provider, the clock,
    the random source, the console) lives in one [World] that the
    asynchronous code threads through; React state is an explicit record
    and every handler is a function on it. An [await] is one step: the
    handlers are modelled run to completion, one after the other. Where
    the code lets another handler run while one waits (a late image
    callback of a card, a speech request pending while a story is
    generated), modules [Late] and [Phases] split the handler at its
    [await].

    Module [Props] holds the vocabulary of the statements, module
    [Fixtures] the concrete worlds the examples run in; the properties
    follow, grouped by component. *)

From Stdlib Require Import ZArith QArith Lia Ascii.
From stdpp Require Import base strings list pretty gmap.

Open Scope Z_scope.
Open Scope string_scope.

(* ================================================================== *)
(** ** JavaScript values the code relies on *)

Module JS.

(** The double-quote character, for template literals that contain it. *)
Definition dq : string := String (Ascii.ascii_of_nat 34) EmptyString.

(** Truthiness of a [string | null | undefined]: only a non-empty string
    is truthy. *)
Definition truthy (s : option string) : bool :=
  match s with
  | Some (String _ _) => true
  | _ => false
  end.

(** [a || b] on such values. *)
Definition or_else (a b : option string) : option string :=
  if truthy a then a else b.

(** [String.prototype.substr(start, length)]. *)
Definition substr (start len : nat) (s : string) : string :=
  String.substring start len s.

(** [Array.prototype.slice(0, n)] and [Array.prototype.join(sep)]. *)
Definition slice0 {A} (n : nat) (l : list A) : list A := take n l.

Fixpoint join (sep : string) (l : list string) : string :=
  match l with
  | [] => EmptyString
  | [x] => x
  | x :: rest => x +:+ sep +:+ join sep rest
  end.

(** [Number.prototype.toString()], and the rendering of a number in a
    template literal, on an integer below 10^21 in magnitude: its decimal
    digits. (From 10^21 on JavaScript writes an exponent; the clock
    readings and the item counts of the settings form are far below.) *)
Definition toString (n : Z) : string := pretty n.

(** Errors that can be thrown (or that a promise can reject with). *)
Inductive Exn : Type :=
| Error (message : string)          (* [new Error(message)] *)
| SyntaxError                       (* [JSON.parse] on malformed text *)
| RangeError                        (* typed-array length mismatch *)
| DOMException                      (* [atob] on invalid base64 *)
| ApiError (message : string).      (* transport or provider failure *)

(** [JSON.parse(text) as T]: the cast is unchecked, so a parser for each
    target type is all the code assumes. [None] is a thrown
    [SyntaxError]. *)
Class JSONParse (T : Type) := JSON_parse : string -> option T.

End JS.
Import JS.

(* ================================================================== *)
(** ** types.ts *)

Module Types.

Inductive ViewState := HOME | ANALYSIS | HISTORY | FAVORITES | DAILY_STUDY.

Record WordBreakdown := {
  word : string;
  partOfSpeech : string;
  ipa : string;
  wb_definition : string;
  etymology : string }.

Record LearningAnalysis := {
  originalText : string;
  la_translation : string;
  breakdown : list WordBreakdown;
  examples : list string;
  visualAidPrompt : string;
  grammarNotes : string }.

Record HistoryItem := {
  id : string;
  timestamp : Z;
  data : LearningAnalysis;
  isFavorite : bool;
  generatedImageUrl : option string }.

Inductive ChatRole := user | model.

Record ChatMessage := {
  cm_id : string;
  role : ChatRole;
  cm_text : string;
  cm_timestamp : Z }.

Record StoryResponse := {
  title : string;
  sr_content : string;
  englishContent : string }.

Inductive UserLevel := A1 | A2 | B1 | B2 | C1 | C2.

Record UserPreferences := {
  level : UserLevel;
  dailyGoal : Z;
  lastStudyDate : option string;
  streak : Z }.

(** [DailyLessonItem]. The value comes out of [JSON.parse] through an
    unchecked cast, so [type] holds whatever string the provider sent
    and the optional fields may be present or absent on either kind. *)
Record DailyLessonItem := {
  dl_id : string;
  dl_type : string;
  dl_content : string;
  dl_translation : string;
  grammarFocus : option string;
  keyWords : option (list WordBreakdown);
  dl_definition : option string;
  options : option (list string);
  correctOptionIndex : option Z;
  contextSentence : option string }.

(** [ContentPart]. *)
Record InlineData := { mimeType : string; inline_data : string }.

Record ContentPart := {
  cp_text : option string;
  inlineData : option InlineData }.

End Types.
Import Types.

(* ================================================================== *)
(** ** The world outside the program *)

Module Env.

(** What is sent to [ai.models.generateContent]. *)
#[warnings="-register-all"]
Inductive Schema :=
| SObject (properties : list (string * Schema)) (required : list string)
| SArray (items : Schema)
| SString (description : option string) (enum : list string)
| SInteger.

Inductive Config :=
| JsonConfig (responseMimeType : string) (responseSchema : Schema)
| ImageConfig (aspectRatio : string)
| AudioConfig (voiceName : string).

Record Request := {
  rq_model : string;
  rq_parts : list ContentPart;
  rq_config : Config }.

(** What comes back. *)
Record Content := { parts : option (list ContentPart) }.
Record Candidate := { content : option Content }.
Record Response := {
  text : option string;
  candidates : option (list Candidate) }.

Inductive Settled (A : Type) : Type :=
| Fulfilled (a : A)
| Rejected (e : Exn).
Arguments Fulfilled {A} a.
Arguments Rejected {A} e.

(** The world: the provider (its answer to the n-th request), the clock
    (the n-th reading of [Date.now()]), the random source (the base-36
    rendering of the n-th [Math.random()]), and what the program has
    done to it so far. *)
Record World := {
  service : nat -> Request -> Settled Response;
  sent : list Request;
  clock : nat -> Z;
  ticks : nat;
  random36 : nat -> string;
  draws : nat;
  console : list string }.

(** Asynchronous (and throwing) computations. *)
Definition Promise (A : Type) : Type := World -> Settled A * World.

Definition resolve {A} (a : A) : Promise A := fun w => (Fulfilled a, w).

Definition throw {A} (e : Exn) : Promise A := fun w => (Rejected e, w).

Definition await {A B} (p : Promise A) (k : A -> Promise B) : Promise B :=
  fun w =>
    match p w with
    | (Fulfilled a, w') => k a w'
    | (Rejected e, w') => (Rejected e, w')
    end.

Definition try_catch {A} (body : Promise A) (handler : Exn -> Promise A)
  : Promise A :=
  fun w =>
    match body w with
    | (Fulfilled a, w') => (Fulfilled a, w')
    | (Rejected e, w') => handler e w'
    end.

(** [ai.models.generateContent(request)]: one network round trip. *)
Definition generateContent (rq : Request) : Promise Response :=
  fun w =>
    (service w (length (sent w)) rq,
     {| service := service w; sent := sent w ++ [rq];
        clock := clock w; ticks := ticks w;
        random36 := random36 w; draws := draws w;
        console := console w |}).

(** [Date.now()]. *)
Definition Date_now : Promise Z :=
  fun w =>
    (Fulfilled (clock w (ticks w)),
     {| service := service w; sent := sent w;
        clock := clock w; ticks := S (ticks w);
        random36 := random36 w; draws := draws w;
        console := console w |}).

(** [Math.random().toString(36)]. *)
Definition Math_random_toString36 : Promise string :=
  fun w =>
    (Fulfilled (random36 w (draws w)),
     {| service := service w; sent := sent w;
        clock := clock w; ticks := ticks w;
        random36 := random36 w; draws := S (draws w);
        console := console w |}).

(** [console.error(label, ...)]. *)
Definition console_error (label : string) : Promise unit :=
  fun w =>
    (Fulfilled tt,
     {| service := service w; sent := sent w;
        clock := clock w; ticks := ticks w;
        random36 := random36 w; draws := draws w;
        console := console w ++ [label] |}).

(** [array.map(f)] where [f] has effects: left to right. *)
Fixpoint mapP {A B} (f : A -> Promise B) (l : list A) : Promise (list B) :=
  match l with
  | [] => resolve []
  | x :: rest =>
      await (f x) (fun y => await (mapP f rest) (fun ys => resolve (y :: ys)))
  end.

End Env.
Import Env.

Notation "x <~ p ; k" := (await p (fun x => k))
  (at level 20, p at level 100, k at level 200, only parsing).
Notation "p ;~ k" := (await p (fun _ => k))
  (at level 100, k at level 200, only parsing, right associativity).

(* ================================================================== *)
(** ** services/geminiService.ts *)

Module GeminiService.

Definition ANALYSIS_MODEL : string := "gemini-2.5-flash".
Definition IMAGE_MODEL : string := "gemini-2.5-flash-image".
Definition TTS_MODEL : string := "gemini-2.5-flash-preview-tts".

Definition text_part (s : string) : ContentPart :=
  {| cp_text := Some s; inlineData := None |}.

Definition inline_part (mime payload : string) : ContentPart :=
  {| cp_text := None;
     inlineData := Some {| mimeType := mime; inline_data := payload |} |}.

Definition plain : Schema := SString None [].
Definition described (d : string) : Schema := SString (Some d) [].

(** *** analyzeContent *)

Definition analysis_prompt (sourceLang targetLang : string) : string :=
  "
    You are an expert language tutor and dictionary assistant.
    
    Configuration:
    - Input Language: "
  +:+ (if String.eqb sourceLang "Auto" then "Detect automatically" else sourceLang)
  +:+ "
    - Output/Explanation Language: " +:+ targetLang +:+ "

    Analyze the provided input (text or image containing text).
    
    Return a JSON object with the following:
    1. " +:+ dq +:+ "originalText" +:+ dq +:+ ": The detected input text (corrected if there are OCR errors).
    2. " +:+ dq +:+ "translation" +:+ dq +:+ ": Natural translation in " +:+ targetLang +:+ ".
    3. " +:+ dq +:+ "breakdown" +:+ dq +:+ ": Extract key vocabulary from the input. 
       - If the input is a sentence, identify difficult or important words. 
       - If the input is a single word, analyze that word.
       - For each item, provide:
         - " +:+ dq +:+ "word" +:+ dq +:+ ": The lemma/root form.
         - " +:+ dq +:+ "partOfSpeech" +:+ dq +:+ ": e.g., Noun, Verb.
         - " +:+ dq +:+ "ipa" +:+ dq +:+ ": Phonetic transcription.
         - " +:+ dq +:+ "definition" +:+ dq +:+ ": Clear definition in " +:+ targetLang +:+ ".
         - " +:+ dq +:+ "etymology" +:+ dq +:+ ": Origin or mnemonic tip in " +:+ targetLang +:+ ".
    4. " +:+ dq +:+ "examples" +:+ dq +:+ ": 2-3 example sentences using the main words or grammar structure (in the original input language).
    5. " +:+ dq +:+ "grammarNotes" +:+ dq +:+ ": Brief explanation of grammar points, sentence structure, or nuance in " +:+ targetLang +:+ ".
    6. " +:+ dq +:+ "visualAidPrompt" +:+ dq +:+ ": A descriptive English prompt for generating an image that represents the core meaning or a mnemonic for the input. Keep it under 40 words, visual and vivid.
  ".

Definition analysis_schema : Schema :=
  SObject
    [ ("originalText", plain);
      ("translation", plain);
      ("breakdown",
        SArray (SObject
          [ ("word", plain); ("partOfSpeech", plain); ("ipa", plain);
            ("definition", plain); ("etymology", plain) ] []));
      ("examples", SArray plain);
      ("grammarNotes", plain);
      ("visualAidPrompt", plain) ]
    [ "originalText"; "translation"; "breakdown"; "examples";
      "visualAidPrompt"; "grammarNotes" ].

(** The parts of the request: the prompt, then the image (which wins
    when both inputs are given), else the text, else an error. *)
Definition analysis_parts (text imageBase64 : option string)
    (sourceLang targetLang : string) : Promise (list ContentPart) :=
  let parts := [text_part (analysis_prompt sourceLang targetLang)] in
  if truthy imageBase64 then
    resolve (parts
      ++ [inline_part "image/jpeg" (default EmptyString imageBase64)]
      ++ [text_part "Extract the text from this image and analyze it."])%list
  else if truthy text then
    resolve (parts
      ++ [text_part ("Analyze this text: " +:+ dq
                     +:+ default EmptyString text +:+ dq)])%list
  else
    throw (Error "No input provided").

Definition analysis_request (parts : list ContentPart) : Request :=
  {| rq_model := ANALYSIS_MODEL;
     rq_parts := parts;
     rq_config := JsonConfig "application/json" analysis_schema |}.

Definition analyzeContent `{parser : !JSONParse LearningAnalysis}
    (text imageBase64 : option string) (sourceLang targetLang : string)
  : Promise LearningAnalysis :=
  parts <~ analysis_parts text imageBase64 sourceLang targetLang;
  try_catch
    (response <~ generateContent (analysis_request parts);
     let resultText := Env.text response in
     if negb (truthy resultText) then throw (Error "Empty response from AI")
     else
       match JSON_parse (default EmptyString resultText) with
       | Some analysis => resolve analysis
       | None => throw SyntaxError
       end)
    (fun error => console_error "Analysis failed:" ;~ throw error).

(** *** generateMnemonicImage *)

(** [response.candidates?.[0]?.content?.parts]. *)
Definition first_candidate_parts (response : Response)
  : option (list ContentPart) :=
  match candidates response with
  | Some (c :: _) =>
      match content c with
      | Some ct => parts ct
      | None => None
      end
  | _ => None
  end.

(** The [for ... of] loop: the first part with inline data decides. *)
Fixpoint first_inline_uri (ps : list ContentPart) : string :=
  match ps with
  | [] => EmptyString
  | part :: rest =>
      match inlineData part with
      | Some d => "data:" +:+ mimeType d +:+ ";base64," +:+ inline_data d
      | None => first_inline_uri rest
      end
  end.

Definition image_request (prompt : string) : Request :=
  {| rq_model := IMAGE_MODEL;
     rq_parts := [text_part prompt];
     rq_config := ImageConfig "1:1" |}.

Definition generateMnemonicImage (prompt : string) : Promise string :=
  try_catch
    (response <~ generateContent (image_request prompt);
     resolve (first_inline_uri (default [] (first_candidate_parts response))))
    (fun error => console_error "Image generation failed" ;~ resolve EmptyString).

(** *** generateTextToSpeech *)

(** [response.candidates?.[0]?.content?.parts?.[0]?.inlineData?.data]. *)
Definition first_part_audio (response : Response) : option string :=
  match first_candidate_parts response with
  | Some (part :: _) =>
      match inlineData part with
      | Some d => Some (inline_data d)
      | None => None
      end
  | _ => None
  end.

Definition tts_request (text : string) : Request :=
  {| rq_model := TTS_MODEL;
     rq_parts := [text_part text];
     rq_config := AudioConfig "Kore" |}.

Definition generateTextToSpeech (text : string) : Promise (option string) :=
  try_catch
    (response <~ generateContent (tts_request text);
     let base64Audio := first_part_audio response in
     resolve (or_else base64Audio None))
    (fun e => console_error "TTS generation failed" ;~ resolve None).

(** *** generateStoryFromWords *)

Definition story_prompt (words : list string) (theme : string) : string :=
  "
        Create a short, engaging story (approx. 100-150 words) that integrates the following vocabulary words:
        " +:+ join ", " words +:+ "

        Theme: " +:+ theme +:+ "

        Instructions:
        1. You MAY change the tense, form, or pluralization of the words to fit the story naturally.
        2. The story should be compelling and help with memorization.
        3. Return JSON.
        
        Output Schema:
        {
            " +:+ dq +:+ "title" +:+ dq +:+ ": " +:+ dq +:+ "A creative title" +:+ dq +:+ ",
            " +:+ dq +:+ "englishContent" +:+ dq +:+ ": " +:+ dq +:+ "The full story text in English" +:+ dq +:+ ",
            " +:+ dq +:+ "content" +:+ dq +:+ ": " +:+ dq +:+ "The full story text in English (same as above)" +:+ dq +:+ "
        }
    ".

Definition story_schema : Schema :=
  SObject
    [ ("title", plain); ("englishContent", plain); ("content", plain) ]
    [ "title"; "englishContent"; "content" ].

Definition story_request (words : list string) (theme : string) : Request :=
  {| rq_model := ANALYSIS_MODEL;
     rq_parts := [text_part (story_prompt words theme)];
     rq_config := JsonConfig "application/json" story_schema |}.

Definition generateStoryFromWords `{parser : !JSONParse StoryResponse}
    (words : list string) (theme : string) : Promise StoryResponse :=
  try_catch
    (response <~ generateContent (story_request words theme);
     let text := Env.text response in
     if negb (truthy text) then throw (Error "No story generated")
     else
       match JSON_parse (default EmptyString text) with
       | Some story => resolve story
       | None => throw SyntaxError
       end)
    (fun e => console_error "Story generation failed" ;~ throw e).

(** *** generateDailyLesson *)

Definition level_name (level : UserLevel) : string :=
  match level with
  | A1 => "A1" | A2 => "A2" | B1 => "B1"
  | B2 => "B2" | C1 => "C1" | C2 => "C2"
  end.

Definition lesson_prompt (level : UserLevel) (count : Z)
    (previousTopics : list string) (systemLanguage : string) : string :=
  "
    Generate a daily English lesson plan for a student at level " +:+ level_name level +:+ ".
    Generate exactly " +:+ toString count +:+ " distinct items.
    
    The items should be a mix of:
    1. " +:+ dq +:+ "sentence" +:+ dq +:+ ": Complex sentences that teach specific grammar points relevant to " +:+ level_name level +:+ " level (e.g., conditionals, relative clauses, specific tenses).
    2. " +:+ dq +:+ "vocabulary" +:+ dq +:+ ": Vocabulary words for testing.
    
    Context/Flavor (Optional): The student has recently studied: " +:+ join ", " (slice0 10 previousTopics) +:+ ".

    For " +:+ dq +:+ "sentence" +:+ dq +:+ " items:
    - Provide the full sentence.
    - Explain the grammar focus in " +:+ systemLanguage +:+ ".
    - Break down difficult words in the sentence.
    - Do NOT provide 'options' or 'correctOptionIndex'.

    For " +:+ dq +:+ "vocabulary" +:+ dq +:+ " items:
    - Provide the target word.
    - Provide a context sentence using the word (blanked out if you want, or full).
    - Provide 4 options for the " +:+ systemLanguage +:+ " translation/meaning (one correct, three distractors).
    - Provide the English definition.

    Important: Ensure all JSON strings are clean and properly escaped. 'grammarFocus' and 'translation' MUST be in " +:+ systemLanguage +:+ ".

    Return a strict JSON array.
  ".

Definition lesson_schema (systemLanguage : string) : Schema :=
  SArray (SObject
    [ ("id", plain);
      ("type", SString None ["sentence"; "vocabulary"]);
      ("content", described "The main sentence or the target vocabulary word");
      ("translation",
        described (systemLanguage
          +:+ " translation of the sentence OR the correct answer for vocabulary"));
      ("grammarFocus", described ("Grammar explanation in " +:+ systemLanguage));
      ("keyWords",
        SArray (SObject
          [ ("word", plain); ("partOfSpeech", plain); ("ipa", plain);
            ("definition", described ("Short definition in " +:+ systemLanguage));
            ("etymology", described "Optional root/origin info") ]
          [ "word"; "partOfSpeech"; "definition" ]));
      ("definition", plain);
      ("contextSentence", plain);
      ("options", SArray plain);
      ("correctOptionIndex", SInteger) ]
    [ "type"; "content"; "translation" ]).

(** [{ ...item, id }]. *)
Definition with_id (item : DailyLessonItem) (new_id : string)
  : DailyLessonItem :=
  {| dl_id := new_id;
     dl_type := dl_type item;
     dl_content := dl_content item;
     dl_translation := dl_translation item;
     grammarFocus := grammarFocus item;
     keyWords := keyWords item;
     dl_definition := dl_definition item;
     options := options item;
     correctOptionIndex := correctOptionIndex item;
     contextSentence := contextSentence item |}.

(** The callback of [parsed.map]: a fresh random id for the item. *)
Definition assign_id (item : DailyLessonItem) : Promise DailyLessonItem :=
  r <~ Math_random_toString36;
  resolve (with_id item (substr 2 9 r)).

Definition lesson_request (level : UserLevel) (count : Z)
    (previousTopics : list string) (systemLanguage : string) : Request :=
  {| rq_model := ANALYSIS_MODEL;
     rq_parts :=
       [text_part (lesson_prompt level count previousTopics systemLanguage)];
     rq_config :=
       JsonConfig "application/json" (lesson_schema systemLanguage) |}.

Definition generateDailyLesson `{parser : !JSONParse (list DailyLessonItem)}
    (level : UserLevel) (count : Z) (previousTopics : list string)
    (systemLanguage : string) : Promise (list DailyLessonItem) :=
  try_catch
    (response <~ generateContent
         (lesson_request level count previousTopics systemLanguage);
     let resultText := Env.text response in
     if negb (truthy resultText)
     then throw (Error "Empty response for daily lesson")
     else
       match JSON_parse (default EmptyString resultText) with
       | Some parsed => mapP assign_id parsed
       | None => throw SyntaxError
       end)
    (fun error => console_error "Daily lesson generation failed:" ;~ throw error).

End GeminiService.

(* ================================================================== *)
(** ** components/AnalysisCard.tsx *)

Module AnalysisCard.
Import GeminiService.

(** [handleGenerateImage], for the card showing [item]. The component
    state is the [generatingImage] flag; [onUpdateImage] is the parent's
    callback and [parent] the parent's state. A cached image ends the
    handler at once; an empty result from the gateway is not reported to
    the parent. *)
Definition handleGenerateImage {S : Type}
    (onUpdateImage : string -> string -> S -> S)
    (item : HistoryItem) (generatingImage : bool) (parent : S)
  : World -> (bool * S) * World :=
  fun w =>
    if truthy (generatedImageUrl item) then ((generatingImage, parent), w)
    else
      match generateMnemonicImage (visualAidPrompt (data item)) w with
      | (Fulfilled url, w') =>
          let parent' :=
            if truthy (Some url) then onUpdateImage (id item) url parent
            else parent in
          ((false, parent'), w')
      | (Rejected _, w') => ((false, parent), w')
      end.

End AnalysisCard.

(* ================================================================== *)
(** ** App.tsx *)

Module App.
Import GeminiService.

Record State := {
  view : ViewState;
  history : list HistoryItem;
  currentId : option string;
  textInput : string;
  selectedImage : option string;
  isAnalyzing : bool;
  error : option string;
  quickViewItem : option HistoryItem;
  isQuickAnalyzing : bool;
  sourceLang : string;
  targetLang : string;
  systemLanguage : string;
  showStoryMode : bool }.

(** The state of a freshly mounted [App], before persistence is read. *)
Definition initial : State :=
  {| view := HOME; history := []; currentId := None;
     textInput := EmptyString; selectedImage := None;
     isAnalyzing := false; error := None;
     quickViewItem := None; isQuickAnalyzing := false;
     sourceLang := "Auto"; targetLang := "Chinese";
     systemLanguage := "Chinese"; showStoryMode := false |}.

(** [setHistory(f)] and [setQuickViewItem(f)], with functional updates. *)
Definition setHistory (f : list HistoryItem -> list HistoryItem)
    (st : State) : State :=
  {| view := view st; history := f (history st); currentId := currentId st;
     textInput := textInput st; selectedImage := selectedImage st;
     isAnalyzing := isAnalyzing st; error := error st;
     quickViewItem := quickViewItem st;
     isQuickAnalyzing := isQuickAnalyzing st;
     sourceLang := sourceLang st; targetLang := targetLang st;
     systemLanguage := systemLanguage st; showStoryMode := showStoryMode st |}.

Definition setQuickViewItem (f : option HistoryItem -> option HistoryItem)
    (st : State) : State :=
  {| view := view st; history := history st; currentId := currentId st;
     textInput := textInput st; selectedImage := selectedImage st;
     isAnalyzing := isAnalyzing st; error := error st;
     quickViewItem := f (quickViewItem st);
     isQuickAnalyzing := isQuickAnalyzing st;
     sourceLang := sourceLang st; targetLang := targetLang st;
     systemLanguage := systemLanguage st; showStoryMode := showStoryMode st |}.

Definition setIsAnalyzing (b : bool) (st : State) : State :=
  {| view := view st; history := history st; currentId := currentId st;
     textInput := textInput st; selectedImage := selectedImage st;
     isAnalyzing := b; error := error st;
     quickViewItem := quickViewItem st;
     isQuickAnalyzing := isQuickAnalyzing st;
     sourceLang := sourceLang st; targetLang := targetLang st;
     systemLanguage := systemLanguage st; showStoryMode := showStoryMode st |}.

Definition setIsQuickAnalyzing (b : bool) (st : State) : State :=
  {| view := view st; history := history st; currentId := currentId st;
     textInput := textInput st; selectedImage := selectedImage st;
     isAnalyzing := isAnalyzing st; error := error st;
     quickViewItem := quickViewItem st;
     isQuickAnalyzing := b;
     sourceLang := sourceLang st; targetLang := targetLang st;
     systemLanguage := systemLanguage st; showStoryMode := showStoryMode st |}.

Definition setError (e : option string) (st : State) : State :=
  {| view := view st; history := history st; currentId := currentId st;
     textInput := textInput st; selectedImage := selectedImage st;
     isAnalyzing := isAnalyzing st; error := e;
     quickViewItem := quickViewItem st;
     isQuickAnalyzing := isQuickAnalyzing st;
     sourceLang := sourceLang st; targetLang := targetLang st;
     systemLanguage := systemLanguage st; showStoryMode := showStoryMode st |}.

(** The six setters [handleAnalyze] runs after a successful analysis. *)
Definition showAnalysis (newItem : HistoryItem) (st : State) : State :=
  {| view := ANALYSIS;
     history := newItem :: history st;
     currentId := Some (id newItem);
     textInput := EmptyString; selectedImage := None;
     isAnalyzing := isAnalyzing st; error := error st;
     quickViewItem := quickViewItem st;
     isQuickAnalyzing := isQuickAnalyzing st;
     sourceLang := sourceLang st; targetLang := targetLang st;
     systemLanguage := systemLanguage st; showStoryMode := false |}.

Definition setLanguages (src tgt : string) (st : State) : State :=
  {| view := view st; history := history st; currentId := currentId st;
     textInput := textInput st; selectedImage := selectedImage st;
     isAnalyzing := isAnalyzing st; error := error st;
     quickViewItem := quickViewItem st;
     isQuickAnalyzing := isQuickAnalyzing st;
     sourceLang := src; targetLang := tgt;
     systemLanguage := systemLanguage st; showStoryMode := showStoryMode st |}.

(** [s.split(',')]. *)
Fixpoint split_comma (s : string) : list string :=
  match s with
  | EmptyString => [EmptyString]
  | String c rest =>
      if Ascii.eqb c ","%char then EmptyString :: split_comma rest
      else
        match split_comma rest with
        | h :: t => String c h :: t
        | [] => [String c EmptyString]
        end
  end.

(** [{ id: Date.now().toString(), timestamp: Date.now(), data, isFavorite }]:
    the clock is read twice. *)
Definition newHistoryItem (result : LearningAnalysis) (favorite : bool)
  : Promise HistoryItem :=
  id_ms <~ Date_now;
  stamp <~ Date_now;
  resolve {| id := toString id_ms; timestamp := stamp; data := result;
             isFavorite := favorite; generatedImageUrl := None |}.

(** [handleAnalyze(inputText)]. *)
Definition handleAnalyze_with `{parser : !JSONParse LearningAnalysis}
    (inputText : string) (st : State) : World -> State * World :=
  fun w =>
    if negb (truthy (Some inputText)) && negb (truthy (selectedImage st))
    then (st, w)
    else
      let st1 := setError None (setIsAnalyzing true st) in
      let base64Data :=
        if truthy (selectedImage st)
        then split_comma (default EmptyString (selectedImage st)) !! 1%nat
        else None in
      match (result <~ analyzeContent (Some inputText) base64Data
                         (sourceLang st) (targetLang st);
             newHistoryItem result false) w with
      | (Fulfilled newItem, w') =>
          (setIsAnalyzing false (showAnalysis newItem st1), w')
      | (Rejected _, w') =>
          (setIsAnalyzing false
             (setError (Some "Failed to analyze content. Please try again.") st1),
           w')
      end.

(** [handleAnalyze()]: the argument defaults to the draft text. *)
Definition handleAnalyze `{parser : !JSONParse LearningAnalysis} (st : State)
  : World -> State * World :=
  handleAnalyze_with (textInput st) st.

(** [handleQuickLookup(word)]. *)
Definition handleQuickLookup `{parser : !JSONParse LearningAnalysis}
    (word : string) (st : State) : World -> State * World :=
  fun w =>
    if negb (truthy (Some word)) then (st, w)
    else
      let st1 := setQuickViewItem (fun _ => None) (setIsQuickAnalyzing true st) in
      match (result <~ analyzeContent (Some word) None
                         (if String.eqb (sourceLang st) "Auto"
                          then "English" else sourceLang st)
                         (targetLang st);
             newHistoryItem result false) w with
      | (Fulfilled newItem, w') =>
          (setIsQuickAnalyzing false
             (setQuickViewItem (fun _ => Some newItem)
                (setHistory (fun prev => newItem :: prev) st1)),
           w')
      | (Rejected _, w') =>
          match console_error "Quick lookup failed" w' with
          | (_, w'') => (setIsQuickAnalyzing false st1, w'')
          end
      end.

(** [handleSaveDailyItem(analysisData)]. *)
Definition handleSaveDailyItem (analysisData : LearningAnalysis)
    (st : State) : World -> State * World :=
  fun w =>
    match newHistoryItem analysisData true w with
    | (Fulfilled newItem, w') =>
        (setHistory (fun prev => newItem :: prev) st, w')
    | (Rejected _, w') => (st, w')
    end.

(** [{ ...item, isFavorite: !item.isFavorite }]. *)
Definition flipFavorite (item : HistoryItem) : HistoryItem :=
  {| id := id item; timestamp := timestamp item; data := data item;
     isFavorite := negb (isFavorite item);
     generatedImageUrl := generatedImageUrl item |}.

(** [{ ...item, generatedImageUrl: url }]. *)
Definition withImage (url : string) (item : HistoryItem) : HistoryItem :=
  {| id := id item; timestamp := timestamp item; data := data item;
     isFavorite := isFavorite item;
     generatedImageUrl := Some url |}.

(** The quick-view item is open and has this id. *)
Definition quickViewHas (target : string) (st : State) : bool :=
  match quickViewItem st with
  | Some q => String.eqb (id q) target
  | None => false
  end.

Definition toggleFavorite (target : string) (st : State) : State :=
  let st1 :=
    setHistory
      (fun prev =>
         map (fun item =>
                if String.eqb (id item) target then flipFavorite item else item)
             prev)
      st in
  if quickViewHas target st
  then setQuickViewItem (fun prev => option_map flipFavorite prev) st1
  else st1.

(** [updateGeneratedImage(id, url)], called in the render that created
    it: the guard reads that render's [quickViewItem], which is then the
    one the functional update patches. The call that arrives after
    another lookup has replaced the open item is [Late.updateGeneratedImage]. *)
Definition updateGeneratedImage (target url : string) (st : State) : State :=
  let st1 :=
    setHistory
      (fun prev =>
         map (fun item =>
                if String.eqb (id item) target then withImage url item else item)
             prev)
      st in
  if quickViewHas target st
  then setQuickViewItem (fun prev => option_map (withImage url) prev) st1
  else st1.

Definition swapLanguages (st : State) : State :=
  if String.eqb (sourceLang st) "Auto" then st
  else setLanguages (targetLang st) (sourceLang st) st.

(** [setSelectedImage(img)] and [setTextInput(text)]. *)
Definition setSelectedImage (img : option string) (st : State) : State :=
  {| view := view st; history := history st; currentId := currentId st;
     textInput := textInput st; selectedImage := img;
     isAnalyzing := isAnalyzing st; error := error st;
     quickViewItem := quickViewItem st;
     isQuickAnalyzing := isQuickAnalyzing st;
     sourceLang := sourceLang st; targetLang := targetLang st;
     systemLanguage := systemLanguage st; showStoryMode := showStoryMode st |}.

Definition setTextInput (txt : string) (st : State) : State :=
  {| view := view st; history := history st; currentId := currentId st;
     textInput := txt; selectedImage := selectedImage st;
     isAnalyzing := isAnalyzing st; error := error st;
     quickViewItem := quickViewItem st;
     isQuickAnalyzing := isQuickAnalyzing st;
     sourceLang := sourceLang st; targetLang := targetLang st;
     systemLanguage := systemLanguage st; showStoryMode := showStoryMode st |}.

(** What the user (and the cards the application renders) can do to the
    controller, one handler at a time. *)
Inductive Action :=
| TypeText (txt : string)
| PickImage (img : option string)
| Analyze
| QuickLookup (word : string)
| SaveDailyItem (analysisData : LearningAnalysis)
| ToggleFavorite (target : string)
| UpdateImage (target url : string)
| SwapLanguages.

Definition perform `{parser : !JSONParse LearningAnalysis} (a : Action)
    (sw : State * World) : State * World :=
  match a with
  | TypeText txt => (setTextInput txt (fst sw), snd sw)
  | PickImage img => (setSelectedImage img (fst sw), snd sw)
  | Analyze => handleAnalyze (fst sw) (snd sw)
  | QuickLookup word => handleQuickLookup word (fst sw) (snd sw)
  | SaveDailyItem d => handleSaveDailyItem d (fst sw) (snd sw)
  | ToggleFavorite target => (toggleFavorite target (fst sw), snd sw)
  | UpdateImage target url => (updateGeneratedImage target url (fst sw), snd sw)
  | SwapLanguages => (swapLanguages (fst sw), snd sw)
  end.

Definition run `{parser : !JSONParse LearningAnalysis} (actions : list Action)
    (sw : State * World) : State * World :=
  fold_left (fun acc a => perform a acc) actions sw.

Definition ids (st : State) : list string := map id (history st).

End App.

(* ================================================================== *)
(** ** components/DailyStudy.tsx *)

Module DailyStudy.
Import GeminiService.

Record State := {
  preferences : option UserPreferences;
  isLoading : bool;
  lesson : list DailyLessonItem;
  currentIndex : nat;
  completed : bool;
  selectedOption : option nat;
  isCorrect : option bool }.

Definition initial : State :=
  {| preferences := None; isLoading := false; lesson := [];
     currentIndex := 0%nat; completed := false;
     selectedOption := None; isCorrect := None |}.

(** The history words that flavour the lesson,
    [historyRaw ? JSON.parse(historyRaw).map(h => h.data.originalText).slice(0, 10) : []],
    over the browser's local storage. [None] is a throw: the stored text
    does not parse (or is not a list of history items). *)
Definition historyWords `{history_parser : !JSONParse (list HistoryItem)}
    (storage : gmap string string) : option (list string) :=
  let historyRaw := storage !! "lingo_history" in
  if truthy historyRaw then
    match JSON_parse (default EmptyString historyRaw) with
    | Some items => Some (slice0 10 (map (fun h => originalText (data h)) items))
    | None => None
    end
  else Some [].

(** The [catch] and [finally] of [startDailySession]: [console.error(e)],
    recorded as one console line, and the loading flag down. *)
Definition sessionFailed (st : State) : World -> State * World :=
  fun w =>
    match console_error "daily session" w with
    | (_, w') =>
        ({| preferences := preferences st; isLoading := false;
            lesson := lesson st; currentIndex := currentIndex st;
            completed := completed st;
            selectedOption := selectedOption st;
            isCorrect := isCorrect st |}, w')
    end.

(** [startDailySession()]. The stored history is read and parsed inside
    the [try]: when that throws, the handler ends in its [catch] and the
    gateway is not called. *)
Definition startDailySession `{parser : !JSONParse (list DailyLessonItem)}
    `{history_parser : !JSONParse (list HistoryItem)}
    (systemLanguage : string) (storage : gmap string string)
    (st : State) : World -> State * World :=
  fun w =>
    match preferences st with
    | None => (st, w)
    | Some prefs =>
        match historyWords storage with
        | None => sessionFailed st w
        | Some words =>
            match generateDailyLesson (level prefs) (dailyGoal prefs)
                    words systemLanguage w with
            | (Fulfilled newLesson, w') =>
                ({| preferences := preferences st; isLoading := false;
                    lesson := newLesson; currentIndex := 0%nat;
                    completed := false;
                    selectedOption := None; isCorrect := None |}, w')
            | (Rejected _, w') => sessionFailed st w'
            end
        end
    end.

Definition handleNext (st : State) : State :=
  if (Z.of_nat (currentIndex st) <? Z.of_nat (length (lesson st)) - 1)%Z then
    {| preferences := preferences st; isLoading := isLoading st;
       lesson := lesson st; currentIndex := S (currentIndex st);
       completed := completed st;
       selectedOption := None; isCorrect := None |}
  else
    {| preferences := preferences st; isLoading := isLoading st;
       lesson := lesson st; currentIndex := currentIndex st;
       completed := true;
       selectedOption := selectedOption st; isCorrect := isCorrect st |}.

(** [handleQuizAnswer(index, correctIndex)]: the first answer locks. *)
Definition handleQuizAnswer (index : nat) (correctIndex : Z) (st : State)
  : State :=
  match selectedOption st with
  | Some _ => st
  | None =>
      {| preferences := preferences st; isLoading := isLoading st;
         lesson := lesson st; currentIndex := currentIndex st;
         completed := completed st;
         selectedOption := Some index;
         isCorrect := Some (Z.of_nat index =? correctIndex)%Z |}
  end.

(** The click handler of option [idx] of [item]:
    [handleQuizAnswer(idx, item.correctOptionIndex || 0)]. *)
Definition clickOption (item : DailyLessonItem) (idx : nat) (st : State)
  : State :=
  handleQuizAnswer idx (default 0%Z (correctOptionIndex item)) st.

(** The payload of the Save button of a sentence item. *)
Definition savePayload (item : DailyLessonItem) : LearningAnalysis :=
  {| originalText := dl_content item;
     la_translation := dl_translation item;
     breakdown := default [] (keyWords item);
     examples := [];
     visualAidPrompt := "A visual representation of the grammar concept";
     grammarNotes := default EmptyString (grammarFocus item) |}.

End DailyStudy.

(* ================================================================== *)
(** ** components/StoryGenerator.tsx *)

Module StoryGenerator.
Import GeminiService.

(** *** Decoding raw PCM *)

(** [bytes[i] = binaryString.charCodeAt(i)]: [atob] yields one character
    per byte, so the character codes are the bytes. *)
Definition bytes_of (binaryString : string) : list Z :=
  map (fun c => Z.of_N (N_of_ascii c)) (String.list_ascii_of_string binaryString).

(** One element of the [Int16Array] view: two bytes, low byte first
    (the byte order of the platforms the application runs on), read as
    a two's-complement 16-bit integer. *)
Definition int16 (lo hi : Z) : Z :=
  let u := Z.lor lo (Z.shiftl hi 8) in
  if Z.testbit u 15 then u - 65536 else u.

(** [new Int16Array(bytes.buffer)]: a view of half the length; a buffer
    of odd length is refused with a [RangeError]. *)
Fixpoint Int16Array_of (bytes : list Z) : option (list Z) :=
  match bytes with
  | [] => Some []
  | [_] => None
  | lo :: hi :: rest => option_map (cons (int16 lo hi)) (Int16Array_of rest)
  end.

(** [channelData[i] = dataInt16[i] / 32768.0]. The quotient of a 16-bit
    integer by 2^15 is exact in the 32-bit floats of the channel, so
    rationals lose nothing. *)
Definition normalize (v : Z) : Q := (inject_Z v / 32768)%Q.

(** From the binary string to the channel data. *)
Definition decodePCM (binaryString : string) : option (list Q) :=
  option_map (map normalize) (Int16Array_of (bytes_of binaryString)).

(** *** The component *)

Inductive NodeStatus := Playing | Stopped | Ended.

(** An [AudioBufferSourceNode] that has been started. *)
Record SourceNode := {
  buffer : list Q;
  sampleRate : Z;
  status : NodeStatus }.

Record State := {
  theme : string;
  story : option StoryResponse;
  isLoading : bool;
  audioBase64 : option string;
  isPlaying : bool;
  isGeneratingAudio : bool;
  audioContextRef : option Z;        (* the context, by its sample rate *)
  sourceNodeRef : option nat;        (* the node the ref points to *)
  nodes : list SourceNode }.         (* every node ever started *)

Definition initial : State :=
  {| theme := "Daily Life"; story := None; isLoading := false;
     audioBase64 := None; isPlaying := false; isGeneratingAudio := false;
     audioContextRef := None; sourceNodeRef := None; nodes := [] |}.

Definition setIsPlaying (b : bool) (st : State) : State :=
  {| theme := theme st; story := story st; isLoading := isLoading st;
     audioBase64 := audioBase64 st; isPlaying := b;
     isGeneratingAudio := isGeneratingAudio st;
     audioContextRef := audioContextRef st;
     sourceNodeRef := sourceNodeRef st; nodes := nodes st |}.

Definition setIsGeneratingAudio (b : bool) (st : State) : State :=
  {| theme := theme st; story := story st; isLoading := isLoading st;
     audioBase64 := audioBase64 st; isPlaying := isPlaying st;
     isGeneratingAudio := b;
     audioContextRef := audioContextRef st;
     sourceNodeRef := sourceNodeRef st; nodes := nodes st |}.

Definition setAudioBase64 (a : option string) (st : State) : State :=
  {| theme := theme st; story := story st; isLoading := isLoading st;
     audioBase64 := a; isPlaying := isPlaying st;
     isGeneratingAudio := isGeneratingAudio st;
     audioContextRef := audioContextRef st;
     sourceNodeRef := sourceNodeRef st; nodes := nodes st |}.

Definition setIsLoading (b : bool) (st : State) : State :=
  {| theme := theme st; story := story st; isLoading := b;
     audioBase64 := audioBase64 st; isPlaying := isPlaying st;
     isGeneratingAudio := isGeneratingAudio st;
     audioContextRef := audioContextRef st;
     sourceNodeRef := sourceNodeRef st; nodes := nodes st |}.

Definition setStory (s : option StoryResponse) (st : State) : State :=
  {| theme := theme st; story := s; isLoading := isLoading st;
     audioBase64 := audioBase64 st; isPlaying := isPlaying st;
     isGeneratingAudio := isGeneratingAudio st;
     audioContextRef := audioContextRef st;
     sourceNodeRef := sourceNodeRef st; nodes := nodes st |}.

(** [if (!audioContextRef.current) audioContextRef.current = new AudioContext(...)]. *)
Definition ensureContext (st : State) : State :=
  {| theme := theme st; story := story st; isLoading := isLoading st;
     audioBase64 := audioBase64 st; isPlaying := isPlaying st;
     isGeneratingAudio := isGeneratingAudio st;
     audioContextRef :=
       match audioContextRef st with Some c => Some c | None => Some 24000 end;
     sourceNodeRef := sourceNodeRef st; nodes := nodes st |}.

(** [source.stop()] on node [n]: a playing node stops; one that is over
    stays as it is. *)
Definition stopNode (n : nat) (l : list SourceNode) : list SourceNode :=
  match l !! n with
  | Some node =>
      match status node with
      | Playing =>
          <[n := {| buffer := buffer node; sampleRate := sampleRate node;
                    status := Stopped |}]> l
      | _ => l
      end
  | None => l
  end.

(** Node [n] reaches the end of its buffer. *)
Definition finishNode (n : nat) (l : list SourceNode) : list SourceNode :=
  match l !! n with
  | Some node =>
      match status node with
      | Playing =>
          <[n := {| buffer := buffer node; sampleRate := sampleRate node;
                    status := Ended |}]> l
      | _ => l
      end
  | None => l
  end.

(** The tail of [playFromBase64]: a buffer source is created over the
    samples, its reference overwrites [sourceNodeRef.current], and it
    is started. *)
Definition startSource (samples : list Q) (st : State) : State :=
  {| theme := theme st; story := story st; isLoading := isLoading st;
     audioBase64 := audioBase64 st; isPlaying := true;
     isGeneratingAudio := isGeneratingAudio st;
     audioContextRef := audioContextRef st;
     sourceNodeRef := Some (length (nodes st));
     nodes := nodes st ++ [{| buffer := samples; sampleRate := 24000;
                              status := Playing |}] |}.

Section WithAtob.

(** [atob]: the browser's base64 decoder; [None] when it throws. *)
Variable atob : string -> option string.

(** [playFromBase64(base64)]. Anything thrown on the way ([atob], the
    typed-array view, [createBuffer], which refuses a length of zero)
    lands in the [catch]. *)
Definition playFromBase64 (base64 : string) (st : State)
  : World -> State * World :=
  fun w =>
    let st := ensureContext st in
    let failed :=
      match console_error "Audio Playback Error" w with
      | (_, w') => (setIsPlaying false st, w')
      end in
    match atob base64 with
    | None => failed
    | Some binaryString =>
        match decodePCM binaryString with
        | None => failed
        | Some [] => failed
        | Some channelData => (startSource channelData st, w)
        end
    end.

(** [stopAudio()]. *)
Definition stopAudio (st : State) : State :=
  let st1 :=
    match sourceNodeRef st with
    | Some n =>
        {| theme := theme st; story := story st; isLoading := isLoading st;
           audioBase64 := audioBase64 st; isPlaying := isPlaying st;
           isGeneratingAudio := isGeneratingAudio st;
           audioContextRef := audioContextRef st;
           sourceNodeRef := None; nodes := stopNode n (nodes st) |}
    | None => st
    end in
  setIsPlaying false st1.

(** The [ended] event of node [n], handled by
    [source.onended = () => setIsPlaying(false)]. The event follows a
    natural end (the node was playing until now) as well as an
    explicit [stop()] (the node is already stopped). *)
Definition onended (n : nat) (st : State) : State :=
  match nodes st !! n with
  | Some _ =>
      setIsPlaying false
        {| theme := theme st; story := story st; isLoading := isLoading st;
           audioBase64 := audioBase64 st; isPlaying := isPlaying st;
           isGeneratingAudio := isGeneratingAudio st;
           audioContextRef := audioContextRef st;
           sourceNodeRef := sourceNodeRef st;
           nodes := finishNode n (nodes st) |}
  | None => st
  end.

(** [playAudio()]. *)
Definition playAudio (st : State) : World -> State * World :=
  fun w =>
    match story st with
    | None => (st, w)
    | Some s =>
        if truthy (audioBase64 st)
        then playFromBase64 (default EmptyString (audioBase64 st)) st w
        else
          let st1 := setIsGeneratingAudio true st in
          match generateTextToSpeech (sr_content s) w with
          | (Fulfilled b64, w') =>
              if truthy b64 then
                match playFromBase64 (default EmptyString b64)
                        (setAudioBase64 b64 st1) w' with
                | (st2, w'') => (setIsGeneratingAudio false st2, w'')
                end
              else (setIsGeneratingAudio false st1, w')
          | (Rejected _, w') =>
              match console_error "TTS Error" w' with
              | (_, w'') => (setIsGeneratingAudio false st1, w'')
              end
          end
    end.

(** [handleGenerate()] for the component's [words], with nothing else
    running while it waits for the story; [Phases] has its two halves. *)
Definition handleGenerate `{parser : !JSONParse StoryResponse}
    (words : list string) (st : State) : World -> State * World :=
  fun w =>
    match words with
    | [] => (st, w)
    | _ =>
        let st1 := setAudioBase64 None (stopAudio (setIsLoading true st)) in
        match generateStoryFromWords words (theme st) w with
        | (Fulfilled result, w') =>
            (setIsLoading false (setStory (Some result) st1), w')
        | (Rejected _, w') =>
            match console_error "story" w' with
            | (_, w'') => (setIsLoading false st1, w'')
            end
        end
    end.

(** What can happen to the mounted component. *)
Inductive Event :=
| ClickListen                         (* the Listen button: [playAudio] *)
| ClickStop                           (* the Stop button: [stopAudio] *)
| ClickGenerate (words : list string) (* Generate Story: [handleGenerate] *)
| EndedEvent (n : nat).               (* node [n] fires [ended] *)

Definition step `{parser : !JSONParse StoryResponse} (e : Event)
    (sw : State * World) : State * World :=
  match e with
  | ClickListen => playAudio (fst sw) (snd sw)
  | ClickStop => (stopAudio (fst sw), snd sw)
  | ClickGenerate words => handleGenerate words (fst sw) (snd sw)
  | EndedEvent n => (onended n (fst sw), snd sw)
  end.

Definition run `{parser : !JSONParse StoryResponse} (evs : list Event)
    (sw : State * World) : State * World :=
  fold_left (fun acc e => step e acc) evs sw.

End WithAtob.

(** Node [n] is an active playback source. *)
Definition playingIn (l : list SourceNode) (n : nat) : bool :=
  match l !! n with
  | Some node => match status node with Playing => true | _ => false end
  | None => false
  end.

Definition playing (st : State) (n : nat) : bool := playingIn (nodes st) n.

Definition anyPlaying (st : State) : bool :=
  existsb (fun node => match status node with Playing => true | _ => false end)
          (nodes st).

Definition at_most_one_active (st : State) : Prop :=
  forall i j : nat, playing st i = true -> playing st j = true -> i = j.

(** Along a run, every click on Listen finds no active source. *)
Fixpoint listen_only_when_idle `{parser : !JSONParse StoryResponse}
    (atob : string -> option string) (evs : list Event)
    (sw : State * World) : bool :=
  match evs with
  | [] => true
  | e :: rest =>
      (match e with
       | ClickListen => negb (anyPlaying (fst sw))
       | _ => true
       end)
      && listen_only_when_idle atob rest (step atob e sw)
  end.

End StoryGenerator.

Module SG := StoryGenerator.

(* ================================================================== *)
(** ** Vocabulary of the properties *)

Module Props.
Import GeminiService.

(** Some part of some candidate of the response carries inline data. *)
Definition carries_inline (r : Response) : bool :=
  existsb
    (fun c =>
       match content c with
       | Some ct =>
           existsb (fun part => bool_decide (is_Some (inlineData part)))
                   (default [] (parts ct))
       | None => false
       end)
    (default [] (candidates r)).

(** The provider call for [rq], issued now, fails or answers without
    inline data. *)
Definition generation_fails (rq : Request) (w : World) : Prop :=
  match service w (length (sent w)) rq with
  | Rejected _ => True
  | Fulfilled r => carries_inline r = false
  end.

(** [correctOptionIndex] and [options] are both present and the index
    points into the options. *)
Definition index_in_bounds (item : DailyLessonItem) : Prop :=
  match correctOptionIndex item, options item with
  | Some i, Some opts => (0 <= i < Z.of_nat (length opts))%Z
  | _, _ => True
  end.

Definition tagged (item : DailyLessonItem) : Prop :=
  dl_type item = "sentence" \/ dl_type item = "vocabulary".

(** The clock readings that become ids, from tick [t0] on: every save
    reads the clock twice and the first reading is the id. *)
Definition id_reading (w : World) (t0 k : nat) : Z := clock w (t0 + 2 * k).

Definition id_readings_distinct (w : World) (t0 : nat) : Prop :=
  forall i j : nat, id_reading w t0 i = id_reading w t0 j -> i = j.

Definition id_readings_fresh (w : World) (t0 : nat) (old : list string) : Prop :=
  forall k : nat, toString (id_reading w t0 k) ∉ old.

(** The ids of [n] saves made from tick [t0] on, newest first. *)
Definition saved_ids (w : World) (t0 n : nat) : list string :=
  map (fun k => toString (id_reading w t0 k)) (rev (seq 0 n)).

(** [String.prototype.startsWith] and [String.prototype.includes]. *)
Fixpoint startsWith (needle s : string) : bool :=
  match needle, s with
  | EmptyString, _ => true
  | String a needle', String b s' => Ascii.eqb a b && startsWith needle' s'
  | String _ _, EmptyString => false
  end.

Fixpoint includes (needle s : string) : bool :=
  startsWith needle s
  || match s with
     | EmptyString => false
     | String _ rest => includes needle rest
     end.

(** The request is one text part, a prompt with the sentence that asks
    for exactly [count] items. *)
Definition asks_for_exactly (count : Z) (rq : Request) : Prop :=
  exists prompt : string,
    rq_parts rq = [text_part prompt]
    /\ includes ("Generate exactly " +:+ toString count +:+ " distinct items.")
                prompt = true.

(** The image payload and the source language the two analysing handlers
    give to the gateway:
    [selectedImage ? selectedImage.split(',')[1] : null] and
    [sourceLang === 'Auto' ? 'English' : sourceLang]. *)
Definition payload_of (st : App.State) : option string :=
  if truthy (App.selectedImage st)
  then App.split_comma (default EmptyString (App.selectedImage st)) !! 1%nat
  else None.

Definition lookup_source (st : App.State) : string :=
  if String.eqb (App.sourceLang st) "Auto" then "English" else App.sourceLang st.

(** The outcome of the analysis a handler asks for, when it asks:
    [None] when its guard returns at once. *)
Definition asked_analysis `{parser : !JSONParse LearningAnalysis}
    (a : App.Action) (sw : App.State * World)
  : option (Settled LearningAnalysis) :=
  match a with
  | App.Analyze =>
      if negb (truthy (Some (App.textInput (fst sw))))
         && negb (truthy (App.selectedImage (fst sw)))
      then None
      else Some (fst (analyzeContent (Some (App.textInput (fst sw)))
                        (payload_of (fst sw)) (App.sourceLang (fst sw))
                        (App.targetLang (fst sw)) (snd sw)))
  | App.QuickLookup word =>
      if negb (truthy (Some word)) then None
      else Some (fst (analyzeContent (Some word) None (lookup_source (fst sw))
                        (App.targetLang (fst sw)) (snd sw)))
  | _ => None
  end.

(** A save operation, and what it saves: a daily-study save with its
    payload, a main analysis or a quick lookup whose analysis succeeds
    with the result. Every other action saves nothing. *)
Definition saved_data `{parser : !JSONParse LearningAnalysis}
    (a : App.Action) (sw : App.State * World) : option LearningAnalysis :=
  match a with
  | App.SaveDailyItem d => Some d
  | _ =>
      match asked_analysis a sw with
      | Some (Fulfilled result) => Some result
      | _ => None
      end
  end.

(** The number of save operations in a run of the controller. *)
Fixpoint saves `{parser : !JSONParse LearningAnalysis}
    (actions : list App.Action) (sw : App.State * World) : nat :=
  match actions with
  | [] => 0%nat
  | a :: rest =>
      (match saved_data a sw with Some _ => 1 | None => 0 end
       + saves rest (App.perform a sw))%nat
  end.

(** The signed 16-bit integer whose little-endian bytes are [b0], [b1]:
    the unsigned value [b0 + 256 * b1], less 65536 from 32768 on. *)
Definition le_int16 (b0 b1 : Z) : Z :=
  let u := b0 + 256 * b1 in
  if (u <? 32768)%Z then u else u - 65536.

(** Every active playback source is the one [sourceNodeRef] points to. *)
Definition tracked (st : StoryGenerator.State) : Prop :=
  forall n : nat,
    StoryGenerator.playing st n = true ->
    StoryGenerator.sourceNodeRef st = Some n.

(** The Listen button is on screen and enabled. *)
Definition listen_offered (st : StoryGenerator.State) : bool :=
  bool_decide (is_Some (StoryGenerator.story st))
  && negb (StoryGenerator.isLoading st)
  && negb (StoryGenerator.isPlaying st)
  && negb (StoryGenerator.isGeneratingAudio st).

End Props.

(* ================================================================== *)
(** ** Fixtures: concrete worlds and values for the examples *)

Module Fixtures.
Import GeminiService.

Definition gato : LearningAnalysis :=
  {| originalText := "gato"; la_translation := "cat";
     breakdown :=
       [ {| word := "gato"; partOfSpeech := "Noun"; ipa := "gato";
            wb_definition := "cat"; etymology := "Latin cattus" |} ];
     examples := ["El gato duerme."];
     visualAidPrompt := "A cat asleep on a sunny windowsill";
     grammarNotes := "Masculine noun." |}.

(** JSON text, written out: a quoted string and a member of an object. *)
Definition q (s : string) : string := dq +:+ s +:+ dq.
Definition member (key value : string) : string := q key +:+ ":" +:+ value.
Definition object (members : list string) : string :=
  "{" +:+ join "," members +:+ "}".
Definition array (elements : list string) : string :=
  "[" +:+ join "," elements +:+ "]".

Definition gato_json : string :=
  object
    [ member "originalText" (q "gato");
      member "translation" (q "cat");
      member "breakdown"
        (array [ object [ member "word" (q "gato");
                          member "partOfSpeech" (q "Noun");
                          member "ipa" (q "gato");
                          member "definition" (q "cat");
                          member "etymology" (q "Latin cattus") ] ]);
      member "examples" (array [ q "El gato duerme." ]);
      member "grammarNotes" (q "Masculine noun.");
      member "visualAidPrompt" (q "A cat asleep on a sunny windowsill") ].

(** [JSON.parse] on the one document it is given here. *)
Definition parse_gato : JSONParse LearningAnalysis :=
  fun s => if String.eqb s gato_json then Some gato else None.

Definition world_of (srv : nat -> Request -> Settled Response)
    (clk : nat -> Z) (rnd : nat -> string) : World :=
  {| service := srv; sent := []; clock := clk; ticks := 0%nat;
     random36 := rnd; draws := 0%nat; console := [] |}.

Definition ticking (n : nat) : Z := (1730000000000 + Z.of_nat n)%Z.
Definition frozen (n : nat) : Z := 1730000000000%Z.
Definition dice (n : nat) : string := "0.k3j9x8q2m1z".

Definition answers (txt : string) : nat -> Request -> Settled Response :=
  fun _ _ => Fulfilled {| text := Some txt; candidates := None |}.

Definition unreachable : nat -> Request -> Settled Response :=
  fun _ _ => Rejected (ApiError "503").

(** A provider that answers with content parts only. *)
Definition answers_parts (ps : list ContentPart)
  : nat -> Request -> Settled Response :=
  fun _ _ =>
    Fulfilled
      {| text := None;
         candidates := Some [ {| content := Some {| parts := Some ps |} |} ] |}.

Definition w_gato : World := world_of (answers gato_json) ticking dice.
Definition w_down : World := world_of unreachable ticking dice.
Definition w_frozen : World := world_of (answers gato_json) frozen dice.
Definition w_textonly : World :=
  world_of (answers_parts [text_part "no picture today"]) ticking dice.

Definition cached : HistoryItem :=
  {| id := "1729999999999"; timestamp := 1729999999999%Z; data := gato;
     isFavorite := false;
     generatedImageUrl := Some "data:image/png;base64,iVBORw0KGgo=" |}.

Definition bare : HistoryItem :=
  {| id := "1729999999000"; timestamp := 1729999999000%Z; data := gato;
     isFavorite := true; generatedImageUrl := None |}.

Definition app_with (items : list HistoryItem) (quick : option HistoryItem)
  : App.State :=
  App.setQuickViewItem (fun _ => quick) (App.setHistory (fun _ => items) App.initial).

(** A lesson of one vocabulary item whose index points past its options. *)
Definition stray : DailyLessonItem :=
  {| dl_id := "v1"; dl_type := "vocabulary";
     dl_content := "serendipity"; dl_translation := "happy accident";
     grammarFocus := None; keyWords := None;
     dl_definition := Some "finding good things by chance";
     options := Some ["luck"; "happy accident"; "sadness"; "storm"];
     correctOptionIndex := Some 7%Z;
     contextSentence := None |}.

Definition sound : DailyLessonItem :=
  {| dl_id := "v2"; dl_type := "vocabulary";
     dl_content := "brisk"; dl_translation := "quick";
     grammarFocus := None; keyWords := None;
     dl_definition := Some "quick and energetic";
     options := Some ["slow"; "quick"; "heavy"; "quiet"];
     correctOptionIndex := Some 1%Z;
     contextSentence := Some "A brisk walk." |}.

(** An item of a kind the schema does not know. *)
Definition idiom : DailyLessonItem :=
  {| dl_id := "i1"; dl_type := "idiom";
     dl_content := "break the ice"; dl_translation := "start a conversation";
     grammarFocus := None; keyWords := None;
     dl_definition := None; options := None;
     correctOptionIndex := None; contextSentence := None |}.

Definition stray_json : string :=
  array [ object
    [ member "id" (q "v1"); member "type" (q "vocabulary");
      member "content" (q "serendipity");
      member "translation" (q "happy accident");
      member "definition" (q "finding good things by chance");
      member "options"
        (array [q "luck"; q "happy accident"; q "sadness"; q "storm"]);
      member "correctOptionIndex" "7" ] ].

Definition sound_json : string :=
  array [ object
    [ member "id" (q "v2"); member "type" (q "vocabulary");
      member "content" (q "brisk"); member "translation" (q "quick");
      member "definition" (q "quick and energetic");
      member "contextSentence" (q "A brisk walk.");
      member "options" (array [q "slow"; q "quick"; q "heavy"; q "quiet"]);
      member "correctOptionIndex" "1" ] ].

Definition idiom_json : string :=
  array [ object
    [ member "id" (q "i1"); member "type" (q "idiom");
      member "content" (q "break the ice");
      member "translation" (q "start a conversation") ] ].

(** [JSON.parse] on the three lesson documents. *)
Definition parse_lesson : JSONParse (list DailyLessonItem) :=
  fun s =>
    if String.eqb s stray_json then Some [stray]
    else if String.eqb s sound_json then Some [sound]
    else if String.eqb s idiom_json then Some [idiom]
    else None.

Definition w_stray : World := world_of (answers stray_json) ticking dice.

(** An answer of two vocabulary items, to a request that asked for five;
    the random source gives a different number at each draw. *)
Definition pair_json : string :=
  array
    [ object
        [ member "id" (q "v1"); member "type" (q "vocabulary");
          member "content" (q "serendipity");
          member "translation" (q "happy accident");
          member "definition" (q "finding good things by chance");
          member "options"
            (array [q "luck"; q "happy accident"; q "sadness"; q "storm"]);
          member "correctOptionIndex" "7" ];
      object
        [ member "id" (q "v2"); member "type" (q "vocabulary");
          member "content" (q "brisk"); member "translation" (q "quick");
          member "definition" (q "quick and energetic");
          member "contextSentence" (q "A brisk walk.");
          member "options" (array [q "slow"; q "quick"; q "heavy"; q "quiet"]);
          member "correctOptionIndex" "1" ] ].

Definition parse_pair : JSONParse (list DailyLessonItem) :=
  fun s => if String.eqb s pair_json then Some [stray; sound] else None.

Definition rolling (n : nat) : string :=
  match n with
  | O => "0.k3j9x8q2m1z"
  | _ => "0.4fzyo82mvyr"
  end.

Definition w_pair : World := world_of (answers pair_json) ticking rolling.
Definition w_sound : World := world_of (answers sound_json) ticking dice.
Definition w_idiom : World :=
  world_of (answers idiom_json) ticking (fun _ => "0").

(** [atob] on the one payload used below: two zero bytes, then FF 7F
    (one silent sample and the loudest positive one). *)
Definition pcm4 : string :=
  String (ascii_of_nat 0) (String (ascii_of_nat 0)
 (String (ascii_of_nat 255) (String (ascii_of_nat 127) EmptyString))).

Definition atob_AAD_f : string -> option string :=
  fun s => if String.eqb s "AAD/fw==" then Some pcm4 else None.

Definition story_json : string :=
  object [ member "title" (q "The Cat");
           member "englishContent" (q "A cat sat.");
           member "content" (q "A cat sat.") ].

Definition parse_story : JSONParse StoryResponse :=
  fun s =>
    if String.eqb s story_json
    then Some {| title := "The Cat"; sr_content := "A cat sat.";
                 englishContent := "A cat sat." |}
    else None.

(** A provider for the story screen: story requests get the story,
    speech requests get the audio payload. *)
Definition studio : nat -> Request -> Settled Response :=
  fun _ rq =>
    match rq_config rq with
    | AudioConfig _ =>
        Fulfilled
          {| text := None;
             candidates :=
               Some [ {| content := Some {| parts :=
                   Some [inline_part "audio/L16;rate=24000" "AAD/fw=="] |} |} ] |}
    | _ => Fulfilled {| text := Some story_json; candidates := None |}
    end.

Definition w_studio : World := world_of studio ticking dice.

End Fixtures.

(* ================================================================== *)
(** ** App.tsx: what is rendered, and persistence *)

Module AppView.

(** [const currentItem = history.find(h => h.id === currentId)]; with no
    current id nothing is found. *)
Definition currentItem (st : App.State) : option HistoryItem :=
  match App.currentId st with
  | Some cur => List.find (fun h => String.eqb (id h) cur) (App.history st)
  | None => None
  end.

(** [renderHistoryOrFavorites(isFavorites)]: the items listed. *)
Definition items (isFavorites : bool) (st : App.State) : list HistoryItem :=
  if isFavorites then List.filter (fun h => isFavorite h) (App.history st)
  else App.history st.

(** The [words] handed to the story generator:
    [items.map(i => i.data.originalText)] over the favorites. *)
Definition storyWords (st : App.State) : list string :=
  map (fun i => originalText (data i)) (items true st).

(** The quick-analysis modal: [isOpen={isQuickAnalyzing || !!quickViewItem}]
    and its [onClose]. *)
Definition modalOpen (st : App.State) : bool :=
  App.isQuickAnalyzing st || bool_decide (is_Some (App.quickViewItem st)).

Definition closeModal (st : App.State) : App.State :=
  App.setIsQuickAnalyzing false (App.setQuickViewItem (fun _ => None) st).

(** [setSystemLanguage(lang)]. *)
Definition setSystemLanguage (lang : string) (st : App.State) : App.State :=
  {| App.view := App.view st; App.history := App.history st;
     App.currentId := App.currentId st;
     App.textInput := App.textInput st;
     App.selectedImage := App.selectedImage st;
     App.isAnalyzing := App.isAnalyzing st; App.error := App.error st;
     App.quickViewItem := App.quickViewItem st;
     App.isQuickAnalyzing := App.isQuickAnalyzing st;
     App.sourceLang := App.sourceLang st; App.targetLang := App.targetLang st;
     App.systemLanguage := lang; App.showStoryMode := App.showStoryMode st |}.

(** [JSON.stringify(value)]. *)
Class JSONStringify (T : Type) := JSON_stringify : T -> string.

(** The keys of the browser's local storage the application uses. *)
Definition HISTORY_KEY : string := "lingo_history".
Definition SYSTEM_LANG_KEY : string := "lingo_system_lang".
Definition PREFS_KEY : string := "lingo_daily_prefs".

(** The first effect of [App]: read the saved history (a value that does
    not parse is reported on the console and ignored) and the saved
    explanation language. *)
Definition loadPersistence `{parser : !JSONParse (list HistoryItem)}
    (storage : gmap string string) (st : App.State)
  : World -> App.State * World :=
  fun w =>
    let loaded :=
      match storage !! HISTORY_KEY with
      | Some savedHistory =>
          if truthy (Some savedHistory) then
            match JSON_parse savedHistory with
            | Some h => (App.setHistory (fun _ => h) st, w)
            | None =>
                match console_error "Failed to load history" w with
                | (_, w') => (st, w')
                end
            end
          else (st, w)
      | None => (st, w)
      end in
    match storage !! SYSTEM_LANG_KEY with
    | Some savedSystemLang =>
        if truthy (Some savedSystemLang)
        then (setSystemLanguage savedSystemLang (fst loaded), snd loaded)
        else loaded
    | None => loaded
    end.

(** The second effect, run after every render in which [history] has
    changed: [localStorage.setItem('lingo_history', JSON.stringify(history))]. *)
Definition persistHistory `{printer : !JSONStringify (list HistoryItem)}
    (st : App.State) (storage : gmap string string) : gmap string string :=
  <[HISTORY_KEY := JSON_stringify (App.history st)]> storage.

(** [handleSystemLanguageChange(lang)]. *)
Definition handleSystemLanguageChange (lang : string)
    (st : App.State) (storage : gmap string string)
  : App.State * gmap string string :=
  (setSystemLanguage lang st, <[SYSTEM_LANG_KEY := lang]> storage).

(** Mounting [App] over a storage: the first render has the initial
    state; then the effects run in the order they are declared, the load
    effect reading the storage and the save effect writing the history of
    the first render; the load effect's state updates cause a second
    render, after which the save effect writes the loaded history. *)
Definition mount `{parser : !JSONParse (list HistoryItem)}
    `{printer : !JSONStringify (list HistoryItem)}
    (storage : gmap string string)
  : World -> App.State * gmap string string * World :=
  fun w =>
    match loadPersistence storage App.initial w with
    | (st, w') =>
        (st, persistHistory st (persistHistory App.initial storage), w')
    end.

(** One handler of the controller followed by the save effect. *)
Definition performAndPersist `{parser : !JSONParse LearningAnalysis}
    `{printer : !JSONStringify (list HistoryItem)}
    (a : App.Action) (sws : App.State * gmap string string * World)
  : App.State * gmap string string * World :=
  match App.perform a (fst (fst sws), snd sws) with
  | (st', w') => (st', persistHistory st' (snd (fst sws)), w')
  end.

End AppView.

(* ================================================================== *)
(** ** The word spans of StoryGenerator.tsx and DailyStudy.tsx *)

Module Words.

(** The character class of the regular expression the spans strip their
    text with (dot, comma, slash, hash, bang, dollar, percent, caret,
    ampersand, star, semicolon, colon, braces, equals, hyphen, underscore,
    backtick, tilde, parentheses, question mark, both quotes), by
    character code. *)
Definition punctuation : list nat :=
  [ 46; 44; 47; 35; 33; 36; 37; 94; 38; 42; 59; 58;
    123; 125; 61; 45; 95; 96; 126; 40; 41; 63; 34; 39 ]%nat.

Definition isPunctuation (c : ascii) : bool :=
  existsb (Nat.eqb (nat_of_ascii c)) punctuation.

(** [segment.replace(/[...]/g, "")]: every character of the class is
    dropped, the others stay in place. *)
Fixpoint cleanWord (segment : string) : string :=
  match segment with
  | EmptyString => EmptyString
  | String c rest =>
      if isPunctuation c then cleanWord rest else String c (cleanWord rest)
  end.

(** The click handler of a word span: [onWordClick(cleanWord)], where the
    parent passes [handleQuickLookup]. *)
Definition clickWord `{parser : !JSONParse LearningAnalysis}
    (segment : string) (st : App.State) : World -> App.State * World :=
  App.handleQuickLookup (cleanWord segment) st.

(** Some character of the string is in the class. *)
Fixpoint hasPunctuation (s : string) : bool :=
  match s with
  | EmptyString => false
  | String c rest => isPunctuation c || hasPunctuation rest
  end.

(** Every character of the string is in the class. *)
Fixpoint onlyPunctuation (s : string) : bool :=
  match s with
  | EmptyString => true
  | String c rest => isPunctuation c && onlyPunctuation rest
  end.

End Words.

(* ================================================================== *)
(** ** services/geminiService.ts and components/ChatWidget.tsx: the chat *)

Module Chat.

Definition CHAT_MODEL : string := "gemini-2.5-flash".

(** One replayed turn: [{ role: m.role, parts: [{ text: m.text }] }]. *)
Record Turn := {
  turn_role : ChatRole;
  turn_parts : list ContentPart }.

(** What [ai.chats.create] and [chat.sendMessage] put on the wire. *)
Record ChatRequest := {
  ch_model : string;
  systemInstruction : string;
  ch_history : list Turn;
  message : string }.

Definition system_instruction (context : LearningAnalysis) : string :=
  "
    You are a helpful language tutor. The user is currently studying the following content:
    Original: " +:+ dq +:+ originalText context +:+ dq +:+ "
    Translation: " +:+ dq +:+ la_translation context +:+ dq +:+ "
    Grammar: " +:+ dq +:+ grammarNotes context +:+ dq +:+ "

    Answer the user's questions specifically related to this content. 
    Be encouraging, concise, and use markdown for formatting.
  ".

Definition FALLBACK : string := "I couldn't generate a response.".

Definition chat_request (currentHistory : list ChatMessage)
    (newMessage : string) (context : LearningAnalysis) : ChatRequest :=
  {| ch_model := CHAT_MODEL;
     systemInstruction := system_instruction context;
     ch_history :=
       map (fun m => {| turn_role := role m;
                        turn_parts := [GeminiService.text_part (cm_text m)] |})
           currentHistory;
     message := newMessage |}.

(** The state of the widget. *)
Record State := {
  messages : list ChatMessage;
  input : string;
  isLoading : bool }.

Definition initial : State :=
  {| messages := []; input := EmptyString; isLoading := false |}.

Section WithBrowser.

(** The chat endpoint of the provider, and [String.prototype.trim]. *)
Variable chat_backend : ChatRequest -> Settled Response.
Variable trim : string -> string.

(** [sendChatMessage(currentHistory, newMessage, context)]: no [try]
    here, a failure of the provider goes to the caller. *)
Definition sendChatMessage (currentHistory : list ChatMessage)
    (newMessage : string) (context : LearningAnalysis) : Promise string :=
  response <~ (fun w =>
     (chat_backend (chat_request currentHistory newMessage context), w));
  resolve (if truthy (Env.text response)
           then default EmptyString (Env.text response)
           else FALLBACK).

(** [handleSend()]. The history given to the gateway is the [messages] of
    the render the handler was created in, without the message being
    sent. *)
Definition handleSend (context : LearningAnalysis) (st : State)
  : World -> State * World :=
  fun w =>
    if negb (truthy (Some (trim (input st)))) then (st, w)
    else
      match (id_ms <~ Date_now;
             stamp <~ Date_now;
             resolve {| cm_id := toString id_ms; role := user;
                        cm_text := input st; cm_timestamp := stamp |}) w with
      | (Rejected _, w1) => (st, w1)
      | (Fulfilled userMsg, w1) =>
          let st1 := {| messages := messages st ++ [userMsg];
                        input := EmptyString; isLoading := true |} in
          match (responseText <~ sendChatMessage (messages st) (input st) context;
                 bot_ms <~ Date_now;
                 stamp <~ Date_now;
                 resolve {| cm_id := toString (bot_ms + 1); role := model;
                            cm_text := responseText;
                            cm_timestamp := stamp |}) w1 with
          | (Fulfilled botMsg, w2) =>
              ({| messages := messages st1 ++ [botMsg];
                  input := input st1; isLoading := false |}, w2)
          | (Rejected _, w2) =>
              match console_error "Chat error" w2 with
              | (_, w3) =>
                  ({| messages := messages st1;
                      input := input st1; isLoading := false |}, w3)
              end
          end
      end.

(** Typing [txt] into the box and sending it. *)
Definition say (context : LearningAnalysis) (txt : string)
    (sw : State * World) : State * World :=
  handleSend context
    {| messages := messages (fst sw); input := txt;
       isLoading := isLoading (fst sw) |} (snd sw).

Definition converse (context : LearningAnalysis) (txts : list string)
    (sw : State * World) : State * World :=
  fold_left (fun acc txt => say context txt acc) txts sw.

End WithBrowser.

End Chat.

(* ================================================================== *)
(** ** components/DailyStudy.tsx: the screens and the settings form *)

Module DailyView.

(** Which of the four returns of the component is taken. *)
Inductive Screen := Settings | Dashboard | Summary | ActiveItem.

Definition screen (st : DailyStudy.State) : Screen :=
  match DailyStudy.preferences st with
  | None => Settings
  | Some _ =>
      if Nat.eqb (length (DailyStudy.lesson st)) 0
         && negb (DailyStudy.completed st)
      then Dashboard
      else if DailyStudy.completed st then Summary
      else ActiveItem
  end.

(** "Back to Dashboard" on the summary screen: [setLesson([])]. *)
Definition backToDashboard (st : DailyStudy.State) : DailyStudy.State :=
  {| DailyStudy.preferences := DailyStudy.preferences st;
     DailyStudy.isLoading := DailyStudy.isLoading st;
     DailyStudy.lesson := [];
     DailyStudy.currentIndex := DailyStudy.currentIndex st;
     DailyStudy.completed := DailyStudy.completed st;
     DailyStudy.selectedOption := DailyStudy.selectedOption st;
     DailyStudy.isCorrect := DailyStudy.isCorrect st |}.

(** "Adjust Level" on the dashboard: [setPreferences(null)]. *)
Definition adjustLevel (st : DailyStudy.State) : DailyStudy.State :=
  {| DailyStudy.preferences := None;
     DailyStudy.isLoading := DailyStudy.isLoading st;
     DailyStudy.lesson := DailyStudy.lesson st;
     DailyStudy.currentIndex := DailyStudy.currentIndex st;
     DailyStudy.completed := DailyStudy.completed st;
     DailyStudy.selectedOption := DailyStudy.selectedOption st;
     DailyStudy.isCorrect := DailyStudy.isCorrect st |}.

(** [preferences?.streak || 0]. *)
Definition streakOrZero (prefs : option UserPreferences) : Z :=
  match prefs with
  | Some p => if (streak p =? 0)%Z then 0%Z else streak p
  | None => 0%Z
  end.

(** [savePreferences()] with the level and goal of the form. *)
Definition savePreferences `{printer : !AppView.JSONStringify UserPreferences}
    (tempLevel : UserLevel) (tempGoal : Z)
    (st : DailyStudy.State) (storage : gmap string string)
  : DailyStudy.State * gmap string string :=
  let newPrefs :=
    {| level := tempLevel; dailyGoal := tempGoal;
       lastStudyDate :=
         match DailyStudy.preferences st with
         | Some p => lastStudyDate p
         | None => None
         end;
       streak := streakOrZero (DailyStudy.preferences st) |} in
  ({| DailyStudy.preferences := Some newPrefs;
      DailyStudy.isLoading := DailyStudy.isLoading st;
      DailyStudy.lesson := DailyStudy.lesson st;
      DailyStudy.currentIndex := DailyStudy.currentIndex st;
      DailyStudy.completed := DailyStudy.completed st;
      DailyStudy.selectedOption := DailyStudy.selectedOption st;
      DailyStudy.isCorrect := DailyStudy.isCorrect st |},
   <[AppView.PREFS_KEY := AppView.JSON_stringify newPrefs]> storage).

(** The item on screen: [lesson[currentIndex]]. *)
Definition currentLessonItem (st : DailyStudy.State) : option DailyLessonItem :=
  DailyStudy.lesson st !! DailyStudy.currentIndex st.

(** Clicking the options [clicks] of the item on screen, one after the
    other. *)
Definition answer (item : DailyLessonItem) (clicks : list nat)
    (st : DailyStudy.State) : DailyStudy.State :=
  fold_left (fun acc idx => DailyStudy.clickOption item idx acc) clicks st.

(** "Next", [k] times. *)
Definition next_times (k : nat) (st : DailyStudy.State) : DailyStudy.State :=
  Nat.iter k DailyStudy.handleNext st.

End DailyView.

(* ================================================================== *)
(** ** App.tsx: an image callback that arrives late *)

Module Late.

(** [quickViewItem && quickViewItem.id === id], on the [quickViewItem] a
    render closed over. *)
Definition guard (closure : option HistoryItem) (target : string) : bool :=
  match closure with
  | Some q => String.eqb (id q) target
  | None => false
  end.

(** [updateGeneratedImage(id, url)] as a card calls it after its [await].
    The callback is the one of the render in which the card was clicked:
    its guard reads the [quickViewItem] of that render, [closure], while
    the two functional updates patch the state of the moment, [st]. *)
Definition updateGeneratedImage (closure : option HistoryItem)
    (target url : string) (st : App.State) : App.State :=
  let st1 :=
    App.setHistory
      (fun prev =>
         map (fun item =>
                if String.eqb (id item) target
                then App.withImage url item else item)
             prev)
      st in
  if guard closure target
  then App.setQuickViewItem (fun prev => option_map (App.withImage url) prev) st1
  else st1.

End Late.

(* ================================================================== *)
(** ** components/StoryGenerator.tsx: the two handlers, split at their await *)

Module Phases.

(** [handleGenerate] up to its [await]: the loading flag goes up, the
    audio is stopped, the cached speech is forgotten (and the request for
    the story leaves). *)
Definition handleGenerate_begin (st : SG.State) : SG.State :=
  SG.setAudioBase64 None (SG.stopAudio (SG.setIsLoading true st)).

(** [handleGenerate] from its [await] on, with what the gateway call
    settled to, in the state of that moment. *)
Definition handleGenerate_resume (outcome : Settled StoryResponse)
    (st : SG.State) : World -> SG.State * World :=
  fun w =>
    match outcome with
    | Fulfilled result => (SG.setIsLoading false (SG.setStory (Some result) st), w)
    | Rejected _ =>
        match console_error "story" w with
        | (_, w') => (SG.setIsLoading false st, w')
        end
    end.

Section WithAtob.

Variable atob : string -> option string.

(** [playAudio] from its [await] on, with what the speech call settled
    to, in the state of that moment. *)
Definition playAudio_resume (outcome : Settled (option string))
    (st : SG.State) : World -> SG.State * World :=
  fun w =>
    match outcome with
    | Fulfilled b64 =>
        if truthy b64 then
          match SG.playFromBase64 atob (default EmptyString b64)
                  (SG.setAudioBase64 b64 st) w with
          | (st2, w') => (SG.setIsGeneratingAudio false st2, w')
          end
        else (SG.setIsGeneratingAudio false st, w)
    | Rejected _ =>
        match console_error "TTS Error" w with
        | (_, w') => (SG.setIsGeneratingAudio false st, w')
        end
    end.

End WithAtob.

End Phases.

(* ================================================================== *)
(** ** More vocabulary and fixtures *)

Module Props2.

(** No event of the list is a click on Generate Story. *)
Definition no_generate (evs : list SG.Event) : bool :=
  forallb (fun e => match e with SG.ClickGenerate _ => false | _ => true end) evs.

(** The open quick-view item, if any, is an item of the history list. *)
Definition quickViewInHistory (st : App.State) : Prop :=
  forall q : HistoryItem,
    App.quickViewItem st = Some q -> q ∈ App.history st.

(** The first part of the response's first candidate that carries inline
    data. *)
Definition first_inline (r : Response) : option InlineData :=
  match List.find (fun part => bool_decide (is_Some (inlineData part)))
          (default [] (GeminiService.first_candidate_parts r)) with
  | Some part => inlineData part
  | None => None
  end.

(** In a transcript, every message of the model comes directly after a
    message of the user; [after_user] tells whether the message before the
    list is one of the user. *)
Fixpoint replies_follow (after_user : bool) (l : list ChatMessage) : bool :=
  match l with
  | [] => true
  | m :: rest =>
      match role m with
      | user => replies_follow true rest
      | model => after_user && replies_follow false rest
      end
  end.

(** The string has no comma. *)
Fixpoint no_comma (s : string) : bool :=
  match s with
  | EmptyString => true
  | String c rest => negb (Ascii.eqb c ","%char) && no_comma rest
  end.

End Props2.

Module Fixtures2.
Import Fixtures.

(** A serializer that knows the two history lists used below. *)
Definition bare_json : string :=
  object [ member "id" (q "1729999999000");
           member "timestamp" "1729999999000";
           member "data" gato_json;
           member "isFavorite" "true" ].

Definition print_history : AppView.JSONStringify (list HistoryItem) :=
  fun h =>
    match h with
    | [] => "[]"
    | _ => array [bare_json]
    end.

Definition parse_history : JSONParse (list HistoryItem) :=
  fun s =>
    if String.eqb s "[]" then Some []
    else if String.eqb s (array [bare_json]) then Some [bare]
    else None.

Definition print_prefs : AppView.JSONStringify UserPreferences :=
  fun p => object [ member "level" (q (GeminiService.level_name (level p)));
                    member "dailyGoal" (toString (dailyGoal p));
                    member "streak" (toString (streak p)) ].

(** A chat endpoint that answers, one that answers nothing, one that is
    down. *)
Definition chatty : Chat.ChatRequest -> Settled Response :=
  fun rq =>
    Fulfilled {| text := Some ("You asked: " +:+ Chat.message rq);
                 candidates := None |}.

Definition mute : Chat.ChatRequest -> Settled Response :=
  fun _ => Fulfilled {| text := None; candidates := None |}.

Definition hung_up : Chat.ChatRequest -> Settled Response :=
  fun _ => Rejected (ApiError "503").

(** [trim] for the texts used below, which have no blanks at their ends
    unless they are blank altogether. *)
Definition trim_plain : string -> string :=
  fun s => if String.eqb s "   " then EmptyString else s.

(** An answer with a picture in the second of three parts. *)
Definition w_picture : World :=
  world_of
    (answers_parts
       [ GeminiService.text_part "here it is";
         GeminiService.inline_part "image/png" "iVBORw0KGgo=";
         GeminiService.inline_part "image/jpeg" "/9j/4AAQ" ])
    ticking dice.

Definition prefs_b1 : UserPreferences :=
  {| level := B1; dailyGoal := 5; lastStudyDate := Some "2025-01-01";
     streak := 12 |}.

Definition session (items : list DailyLessonItem) : DailyStudy.State :=
  {| DailyStudy.preferences := Some prefs_b1; DailyStudy.isLoading := false;
     DailyStudy.lesson := items; DailyStudy.currentIndex := 0%nat;
     DailyStudy.completed := false;
     DailyStudy.selectedOption := None; DailyStudy.isCorrect := None |}.

Definition story_state : SG.State :=
  SG.setAudioBase64 (Some "AAD/fw==")
    (SG.setStory (Some {| title := "The Cat"; sr_content := "A cat sat.";
                          englishContent := "A cat sat." |}) SG.initial).

End Fixtures2.

(* ================================================================== *)
(** * Properties *)

Import GeminiService Props.

(** ** The gateway: input gate of [analyzeContent] *)

(** Once the parts are built, exactly one request goes out, whatever the
    provider answers. *)
Lemma analyzeContent_sends `{parser : !JSONParse LearningAnalysis}
    (text imageBase64 : option string) (sourceLang targetLang : string)
    (ps : list ContentPart) (w : World) :
  analysis_parts text imageBase64 sourceLang targetLang w = (Fulfilled ps, w) ->
  sent (snd (analyzeContent text imageBase64 sourceLang targetLang w))
  = (sent w ++ [analysis_request ps])%list.
Proof.
  intros Hparts. unfold analyzeContent, await. rewrite Hparts.
  unfold try_catch, await, generateContent.
  destruct (service w (length (sent w)) (analysis_request ps)) as [response|e];
    simpl.
  - destruct (truthy (Env.text response)); simpl; [|reflexivity].
    destruct (JSON_parse _); reflexivity.
  - reflexivity.
Qed.

(** C1, as the code has it: [analyzeContent] is rejected with
    "No input provided", with nothing sent and the world untouched, exactly
    when neither a text nor an image is supplied. When an image is supplied
    the call proceeds with the image (a text given along with it is
    ignored); when only a text is supplied the call proceeds with the
    text. In both cases exactly one request is sent. *)
Theorem analyzeContent_input_gate `{parser : !JSONParse LearningAnalysis}
    (text imageBase64 : option string) (sourceLang targetLang : string)
    (w : World) :
  (truthy imageBase64 = false -> truthy text = false ->
     analyzeContent text imageBase64 sourceLang targetLang w
     = (Rejected (Error "No input provided"), w))
  /\ (truthy imageBase64 = true ->
        sent (snd (analyzeContent text imageBase64 sourceLang targetLang w))
        = (sent w ++
           [analysis_request
              [ text_part (analysis_prompt sourceLang targetLang);
                inline_part "image/jpeg" (default EmptyString imageBase64);
                text_part "Extract the text from this image and analyze it." ]])%list)
  /\ (truthy imageBase64 = false -> truthy text = true ->
        sent (snd (analyzeContent text imageBase64 sourceLang targetLang w))
        = (sent w ++
           [analysis_request
              [ text_part (analysis_prompt sourceLang targetLang);
                text_part ("Analyze this text: " +:+ dq
                           +:+ default EmptyString text +:+ dq) ]])%list).
Proof.
  split; [|split].
  - intros Hi Ht. unfold analyzeContent, analysis_parts, await, throw.
    rewrite Hi, Ht. reflexivity.
  - intros Hi. apply analyzeContent_sends.
    unfold analysis_parts, resolve. rewrite Hi. reflexivity.
  - intros Hi Ht. apply analyzeContent_sends.
    unfold analysis_parts, resolve. rewrite Hi, Ht. reflexivity.
Qed.

Lemma analyzeContent_input_gate_witness :
  analyzeContent (parser := Fixtures.parse_gato) None (Some EmptyString)
      "Auto" "Chinese" Fixtures.w_gato
  = (Rejected (Error "No input provided"), Fixtures.w_gato).
Proof.
  apply (analyzeContent_input_gate (parser := Fixtures.parse_gato)
           None (Some EmptyString) "Auto" "Chinese" Fixtures.w_gato);
    reflexivity.
Defined.

(** C1, as the claim states it, fails: called with a text and an image
    together, [analyzeContent] sends its request and returns the analysis. *)
Lemma analyzeContent_accepts_both_inputs :
  let outcome :=
    analyzeContent (parser := Fixtures.parse_gato)
      (Some "gato") (Some "/9j/4AAQSkZJRg==") "Auto" "Chinese" Fixtures.w_gato in
  fst outcome = Fulfilled Fixtures.gato
  /\ length (sent (snd outcome)) = 1%nat.
Proof. vm_compute. split; reflexivity. Qed.

(** ** The gateway: failures that are swallowed *)

Lemma carries_inline_first_parts (r : Response) :
  carries_inline r = false ->
  forall part, part ∈ default [] (first_candidate_parts r) ->
               inlineData part = None.
Proof.
  unfold carries_inline, first_candidate_parts.
  intros H p Hin.
  destruct (candidates r) as [[|c cs]|]; simpl in *;
    try (now inversion Hin).
  apply orb_false_iff in H as [H _].
  destruct (content c) as [ct|]; simpl in *; [|now inversion Hin].
  destruct (parts ct) as [ps|]; simpl in *; [|now inversion Hin].
  destruct (inlineData p) as [d|] eqn:Hd; [|reflexivity].
  exfalso. apply list_elem_of_In in Hin.
  assert (Hex : existsb (fun q => bool_decide (is_Some (inlineData q))) ps = true).
  { apply existsb_exists. exists p. split; [exact Hin|].
    apply bool_decide_eq_true. rewrite Hd. eauto. }
  congruence.
Qed.

Lemma first_inline_uri_none (ps : list ContentPart) :
  (forall part, part ∈ ps -> inlineData part = None) ->
  first_inline_uri ps = EmptyString.
Proof.
  induction ps as [|p ps IH]; intros H; simpl; [reflexivity|].
  rewrite (H p) by apply list_elem_of_here.
  apply IH. intros part Hin. apply H. now apply list_elem_of_further.
Qed.

Lemma first_part_audio_none (r : Response) :
  carries_inline r = false -> first_part_audio r = None.
Proof.
  intros H. pose proof (carries_inline_first_parts r H) as Hparts.
  unfold first_part_audio.
  destruct (first_candidate_parts r) as [[|p ps]|]; simpl in *; try reflexivity.
  rewrite (Hparts p) by apply list_elem_of_here. reflexivity.
Qed.

(** What [generateMnemonicImage] returns, case by case. *)
Lemma generateMnemonicImage_result (prompt : string) (w : World) :
  fst (generateMnemonicImage prompt w)
  = Fulfilled
      match service w (length (sent w)) (image_request prompt) with
      | Fulfilled r => first_inline_uri (default [] (first_candidate_parts r))
      | Rejected _ => EmptyString
      end.
Proof.
  unfold generateMnemonicImage, try_catch, await, generateContent, resolve.
  destruct (service w (length (sent w)) (image_request prompt)); reflexivity.
Qed.

Lemma generateMnemonicImage_fails_empty (prompt : string) (w : World) :
  generation_fails (image_request prompt) w ->
  fst (generateMnemonicImage prompt w) = Fulfilled EmptyString.
Proof.
  intros Hfail. rewrite generateMnemonicImage_result.
  unfold generation_fails in Hfail.
  destruct (service w (length (sent w)) (image_request prompt)) as [r|e];
    [|reflexivity].
  f_equal. apply first_inline_uri_none.
  now apply carries_inline_first_parts.
Qed.

(** C7: [generateMnemonicImage] never throws; when the provider call fails
    or the response carries no inline image data it returns the empty
    string, and then [handleGenerateImage] leaves the whole controller
    state as it was: no history item, and no quick-view copy, has its
    cached [generatedImageUrl] (or anything else) changed. *)
Theorem image_failure_is_silent (prompt : string) (w : World) :
  generation_fails (image_request prompt) w ->
  (exists url w', generateMnemonicImage prompt w = (Fulfilled url, w'))
  /\ fst (generateMnemonicImage prompt w) = Fulfilled EmptyString
  /\ forall (item : HistoryItem) (generatingImage : bool) (st : App.State),
       visualAidPrompt (data item) = prompt ->
       snd (fst (AnalysisCard.handleGenerateImage App.updateGeneratedImage
                   item generatingImage st w)) = st.
Proof.
  intros Hfail.
  pose proof (generateMnemonicImage_fails_empty prompt w Hfail) as Hempty.
  split; [|split].
  - destruct (generateMnemonicImage prompt w) as [[url|e] w'] eqn:Hrun.
    + eauto.
    + simpl in Hempty. discriminate.
  - exact Hempty.
  - intros item flag st Hprompt. unfold AnalysisCard.handleGenerateImage.
    destruct (truthy (generatedImageUrl item)); [reflexivity|].
    rewrite Hprompt.
    destruct (generateMnemonicImage prompt w) as [[url|e] w'] eqn:Hrun;
      simpl in *; [|reflexivity].
    inversion Hempty; subst. reflexivity.
Qed.

Lemma image_failure_is_silent_witness :
  fst (generateMnemonicImage "A cat asleep on a sunny windowsill" Fixtures.w_down)
  = Fulfilled EmptyString
  /\ snd (fst (AnalysisCard.handleGenerateImage App.updateGeneratedImage
                 Fixtures.bare false
                 (Fixtures.app_with [Fixtures.bare; Fixtures.cached] None)
                 Fixtures.w_down))
     = Fixtures.app_with [Fixtures.bare; Fixtures.cached] None.
Proof.
  assert (Hfail : generation_fails
            (image_request "A cat asleep on a sunny windowsill") Fixtures.w_down)
    by (vm_compute; exact I).
  destruct (image_failure_is_silent _ _ Hfail) as (_ & Hempty & Hstate).
  split; [exact Hempty|].
  apply Hstate. reflexivity.
Defined.

(** What [generateTextToSpeech] returns, case by case. *)
Lemma generateTextToSpeech_result (text : string) (w : World) :
  fst (generateTextToSpeech text w)
  = Fulfilled
      match service w (length (sent w)) (tts_request text) with
      | Fulfilled r => or_else (first_part_audio r) None
      | Rejected _ => None
      end.
Proof.
  unfold generateTextToSpeech, try_catch, await, generateContent, resolve.
  destruct (service w (length (sent w)) (tts_request text)); reflexivity.
Qed.

(** C9: [generateTextToSpeech] never throws, and it returns null when the
    provider call fails or the response carries no inline audio data. *)
Theorem generateTextToSpeech_null_on_failure (text : string) (w : World) :
  (exists (r : option string) (w' : World),
      generateTextToSpeech text w = (Fulfilled r, w'))
  /\ (generation_fails (tts_request text) w ->
      fst (generateTextToSpeech text w) = Fulfilled None).
Proof.
  split.
  - pose proof (generateTextToSpeech_result text w) as H.
    destruct (generateTextToSpeech text w) as [[r|e] w']; simpl in H.
    + eauto.
    + discriminate.
  - intros Hfail. rewrite generateTextToSpeech_result.
    unfold generation_fails in Hfail.
    destruct (service w (length (sent w)) (tts_request text)) as [r|e];
      [|reflexivity].
    rewrite (first_part_audio_none r Hfail). reflexivity.
Qed.

Lemma generateTextToSpeech_null_on_failure_witness :
  fst (generateTextToSpeech "A cat sat." Fixtures.w_textonly) = Fulfilled None.
Proof.
  apply (generateTextToSpeech_null_on_failure "A cat sat." Fixtures.w_textonly).
  vm_compute. reflexivity.
Defined.

(** ** The gateway: daily lessons *)

Lemma substr_2_9_nonempty (s : string) :
  (2 < String.length s)%nat -> substr 2 9 s <> EmptyString.
Proof.
  destruct s as [|a [|b [|c s]]]; simpl; try lia.
  intros _. discriminate.
Qed.

(** [parsed.map(...)]: every element keeps its place and its fields, and
    takes its id from the next random draw. *)
Lemma mapP_assign_id (parsed : list DailyLessonItem) :
  forall w : World,
  exists (items : list DailyLessonItem) (w' : World),
    mapP assign_id parsed w = (Fulfilled items, w')
    /\ length items = length parsed
    /\ random36 w' = random36 w
    /\ draws w' = (draws w + length parsed)%nat
    /\ forall (i : nat) (p : DailyLessonItem),
         parsed !! i = Some p ->
         items !! i
         = Some (with_id p (substr 2 9 (random36 w (draws w + i)%nat))).
Proof.
  induction parsed as [|p rest IH]; intros w.
  - exists [], w. simpl. repeat split; try lia.
    intros i q Hq. inversion Hq.
  - simpl. unfold await at 1. unfold assign_id at 1.
    unfold await at 1. unfold Math_random_toString36 at 1. unfold resolve at 1.
    set (w1 := Build_World _ _ _ _ _ _ _).
    destruct (IH w1) as (items & w' & Hrun & Hlen & Hrnd & Hdraws & Hlook).
    unfold await at 1. rewrite Hrun. unfold resolve.
    eexists. exists w'. split; [reflexivity|].
    subst w1. simpl in *.
    repeat split; try lia; try assumption.
    intros [|i] q Hq; simpl in *.
    + inversion Hq; subst. rewrite Nat.add_0_r. reflexivity.
    + rewrite Nat.add_succ_r. apply Hlook. exact Hq.
Qed.

(** When the provider answers with text that parses, [generateDailyLesson]
    returns, one item for each parsed element. *)
Lemma generateDailyLesson_returns `{parser : !JSONParse (list DailyLessonItem)}
    (level : UserLevel) (count : Z) (previousTopics : list string)
    (systemLanguage : string) (w : World)
    (response : Response) (parsed : list DailyLessonItem) :
  service w (length (sent w))
          (lesson_request level count previousTopics systemLanguage)
  = Fulfilled response ->
  truthy (Env.text response) = true ->
  JSON_parse (default EmptyString (Env.text response)) = Some parsed ->
  exists (items : list DailyLessonItem) (w' : World),
    generateDailyLesson level count previousTopics systemLanguage w
    = (Fulfilled items, w')
    /\ length items = length parsed
    /\ forall (i : nat) (p : DailyLessonItem),
         parsed !! i = Some p ->
         items !! i
         = Some (with_id p (substr 2 9 (random36 w (draws w + i)%nat))).
Proof.
  intros Hsrv Htext Hparse.
  unfold generateDailyLesson, try_catch, await, generateContent.
  rewrite Hsrv, Htext. simpl. rewrite Hparse.
  set (w1 := Build_World _ _ _ _ _ _ _).
  destruct (mapP_assign_id parsed w1)
    as (items & w' & Hrun & Hlen & _ & _ & Hlook).
  rewrite Hrun. exists items, w'. repeat split; assumption.
Qed.

(** Like [mapP_assign_id], for what the draws leave alone. *)
Lemma mapP_assign_id_world (parsed : list DailyLessonItem) :
  forall w : World,
  exists (items : list DailyLessonItem) (w' : World),
    mapP assign_id parsed w = (Fulfilled items, w')
    /\ length items = length parsed
    /\ sent w' = sent w /\ console w' = console w
    /\ draws w' = (draws w + length parsed)%nat.
Proof.
  induction parsed as [|p rest IH]; intros w.
  - exists [], w. simpl. repeat split; lia.
  - simpl. unfold await at 1. unfold assign_id at 1.
    unfold await at 1. unfold Math_random_toString36 at 1. unfold resolve at 1.
    set (w1 := Build_World _ _ _ _ _ _ _).
    destruct (IH w1) as (items & w' & Hrun & Hlen & Hsent & Hcons & Hdraws).
    unfold await at 1. rewrite Hrun. unfold resolve.
    eexists. exists w'. split; [reflexivity|].
    subst w1. simpl in *. repeat split; try assumption; lia.
Qed.

(** One request, whatever comes back. *)
Lemma generateDailyLesson_sent `{parser : !JSONParse (list DailyLessonItem)}
    (level : UserLevel) (count : Z) (previousTopics : list string)
    (systemLanguage : string) (w : World) :
  sent (snd (generateDailyLesson level count previousTopics systemLanguage w))
  = (sent w ++ [lesson_request level count previousTopics systemLanguage])%list.
Proof.
  unfold generateDailyLesson, try_catch, await, generateContent.
  destruct (service w (length (sent w))
              (lesson_request level count previousTopics systemLanguage))
    as [resp|e]; simpl; [|reflexivity].
  destruct (truthy (Env.text resp)); simpl; [|reflexivity].
  destruct (JSON_parse (default EmptyString (Env.text resp)))
    as [parsed|]; simpl; [|reflexivity].
  set (w1 := Build_World _ _ _ _ _ _ _).
  destruct (mapP_assign_id_world parsed w1)
    as (items & w' & Hrun & _ & Hsent & _).
  rewrite Hrun. simpl. exact Hsent.
Qed.

Lemma startsWith_app_same (c needle s : string) :
  startsWith (c +:+ needle) (c +:+ s) = startsWith needle s.
Proof.
  induction c as [|a c IH]; simpl; [reflexivity|].
  rewrite Ascii.eqb_refl. exact IH.
Qed.

Lemma startsWith_cons_app (c : ascii) (needle rest s : string) :
  startsWith (String c needle +:+ rest) (String c s)
  = startsWith (needle +:+ rest) s.
Proof. simpl. now rewrite Ascii.eqb_refl. Qed.

Lemma includes_cons (needle : string) (c : ascii) (s : string) :
  includes needle s = true -> includes needle (String c s) = true.
Proof. intros H. simpl. rewrite H. apply orb_true_r. Qed.

Lemma includes_app_l (needle a s : string) :
  includes needle s = true -> includes needle (a +:+ s) = true.
Proof.
  intros H. induction a as [|c a IH]; simpl String.append; [exact H|].
  now apply includes_cons.
Qed.

Lemma includes_startsWith (needle s : string) :
  startsWith needle s = true -> includes needle s = true.
Proof. intros H. destruct s; simpl; rewrite H; reflexivity. Qed.

(** The prompt has the sentence that asks for exactly [count] items. *)
Lemma lesson_request_asks (level : UserLevel) (count : Z)
    (previousTopics : list string) (systemLanguage : string) :
  asks_for_exactly count
    (lesson_request level count previousTopics systemLanguage).
Proof.
  eexists. split; [reflexivity|].
  unfold lesson_prompt.
  apply includes_app_l, includes_app_l.
  do 6 apply includes_cons.
  apply includes_startsWith.
  rewrite !startsWith_cons_app.
  change (EmptyString +:+ ?x) with x.
  rewrite startsWith_app_same. reflexivity.
Qed.

(** C2, as the code has it: [count] only appears in the prompt, which asks
    for exactly that many items in the one request sent. When the provider
    answers with a JSON array, [generateDailyLesson] returns exactly as
    many items as that array holds, in the same order: item [i] is element
    [i] of the array with a client-assigned id, so it keeps the type tag
    (and every other field) the provider gave it. The id is characters 2
    to 10 of the base-36 rendering of the [i]-th fresh random number,
    which is non-empty whenever that rendering is longer than two
    characters. *)
Theorem generateDailyLesson_one_item_per_parsed
    `{parser : !JSONParse (list DailyLessonItem)}
    (level : UserLevel) (count : Z) (previousTopics : list string)
    (systemLanguage : string) (w : World) :
  let rq := lesson_request level count previousTopics systemLanguage in
  let r := generateDailyLesson level count previousTopics systemLanguage w in
  ((Z.abs count < 10 ^ 21)%Z -> asks_for_exactly count rq)
  /\ sent (snd r) = (sent w ++ [rq])%list
  /\ forall (response : Response) (parsed : list DailyLessonItem),
       service w (length (sent w)) rq = Fulfilled response ->
       truthy (Env.text response) = true ->
       JSON_parse (default EmptyString (Env.text response)) = Some parsed ->
       exists items : list DailyLessonItem,
         fst r = Fulfilled items
         /\ length items = length parsed
         /\ (forall (i : nat) (p : DailyLessonItem),
               parsed !! i = Some p ->
               items !! i
               = Some (with_id p (substr 2 9 (random36 w (draws w + i)%nat))))
         /\ map dl_type items = map dl_type parsed
         /\ (forall (i : nat) (item : DailyLessonItem),
               items !! i = Some item ->
               dl_id item = substr 2 9 (random36 w (draws w + i)%nat)
               /\ ((2 < String.length (random36 w (draws w + i)%nat))%nat ->
                   dl_id item <> EmptyString)).
Proof.
  cbv zeta. split; [intros _; apply lesson_request_asks|].
  split; [apply generateDailyLesson_sent|].
  intros response parsed Hsrv Htext Hparse.
  destruct (generateDailyLesson_returns level count previousTopics
              systemLanguage w response parsed Hsrv Htext Hparse)
    as (items & w' & Hrun & Hlen & Hlook).
  exists items. rewrite Hrun. split; [reflexivity|]. split; [exact Hlen|].
  split; [exact Hlook|].
  assert (Hback : forall i item, items !! i = Some item ->
            exists p, parsed !! i = Some p
              /\ item = with_id p (substr 2 9 (random36 w (draws w + i)%nat))).
  { intros i item Hitem. destruct (parsed !! i) as [p|] eqn:Hp.
    - rewrite (Hlook i p Hp) in Hitem. inversion Hitem; subst. eauto.
    - apply lookup_ge_None in Hp. apply lookup_lt_Some in Hitem. lia. }
  split.
  - apply list_eq. intros i. rewrite !list_lookup_fmap.
    destruct (items !! i) as [item|] eqn:Hitem.
    + destruct (Hback i item Hitem) as (p & Hp & ->). rewrite Hp. reflexivity.
    + apply lookup_ge_None in Hitem.
      rewrite (proj2 (lookup_ge_None parsed i)) by lia. reflexivity.
  - intros i item Hitem. destruct (Hback i item Hitem) as (p & _ & ->).
    simpl. split; [reflexivity|]. apply substr_2_9_nonempty.
Qed.

Lemma generateDailyLesson_one_item_per_parsed_witness :
  asks_for_exactly 5
    (lesson_request B1 5 ["gato"] "Chinese")
  /\ fst (generateDailyLesson (parser := Fixtures.parse_pair)
            B1 5 ["gato"] "Chinese" Fixtures.w_pair)
     = Fulfilled [ with_id Fixtures.stray "k3j9x8q2m";
                   with_id Fixtures.sound "4fzyo82mv" ].
Proof.
  destruct (generateDailyLesson_one_item_per_parsed
              (parser := Fixtures.parse_pair)
              B1 5 ["gato"] "Chinese" Fixtures.w_pair)
    as (Hasks & _ & Hitems).
  split; [apply Hasks; reflexivity|].
  destruct (Hitems {| text := Some Fixtures.pair_json; candidates := None |}
              [Fixtures.stray; Fixtures.sound] eq_refl eq_refl eq_refl)
    as (items & Hrun & _ & Hlook & _).
  rewrite Hrun. f_equal.
  pose proof (Hlook 0%nat Fixtures.stray eq_refl) as H0.
  pose proof (Hlook 1%nat Fixtures.sound eq_refl) as H1.
  destruct items as [|x [|y [|z rest]]]; try discriminate.
  simpl in H0, H1. inversion H0. inversion H1. reflexivity.
Defined.

(** C2, as the claim states it, fails: asked for five items, the gateway
    returns the single item the provider sent. *)
Lemma generateDailyLesson_count_not_enforced :
  fst (generateDailyLesson (parser := Fixtures.parse_lesson)
         B1 5 [] "Chinese" Fixtures.w_stray)
  = Fulfilled [with_id Fixtures.stray "k3j9x8q2m"]
  /\ length [with_id Fixtures.stray "k3j9x8q2m"] <> 5%nat.
Proof. split; [vm_compute; reflexivity | simpl; lia]. Qed.

(** The id is empty when the random number renders as a bare zero, and a
    tag outside the two kinds passes through. *)
Example generateDailyLesson_empty_id_and_foreign_tag :
  fst (generateDailyLesson (parser := Fixtures.parse_lesson)
         A1 3 [] "Chinese" Fixtures.w_idiom)
  = Fulfilled [with_id Fixtures.idiom EmptyString]
  /\ dl_type (with_id Fixtures.idiom EmptyString) = "idiom".
Proof. split; [vm_compute; reflexivity | reflexivity]. Qed.

(** C8, as the code has it: the gateway does not look at [options] or
    [correctOptionIndex]; every returned item carries both exactly as the
    provider's parsed array has them. So the returned indices are within
    bounds when, and only when, the provider's are. *)
Theorem generateDailyLesson_index_passes_through
    `{parser : !JSONParse (list DailyLessonItem)}
    (level : UserLevel) (count : Z) (previousTopics : list string)
    (systemLanguage : string) (w : World)
    (response : Response) (parsed : list DailyLessonItem) :
  service w (length (sent w))
          (lesson_request level count previousTopics systemLanguage)
  = Fulfilled response ->
  truthy (Env.text response) = true ->
  JSON_parse (default EmptyString (Env.text response)) = Some parsed ->
  exists (items : list DailyLessonItem) (w' : World),
    generateDailyLesson level count previousTopics systemLanguage w
    = (Fulfilled items, w')
    /\ map options items = map options parsed
    /\ map correctOptionIndex items = map correctOptionIndex parsed
    /\ (Forall index_in_bounds items <-> Forall index_in_bounds parsed).
Proof.
  intros Hsrv Htext Hparse.
  destruct (generateDailyLesson_returns level count previousTopics
              systemLanguage w response parsed Hsrv Htext Hparse)
    as (items & w' & Hrun & Hlen & Hlook).
  exists items, w'. split; [exact Hrun|].
  assert (Hsame : forall i item, items !! i = Some item ->
            exists p, parsed !! i = Some p
                      /\ options item = options p
                      /\ correctOptionIndex item = correctOptionIndex p).
  { intros i item Hitem. destruct (parsed !! i) as [p|] eqn:Hp.
    - rewrite (Hlook i p Hp) in Hitem. inversion Hitem; subst.
      exists p. repeat split.
    - apply lookup_ge_None in Hp. apply lookup_lt_Some in Hitem. lia. }
  assert (Hopts : map options items = map options parsed).
  { apply list_eq. intros i. rewrite !list_lookup_fmap.
    destruct (items !! i) as [item|] eqn:Hitem.
    - destruct (Hsame i item Hitem) as (p & Hp & Ho & _).
      rewrite Hp. simpl. now rewrite Ho.
    - apply lookup_ge_None in Hitem.
      rewrite (proj2 (lookup_ge_None parsed i)) by lia. reflexivity. }
  assert (Hidx : map correctOptionIndex items = map correctOptionIndex parsed).
  { apply list_eq. intros i. rewrite !list_lookup_fmap.
    destruct (items !! i) as [item|] eqn:Hitem.
    - destruct (Hsame i item Hitem) as (p & Hp & _ & Hc).
      rewrite Hp. simpl. now rewrite Hc.
    - apply lookup_ge_None in Hitem.
      rewrite (proj2 (lookup_ge_None parsed i)) by lia. reflexivity. }
  split; [exact Hopts|]. split; [exact Hidx|].
  rewrite !Forall_lookup. split.
  - intros Hall i p Hp.
    pose proof (Hlook i p Hp) as Hitem.
    specialize (Hall i _ Hitem). exact Hall.
  - intros Hall i item Hitem.
    destruct (Hsame i item Hitem) as (p & Hp & Ho & Hc).
    specialize (Hall i p Hp). unfold index_in_bounds in *.
    rewrite Ho, Hc. exact Hall.
Qed.

Lemma generateDailyLesson_index_passes_through_witness :
  exists (items : list DailyLessonItem) (w' : World),
    generateDailyLesson (parser := Fixtures.parse_lesson)
      B1 1 ["gato"] "Chinese" Fixtures.w_sound
    = (Fulfilled items, w')
    /\ map correctOptionIndex items = [Some 1%Z].
Proof.
  destruct (generateDailyLesson_index_passes_through
              (parser := Fixtures.parse_lesson)
              B1 1 ["gato"] "Chinese" Fixtures.w_sound
              {| text := Some Fixtures.sound_json; candidates := None |}
              [Fixtures.sound] eq_refl eq_refl eq_refl)
    as (items & w' & Hrun & _ & Hidx & _).
  exists items, w'. split; [exact Hrun | exact Hidx].
Defined.

(** C8, as the claim states it, fails: the provider sends a vocabulary item
    with four options and index 7, and the gateway returns it as it is. *)
Lemma generateDailyLesson_index_out_of_bounds :
  exists item : DailyLessonItem,
    fst (generateDailyLesson (parser := Fixtures.parse_lesson)
           B2 3 [] "Chinese" Fixtures.w_stray)
    = Fulfilled [item]
    /\ options item = Some ["luck"; "happy accident"; "sadness"; "storm"]
    /\ correctOptionIndex item = Some 7%Z
    /\ ~ index_in_bounds item.
Proof.
  exists (with_id Fixtures.stray "k3j9x8q2m").
  split; [vm_compute; reflexivity|].
  split; [reflexivity|]. split; [reflexivity|].
  unfold index_in_bounds. simpl. lia.
Qed.

(** What the stray index does downstream: whichever of the four options
    is clicked first, the quiz marks the answer wrong. *)
Example stray_quiz_cannot_be_won (idx : nat) :
  (idx < 4)%nat ->
  DailyStudy.isCorrect
    (DailyStudy.clickOption Fixtures.stray idx DailyStudy.initial)
  = Some false.
Proof.
  intros Hidx. unfold DailyStudy.clickOption, DailyStudy.handleQuizAnswer.
  simpl. f_equal. apply Z.eqb_neq. lia.
Qed.

(** ** The controller: favorites *)

Lemma flipFavorite_involutive (item : HistoryItem) :
  App.flipFavorite (App.flipFavorite item) = item.
Proof.
  destruct item. unfold App.flipFavorite. simpl.
  now rewrite negb_involutive.
Qed.

Lemma toggle_map_involutive (target : string) (l : list HistoryItem) :
  map (fun item => if String.eqb (id item) target
                   then App.flipFavorite item else item)
      (map (fun item => if String.eqb (id item) target
                        then App.flipFavorite item else item) l)
  = l.
Proof.
  induction l as [|x l IH]; simpl; [reflexivity|].
  rewrite IH. f_equal.
  destruct (String.eqb (id x) target) eqn:Hx; simpl.
  - rewrite Hx. apply flipFavorite_involutive.
  - now rewrite Hx.
Qed.

(** C6: toggling the favorite flag of an id twice gives back the state
    the controller started from, list and quick-view copy included; and one
    toggle negates [isFavorite] on every list item with that id, leaving
    its other fields alone, and does the same to the open quick-view item
    when it has that id. *)
Theorem toggleFavorite_twice_and_patch (target : string) (st : App.State) :
  App.toggleFavorite target (App.toggleFavorite target st) = st
  /\ (forall (i : nat) (item : HistoryItem),
        App.history st !! i = Some item -> id item = target ->
        exists item',
          App.history (App.toggleFavorite target st) !! i = Some item'
          /\ isFavorite item' = negb (isFavorite item)
          /\ id item' = id item /\ timestamp item' = timestamp item
          /\ data item' = data item
          /\ generatedImageUrl item' = generatedImageUrl item)
  /\ (forall q : HistoryItem,
        App.quickViewItem st = Some q -> id q = target ->
        exists q',
          App.quickViewItem (App.toggleFavorite target st) = Some q'
          /\ isFavorite q' = negb (isFavorite q)
          /\ id q' = id q /\ timestamp q' = timestamp q
          /\ data q' = data q
          /\ generatedImageUrl q' = generatedImageUrl q).
Proof.
  split; [|split].
  - destruct st as [v h c t im an er q qa sl tl sy sm].
    unfold App.toggleFavorite, App.quickViewHas,
      App.setQuickViewItem, App.setHistory. simpl.
    destruct q as [q|]; simpl.
    + destruct (String.eqb (id q) target) eqn:Hq; simpl.
      * rewrite Hq. simpl. rewrite toggle_map_involutive.
        now rewrite flipFavorite_involutive.
      * rewrite Hq. simpl. now rewrite toggle_map_involutive.
    + now rewrite toggle_map_involutive.
  - intros i item Hi Hid.
    exists (App.flipFavorite item). split; [|repeat split].
    assert (Hh : App.history (App.toggleFavorite target st)
                 = map (fun item => if String.eqb (id item) target
                                    then App.flipFavorite item else item)
                       (App.history st)).
    { unfold App.toggleFavorite. destruct (App.quickViewHas target st);
        reflexivity. }
    rewrite Hh. change (map ?f ?l) with (f <$> l).
    rewrite list_lookup_fmap, Hi. simpl.
    apply String.eqb_eq in Hid. now rewrite Hid.
  - intros q Hq Hid.
    exists (App.flipFavorite q). split; [|repeat split].
    unfold App.toggleFavorite, App.quickViewHas. rewrite Hq.
    apply String.eqb_eq in Hid. rewrite Hid. simpl. now rewrite Hq.
Qed.

Lemma toggleFavorite_twice_and_patch_witness :
  exists q',
    App.quickViewItem
      (App.toggleFavorite "1729999999000"
         (Fixtures.app_with [Fixtures.cached; Fixtures.bare] (Some Fixtures.bare)))
    = Some q'
    /\ isFavorite q' = false.
Proof.
  destruct (toggleFavorite_twice_and_patch "1729999999000"
              (Fixtures.app_with [Fixtures.cached; Fixtures.bare]
                                 (Some Fixtures.bare)))
    as (_ & _ & Hquick).
  destruct (Hquick Fixtures.bare eq_refl eq_refl) as (q' & Hq & Hfav & _).
  exists q'. split; [exact Hq | exact Hfav].
Defined.

(** ** The controller: saving to the history *)

Lemma newHistoryItem_run (d : LearningAnalysis) (fav : bool) (w : World) :
  exists w' : World,
    App.newHistoryItem d fav w
    = (Fulfilled {| id := toString (clock w (ticks w));
                    timestamp := clock w (S (ticks w));
                    data := d; isFavorite := fav;
                    generatedImageUrl := None |}, w')
    /\ clock w' = clock w /\ ticks w' = S (S (ticks w)).
Proof. eexists. repeat split. Qed.

(** The gateway never reads the clock. *)
Lemma analyzeContent_time `{parser : !JSONParse LearningAnalysis}
    (text imageBase64 : option string) (sourceLang targetLang : string)
    (w : World) :
  clock (snd (analyzeContent text imageBase64 sourceLang targetLang w)) = clock w
  /\ ticks (snd (analyzeContent text imageBase64 sourceLang targetLang w))
     = ticks w.
Proof.
  unfold analyzeContent, analysis_parts, await.
  destruct (truthy imageBase64); [|destruct (truthy text)];
    unfold resolve, throw; simpl; try (split; reflexivity);
    unfold try_catch, await, generateContent;
    match goal with
    | |- context [service w ?n ?rq] =>
        destruct (service w n rq) as [response|e]; simpl;
        [ destruct (truthy (Env.text response)); simpl;
          [ destruct (JSON_parse _); simpl |] |]
    end; split; reflexivity.
Qed.

(** A fallible analysis followed by the creation of the history item. *)
Lemma analyze_then_item `{parser : !JSONParse LearningAnalysis}
    (text imageBase64 : option string) (sourceLang targetLang : string)
    (w : World) :
  (exists (e : Exn) (w' : World),
      (result <~ analyzeContent text imageBase64 sourceLang targetLang;
       App.newHistoryItem result false) w = (Rejected e, w')
      /\ clock w' = clock w /\ ticks w' = ticks w)
  \/ (exists (item : HistoryItem) (w' : World),
        (result <~ analyzeContent text imageBase64 sourceLang targetLang;
         App.newHistoryItem result false) w = (Fulfilled item, w')
        /\ id item = toString (clock w (ticks w))
        /\ isFavorite item = false
        /\ clock w' = clock w /\ ticks w' = S (S (ticks w))).
Proof.
  pose proof (analyzeContent_time text imageBase64 sourceLang targetLang w)
    as [Hclock Hticks].
  unfold await.
  destruct (analyzeContent text imageBase64 sourceLang targetLang w)
    as [[result|e] w1]; simpl in *.
  - right. destruct (newHistoryItem_run result false w1)
      as (w' & Hrun & Hc & Ht).
    rewrite Hrun. eexists. exists w'. split; [reflexivity|]. simpl.
    rewrite Hclock, Hticks, Hc, Ht. repeat split; congruence.
  - left. eauto.
Qed.

Lemma map_id_patch (f : HistoryItem -> HistoryItem) (target : string)
    (l : list HistoryItem) :
  (forall item, id (f item) = id item) ->
  map id (map (fun item => if String.eqb (id item) target then f item else item) l)
  = map id l.
Proof.
  intros Hf. induction l as [|x l IH]; simpl; [reflexivity|].
  rewrite IH. f_equal. destruct (String.eqb (id x) target); [apply Hf|reflexivity].
Qed.

(** Split on the outcome of the analysis the goal is waiting for. *)
Ltac analysis_cases w :=
  match goal with
  | |- context [await (analyzeContent ?t ?i ?s ?g) _ w] =>
      let e := fresh "e" in
      let w' := fresh "w'" in
      let item := fresh "item" in
      destruct (analyze_then_item t i s g w)
        as [(e & w' & Hrun & Hc & Ht)
           |(item & w' & Hrun & Hid & Hfav & Hc & Ht)];
      rewrite Hrun; simpl
  end.

(** The main analysis, by the outcome of the gateway call it makes. *)
Lemma handleAnalyze_with_cases `{parser : !JSONParse LearningAnalysis}
    (inputText : string) (st : App.State) (w : World) :
  if negb (truthy (Some inputText)) && negb (truthy (App.selectedImage st))
  then App.handleAnalyze_with inputText st w = (st, w)
  else
    let st1 := App.setError None (App.setIsAnalyzing true st) in
    match fst (analyzeContent (Some inputText) (payload_of st)
                 (App.sourceLang st) (App.targetLang st) w) with
    | Fulfilled result =>
        exists w' : World,
          App.handleAnalyze_with inputText st w
          = (App.setIsAnalyzing false
               (App.showAnalysis
                  {| id := toString (clock w (ticks w));
                     timestamp := clock w (S (ticks w));
                     data := result; isFavorite := false;
                     generatedImageUrl := None |} st1), w')
          /\ clock w' = clock w /\ ticks w' = S (S (ticks w))
    | Rejected _ =>
        exists w' : World,
          App.handleAnalyze_with inputText st w
          = (App.setIsAnalyzing false
               (App.setError
                  (Some "Failed to analyze content. Please try again.") st1),
             w')
          /\ clock w' = clock w /\ ticks w' = ticks w
    end.
Proof.
  unfold App.handleAnalyze_with, payload_of.
  destruct (negb (truthy (Some inputText)) && negb (truthy (App.selectedImage st)));
    [reflexivity|].
  cbv zeta. unfold await.
  match goal with
  | |- context [analyzeContent ?t ?i ?s ?g w] =>
      pose proof (analyzeContent_time t i s g w) as [Hclock Hticks];
      destruct (analyzeContent t i s g w) as [[result|e] w1]
  end; simpl in *.
  - eexists. rewrite Hclock, Hticks. repeat split; simpl; congruence.
  - exists w1. repeat split; assumption.
Qed.

(** The quick lookup, by the outcome of the gateway call it makes. *)
Lemma handleQuickLookup_cases `{parser : !JSONParse LearningAnalysis}
    (word : string) (st : App.State) (w : World) :
  if negb (truthy (Some word))
  then App.handleQuickLookup word st w = (st, w)
  else
    let st1 :=
      App.setQuickViewItem (fun _ => None) (App.setIsQuickAnalyzing true st) in
    match fst (analyzeContent (Some word) None (lookup_source st)
                 (App.targetLang st) w) with
    | Fulfilled result =>
        let newItem :=
          {| id := toString (clock w (ticks w));
             timestamp := clock w (S (ticks w));
             data := result; isFavorite := false;
             generatedImageUrl := None |} in
        exists w' : World,
          App.handleQuickLookup word st w
          = (App.setIsQuickAnalyzing false
               (App.setQuickViewItem (fun _ => Some newItem)
                  (App.setHistory (fun prev => newItem :: prev) st1)), w')
          /\ clock w' = clock w /\ ticks w' = S (S (ticks w))
    | Rejected _ =>
        exists w' : World,
          App.handleQuickLookup word st w = (App.setIsQuickAnalyzing false st1, w')
          /\ clock w' = clock w /\ ticks w' = ticks w
    end.
Proof.
  unfold App.handleQuickLookup, lookup_source.
  destruct (negb (truthy (Some word))); [reflexivity|].
  cbv zeta. unfold await.
  match goal with
  | |- context [analyzeContent ?t ?i ?s ?g w] =>
      pose proof (analyzeContent_time t i s g w) as [Hclock Hticks];
      destruct (analyzeContent t i s g w) as [[result|e] w1]
  end; simpl in *.
  - eexists. rewrite Hclock, Hticks. repeat split; simpl; congruence.
  - eexists. repeat split; simpl; assumption.
Qed.

(** One action, by what it saves: a save puts its item, with the current
    clock reading as id, at the head of the history and reads the clock
    twice; any other action leaves the ids and the clock alone. *)
Lemma perform_saved `{parser : !JSONParse LearningAnalysis}
    (a : App.Action) (sw : App.State * World) :
  clock (snd (App.perform a sw)) = clock (snd sw)
  /\ match saved_data a sw with
     | Some d =>
         (exists item : HistoryItem,
            App.history (fst (App.perform a sw)) = item :: App.history (fst sw)
            /\ data item = d
            /\ id item = toString (clock (snd sw) (ticks (snd sw))))
         /\ ticks (snd (App.perform a sw)) = S (S (ticks (snd sw)))
     | None =>
         App.ids (fst (App.perform a sw)) = App.ids (fst sw)
         /\ ticks (snd (App.perform a sw)) = ticks (snd sw)
     end.
Proof.
  destruct sw as [st w].
  destruct a as [txt|img| |wd|d|target|target url|];
    unfold saved_data, asked_analysis; cbn [App.perform fst snd].
  - auto.
  - auto.
  - unfold App.handleAnalyze.
    pose proof (handleAnalyze_with_cases (App.textInput st) st w) as Hcases.
    destruct (negb (truthy (Some (App.textInput st)))
              && negb (truthy (App.selectedImage st))).
    + rewrite Hcases. auto.
    + cbv zeta in Hcases.
      destruct (fst (analyzeContent _ _ _ _ w)) as [result|e];
        destruct Hcases as (w' & -> & Hc & Ht); simpl.
      * split; [exact Hc|]. split; [|exact Ht]. eexists. repeat split.
      * auto.
  - pose proof (handleQuickLookup_cases wd st w) as Hcases.
    destruct (negb (truthy (Some wd))).
    + rewrite Hcases. auto.
    + cbv zeta in Hcases.
      destruct (fst (analyzeContent _ _ _ _ w)) as [result|e];
        destruct Hcases as (w' & -> & Hc & Ht); simpl.
      * split; [exact Hc|]. split; [|exact Ht]. eexists. repeat split.
      * auto.
  - unfold App.handleSaveDailyItem. simpl. split; [reflexivity|].
    split; [|reflexivity]. eexists. repeat split.
  - split; [reflexivity|]. split; [|reflexivity].
    unfold App.ids, App.toggleFavorite.
    destruct (App.quickViewHas target st); simpl; now apply map_id_patch.
  - split; [reflexivity|]. split; [|reflexivity].
    unfold App.ids, App.updateGeneratedImage.
    destruct (App.quickViewHas target st); simpl; now apply map_id_patch.
  - split; [reflexivity|]. split; [|reflexivity].
    unfold App.swapLanguages.
    destruct (String.eqb (App.sourceLang st) "Auto"); reflexivity.
Qed.

Lemma saved_ids_NoDup (w : World) (t0 n : nat) :
  id_readings_distinct w t0 -> NoDup (saved_ids w t0 n).
Proof.
  intros Hdistinct. unfold saved_ids.
  apply NoDup_fmap_2_strong.
  - intros i j _ _ Heq. apply Hdistinct.
    unfold toString in Heq. now apply (inj pretty) in Heq.
  - apply NoDup_ListNoDup, List.NoDup_rev, NoDup_ListNoDup, NoDup_seq.
Qed.

Lemma saved_ids_clock (w w' : World) (t0 n : nat) :
  clock w' = clock w -> saved_ids w' t0 n = saved_ids w t0 n.
Proof. intros H. unfold saved_ids, id_reading. now rewrite H. Qed.

Lemma saved_ids_shift (w : World) (t0 n : nat) :
  saved_ids w t0 (S n)
  = (saved_ids w (S (S t0)) n ++ [toString (clock w t0)])%list.
Proof.
  unfold saved_ids. simpl seq. rewrite <- seq_shift.
  change (rev (0%nat :: List.map S (seq 0 n)))
    with (rev (List.map S (seq 0 n)) ++ [0%nat])%list.
  rewrite map_app. simpl. unfold id_reading at 2.
  rewrite Nat.add_0_r. f_equal.
  rewrite <- List.map_rev, List.map_map.
  apply List.map_ext. intros k. unfold id_reading. f_equal. f_equal. lia.
Qed.

(** The ids after a run, by the number of its save operations. *)
Lemma run_saves `{parser : !JSONParse LearningAnalysis}
    (actions : list App.Action) :
  forall sw : App.State * World,
    App.ids (fst (App.run actions sw))
    = (saved_ids (snd sw) (ticks (snd sw)) (saves actions sw)
       ++ App.ids (fst sw))%list
    /\ clock (snd (App.run actions sw)) = clock (snd sw).
Proof.
  induction actions as [|a actions IH]; intros sw; [split; reflexivity|].
  change (App.run (a :: actions) sw) with (App.run actions (App.perform a sw)).
  destruct (IH (App.perform a sw)) as [Hids Hclock].
  destruct (perform_saved a sw) as [Hc Hstep].
  rewrite Hids, Hclock. split; [|exact Hc].
  rewrite (saved_ids_clock _ _ _ _ Hc). cbn [saves].
  destruct (saved_data a sw) as [d|].
  - destruct Hstep as [(item & Hhist & _ & Hid) Ht].
    rewrite Ht. unfold App.ids. rewrite Hhist. simpl map. rewrite Hid.
    change (1 + ?n)%nat with (S n). rewrite saved_ids_shift.
    rewrite <- app_assoc. reflexivity.
  - destruct Hstep as [Hsame Ht]. rewrite Ht, Hsame. reflexivity.
Qed.

Lemma saves_bound `{parser : !JSONParse LearningAnalysis}
    (actions : list App.Action) :
  forall sw : App.State * World, (saves actions sw <= length actions)%nat.
Proof.
  induction actions as [|a actions IH]; intros sw; simpl; [lia|].
  specialize (IH (App.perform a sw)).
  destruct (saved_data a sw); lia.
Qed.

(** C3, as the code has it: ids are [Date.now()] in decimal, so nothing
    but the clock keeps them apart. Whatever the clock does, after a run
    with [n] save operations (daily-study saves, and main analyses and
    quick lookups whose analysis succeeds) the history lists the [n] saved
    items newest first, in front of the items it started with; and
    whichever action comes next, if it is a save it puts its item, with
    what it saves and the current clock reading as id, at the head, and if
    it is not it leaves the ids as they are. From a history whose ids are
    unique, and as long as the clock readings that become ids differ from
    one another and from the ids already there, every history the
    controller reaches has pairwise unique ids. *)
Theorem history_unique_and_newest_first
    `{parser : !JSONParse LearningAnalysis}
    (actions : list App.Action) (st0 : App.State) (w0 : World) :
  let after := App.run actions (st0, w0) in
  let n := saves actions (st0, w0) in
  App.ids (fst after) = (saved_ids w0 (ticks w0) n ++ App.ids st0)%list
  /\ (n <= length actions)%nat
  /\ (forall a : App.Action,
        match saved_data a after with
        | Some d =>
            exists item : HistoryItem,
              App.history (fst (App.run (actions ++ [a]) (st0, w0)))
              = item :: App.history (fst after)
              /\ data item = d
              /\ id item = toString (clock (snd after) (ticks (snd after)))
        | None =>
            App.ids (fst (App.run (actions ++ [a]) (st0, w0)))
            = App.ids (fst after)
        end)
  /\ (NoDup (App.ids st0) ->
      id_readings_fresh w0 (ticks w0) (App.ids st0) ->
      id_readings_distinct w0 (ticks w0) ->
      NoDup (App.ids (fst after))).
Proof.
  cbv zeta.
  destruct (run_saves actions (st0, w0)) as [Hids _]. simpl in Hids.
  split; [exact Hids|]. split; [apply saves_bound|]. split.
  - intros a.
    assert (Hrun : App.run (actions ++ [a]) (st0, w0)
                   = App.perform a (App.run actions (st0, w0))).
    { unfold App.run. rewrite fold_left_app. reflexivity. }
    rewrite Hrun.
    destruct (perform_saved a (App.run actions (st0, w0))) as [_ Hstep].
    destruct (saved_data a (App.run actions (st0, w0))) as [d|].
    + exact (proj1 Hstep).
    + exact (proj1 Hstep).
  - intros Hold Hfresh Hdistinct.
    rewrite Hids. apply NoDup_app. split; [|split].
    + now apply saved_ids_NoDup.
    + intros x Hx Hx'. unfold saved_ids in Hx.
      apply list_elem_of_fmap in Hx as (k & -> & _).
      exact (Hfresh k Hx').
    + exact Hold.
Qed.

Lemma history_unique_and_newest_first_witness :
  App.ids (fst (App.run (parser := Fixtures.parse_gato)
     [App.TypeText "gato"; App.Analyze;
      App.SaveDailyItem Fixtures.gato; App.ToggleFavorite "1730000000000";
      App.QuickLookup "gato"]
     (App.initial, Fixtures.w_gato)))
  = ["1730000000004"; "1730000000002"; "1730000000000"]
  /\ NoDup (App.ids (fst (App.run (parser := Fixtures.parse_gato)
       [App.TypeText "gato"; App.Analyze;
        App.SaveDailyItem Fixtures.gato; App.ToggleFavorite "1730000000000";
        App.QuickLookup "gato"]
       (App.initial, Fixtures.w_gato)))).
Proof.
  destruct (history_unique_and_newest_first (parser := Fixtures.parse_gato)
              [App.TypeText "gato"; App.Analyze;
               App.SaveDailyItem Fixtures.gato;
               App.ToggleFavorite "1730000000000"; App.QuickLookup "gato"]
              App.initial Fixtures.w_gato)
    as (Hids & _ & _ & Hnodup).
  split.
  - rewrite Hids. vm_compute. reflexivity.
  - apply Hnodup.
    + apply NoDup_nil_2.
    + intros k Hin. inversion Hin.
    + intros i j. unfold id_reading, Fixtures.w_gato, Fixtures.ticking.
      simpl. lia.
Defined.

(** C3, as the claim states it, fails: two saves that read the same clock
    value leave two history items with the same id. *)
Lemma history_ids_collide_on_equal_clock :
  App.ids (fst (App.run (parser := Fixtures.parse_gato)
     [App.SaveDailyItem Fixtures.gato; App.SaveDailyItem Fixtures.gato]
     (App.initial, Fixtures.w_frozen)))
  = ["1730000000000"; "1730000000000"]
  /\ ~ NoDup (App.ids (fst (App.run (parser := Fixtures.parse_gato)
     [App.SaveDailyItem Fixtures.gato; App.SaveDailyItem Fixtures.gato]
     (App.initial, Fixtures.w_frozen)))).
Proof.
  assert (H : App.ids (fst (App.run (parser := Fixtures.parse_gato)
     [App.SaveDailyItem Fixtures.gato; App.SaveDailyItem Fixtures.gato]
     (App.initial, Fixtures.w_frozen)))
     = ["1730000000000"; "1730000000000"]) by (vm_compute; reflexivity).
  split; [exact H|]. rewrite H. intros Hnd.
  apply NoDup_cons in Hnd as [Hnotin _]. apply Hnotin. left.
Qed.

(** C10: an item saved from the daily-study session enters the history
    with [isFavorite] set. A main analysis or a quick lookup whose guard
    lets it through puts an item into the history exactly when its
    analysis succeeds, the item holds the result of that analysis and has
    [isFavorite] cleared; when the analysis fails the history is left
    alone, and when the guard stops the handler nothing happens. *)
Theorem daily_saves_are_favorites_others_are_not
    `{parser : !JSONParse LearningAnalysis} (st : App.State) (w : World) :
  (forall d : LearningAnalysis,
      exists item : HistoryItem,
        App.history (fst (App.handleSaveDailyItem d st w))
        = item :: App.history st
        /\ data item = d /\ isFavorite item = true)
  /\ (forall inputText : string,
        if negb (truthy (Some inputText)) && negb (truthy (App.selectedImage st))
        then App.handleAnalyze_with inputText st w = (st, w)
        else
          match fst (analyzeContent (Some inputText) (payload_of st)
                       (App.sourceLang st) (App.targetLang st) w) with
          | Fulfilled result =>
              exists item : HistoryItem,
                App.history (fst (App.handleAnalyze_with inputText st w))
                = item :: App.history st
                /\ data item = result /\ isFavorite item = false
          | Rejected _ =>
              App.history (fst (App.handleAnalyze_with inputText st w))
              = App.history st
          end)
  /\ (forall word : string,
        if negb (truthy (Some word))
        then App.handleQuickLookup word st w = (st, w)
        else
          match fst (analyzeContent (Some word) None (lookup_source st)
                       (App.targetLang st) w) with
          | Fulfilled result =>
              exists item : HistoryItem,
                App.history (fst (App.handleQuickLookup word st w))
                = item :: App.history st
                /\ data item = result /\ isFavorite item = false
          | Rejected _ =>
              App.history (fst (App.handleQuickLookup word st w))
              = App.history st
          end).
Proof.
  split; [|split].
  - intros d. eexists. repeat split.
  - intros inputText.
    pose proof (handleAnalyze_with_cases inputText st w) as Hcases.
    destruct (negb (truthy (Some inputText))
              && negb (truthy (App.selectedImage st))); [exact Hcases|].
    cbv zeta in Hcases.
    destruct (fst (analyzeContent _ _ _ _ w)) as [result|e];
      destruct Hcases as (w' & -> & _).
    + eexists. repeat split.
    + reflexivity.
  - intros word.
    pose proof (handleQuickLookup_cases word st w) as Hcases.
    destruct (negb (truthy (Some word))); [exact Hcases|].
    cbv zeta in Hcases.
    destruct (fst (analyzeContent _ _ _ _ w)) as [result|e];
      destruct Hcases as (w' & -> & _).
    + eexists. repeat split.
    + reflexivity.
Qed.

(** The three ways into the history, on a provider that answers. *)
Example three_saves_and_their_flags :
  map (fun item => (id item, isFavorite item))
      (App.history (fst (App.run (parser := Fixtures.parse_gato)
         [App.TypeText "gato"; App.Analyze; App.QuickLookup "gato";
          App.SaveDailyItem Fixtures.gato]
         (App.initial, Fixtures.w_gato))))
  = [ ("1730000000004", true); ("1730000000002", false);
      ("1730000000000", false) ].
Proof. vm_compute. reflexivity. Qed.

(** ** Audio: decoding *)

Lemma land_byte_shifted (lo hi : Z) :
  0 <= lo < 256 -> Z.land lo (Z.shiftl hi 8) = 0.
Proof.
  intros Hlo. apply Z.bits_inj'. intros n Hn.
  rewrite Z.land_spec, Z.bits_0.
  destruct (Z.ltb_spec n 8) as [Hlt|Hge].
  - rewrite (Z.shiftl_spec_low hi 8 n) by lia. apply andb_false_r.
  - destruct (Z.eq_dec lo 0) as [->|Hnz].
    + now rewrite Z.bits_0.
    + rewrite (Z.bits_above_log2 lo n); [reflexivity|lia|].
      apply Z.log2_lt_pow2; [lia|].
      apply Z.lt_le_trans with (2 ^ 8); [simpl; lia|].
      apply Z.pow_le_mono_r; lia.
Qed.

(** The view element is the little-endian signed reading of its bytes. *)
Lemma int16_le_int16 (lo hi : Z) :
  0 <= lo < 256 -> 0 <= hi < 256 ->
  StoryGenerator.int16 lo hi = le_int16 lo hi.
Proof.
  intros Hlo Hhi. unfold StoryGenerator.int16, le_int16.
  assert (Hu : Z.lor lo (Z.shiftl hi 8) = lo + 256 * hi).
  { rewrite <- Z.lxor_lor by now apply land_byte_shifted.
    rewrite <- Z.add_nocarry_lxor by now apply land_byte_shifted.
    rewrite Z.shiftl_mul_pow2 by lia. simpl. lia. }
  rewrite Hu. cbv zeta.
  destruct (Z.testbit (lo + 256 * hi) 15) eqn:Hbit.
  - apply Z.testbit_true in Hbit; [|lia].
    change (2 ^ 15) with 32768 in Hbit.
    destruct (Z.ltb_spec (lo + 256 * hi) 32768) as [Hlt|Hge]; [|reflexivity].
    rewrite Z.div_small in Hbit by lia. discriminate.
  - apply Z.testbit_false in Hbit; [|lia].
    change (2 ^ 15) with 32768 in Hbit.
    destruct (Z.ltb_spec (lo + 256 * hi) 32768) as [Hlt|Hge]; [reflexivity|].
    exfalso.
    assert (Hq : (lo + 256 * hi) / 32768 = 1).
    { symmetry. apply Z.div_unique with (r := lo + 256 * hi - 32768); lia. }
    rewrite Hq in Hbit. discriminate.
Qed.

Lemma bytes_of_length (s : string) :
  length (StoryGenerator.bytes_of s) = String.length s.
Proof.
  unfold StoryGenerator.bytes_of. rewrite length_map.
  induction s as [|c s IH]; simpl; [reflexivity|now rewrite IH].
Qed.

Lemma bytes_of_range (s : string) :
  Forall (fun b => 0 <= b < 256) (StoryGenerator.bytes_of s).
Proof.
  unfold StoryGenerator.bytes_of.
  induction s as [|c s IH]; simpl; constructor; [|exact IH].
  pose proof (N_ascii_bounded c). lia.
Qed.

(** The typed-array view of [2 * n] bytes. *)
Lemma Int16Array_of_pairs (n : nat) :
  forall bytes : list Z,
    length bytes = (2 * n)%nat ->
    Forall (fun b => 0 <= b < 256) bytes ->
    exists ints : list Z,
      StoryGenerator.Int16Array_of bytes = Some ints
      /\ length ints = n
      /\ forall i : nat, (i < n)%nat ->
           exists b0 b1 : Z,
             bytes !! (2 * i)%nat = Some b0
             /\ bytes !! (2 * i + 1)%nat = Some b1
             /\ ints !! i = Some (le_int16 b0 b1).
Proof.
  induction n as [|n IH]; intros bytes Hlen Hrange.
  - destruct bytes; [|discriminate]. exists []. repeat split. intros i Hi. lia.
  - destruct bytes as [|lo [|hi rest]]; try (simpl in Hlen; lia).
    inversion Hrange as [|? ? Hlo Hrange']; subst.
    inversion Hrange' as [|? ? Hhi Hrest]; subst.
    destruct (IH rest) as (ints & Hview & Hn & Hpairs);
      [simpl in Hlen; lia | exact Hrest |].
    exists (StoryGenerator.int16 lo hi :: ints).
    split; [simpl; now rewrite Hview|]. split; [simpl; lia|].
    intros [|i] Hi.
    + exists lo, hi. repeat split. simpl. f_equal. now apply int16_le_int16.
    + destruct (Hpairs i) as (b0 & b1 & H0 & H1 & Hi'); [lia|].
      exists b0, b1.
      replace (2 * S i)%nat with (S (S (2 * i))) by lia.
      replace (S (S (2 * i)) + 1)%nat with (S (S (2 * i + 1))) by lia.
      simpl. auto.
Qed.

(** C4: a PCM byte sequence of even length is decoded; the sample array
    has half as many elements as there are bytes, and sample [i] is the
    signed 16-bit little-endian reading of bytes [2i] and [2i+1], divided
    by 32768. *)
Theorem decodePCM_samples (binaryString : string) :
  Nat.even (String.length binaryString) = true ->
  exists samples : list Q,
    StoryGenerator.decodePCM binaryString = Some samples
    /\ length samples = (String.length binaryString / 2)%nat
    /\ forall i : nat, (i < length samples)%nat ->
         exists b0 b1 : Z,
           StoryGenerator.bytes_of binaryString !! (2 * i)%nat = Some b0
           /\ StoryGenerator.bytes_of binaryString !! (2 * i + 1)%nat = Some b1
           /\ samples !! i = Some (inject_Z (le_int16 b0 b1) / 32768)%Q.
Proof.
  intros Heven. apply Nat.even_spec in Heven as [n Hn].
  destruct (Int16Array_of_pairs n (StoryGenerator.bytes_of binaryString))
    as (ints & Hview & Hlen & Hpairs).
  { now rewrite bytes_of_length. }
  { apply bytes_of_range. }
  exists (map StoryGenerator.normalize ints).
  unfold StoryGenerator.decodePCM. rewrite Hview. cbn [option_map].
  split; [reflexivity|]. rewrite length_map, Hlen. split.
  - rewrite Hn, (Nat.mul_comm 2 n). now rewrite Nat.div_mul by lia.
  - intros i Hi. destruct (Hpairs i Hi) as (b0 & b1 & H0 & H1 & Hint).
    exists b0, b1. repeat split; try assumption.
    change (map ?f ?l) with (f <$> l).
    rewrite list_lookup_fmap, Hint. reflexivity.
Qed.

Lemma decodePCM_samples_witness :
  exists samples : list Q,
    StoryGenerator.decodePCM Fixtures.pcm4 = Some samples
    /\ length samples = 2%nat.
Proof.
  destruct (decodePCM_samples Fixtures.pcm4 eq_refl)
    as (samples & Hdec & Hlen & _).
  exists samples. split; [exact Hdec | exact Hlen].
Defined.

(** Two zero bytes, then FF 7F: silence, then the loudest positive sample;
    and 00 80 is the most negative one. An odd number of bytes is refused. *)
Example decodePCM_examples :
  StoryGenerator.decodePCM Fixtures.pcm4
  = Some [ (inject_Z 0 / 32768)%Q; (inject_Z 32767 / 32768)%Q ]
  /\ StoryGenerator.decodePCM
       (String (ascii_of_nat 0) (String (ascii_of_nat 128) EmptyString))
     = Some [ (inject_Z (-32768) / 32768)%Q ]
  /\ StoryGenerator.decodePCM (String (ascii_of_nat 7) EmptyString) = None.
Proof. repeat split. Qed.

(** The decoded samples are what [playFromBase64] hands to the new
    source, as one channel at 24000 Hz. *)
Lemma playFromBase64_buffer (atob : string -> option string)
    (base64 binaryString : string) (x : Q) (samples : list Q)
    (st : StoryGenerator.State) (w : World) :
  atob base64 = Some binaryString ->
  StoryGenerator.decodePCM binaryString = Some (x :: samples) ->
  StoryGenerator.nodes (fst (StoryGenerator.playFromBase64 atob base64 st w))
  = (StoryGenerator.nodes st
     ++ [{| StoryGenerator.buffer := x :: samples;
            StoryGenerator.sampleRate := 24000;
            StoryGenerator.status := StoryGenerator.Playing |}])%list.
Proof.
  intros Hatob Hdec. unfold StoryGenerator.playFromBase64.
  rewrite Hatob, Hdec. reflexivity.
Qed.

(** ** Audio: playback sources *)

Lemma playingIn_lookup (l : list SG.SourceNode) (n : nat) :
  SG.playingIn l n = true ->
  exists node, l !! n = Some node /\ SG.status node = SG.Playing.
Proof.
  unfold SG.playingIn. destruct (l !! n) as [node|]; [|discriminate].
  destruct (SG.status node) eqn:Hs; try discriminate. eauto.
Qed.

Lemma playingIn_stopNode (l : list SG.SourceNode) (n m : nat) :
  SG.playingIn (SG.stopNode n l) m = SG.playingIn l m && negb (Nat.eqb m n).
Proof.
  unfold SG.stopNode.
  destruct (Nat.eqb_spec m n) as [->|Hne]; simpl.
  - rewrite andb_false_r.
    destruct (l !! n) as [node|] eqn:Hn.
    + destruct (SG.status node) eqn:Hs; unfold SG.playingIn.
      * rewrite list_lookup_insert_eq by (eapply lookup_lt_Some; eauto).
        reflexivity.
      * rewrite Hn, Hs. reflexivity.
      * rewrite Hn, Hs. reflexivity.
    + unfold SG.playingIn. now rewrite Hn.
  - rewrite andb_true_r.
    destruct (l !! n) as [node|] eqn:Hn; [|reflexivity].
    destruct (SG.status node); try reflexivity.
    unfold SG.playingIn. now rewrite list_lookup_insert_ne by congruence.
Qed.

Lemma playingIn_finishNode (l : list SG.SourceNode) (n m : nat) :
  SG.playingIn (SG.finishNode n l) m = SG.playingIn l m && negb (Nat.eqb m n).
Proof.
  unfold SG.finishNode.
  destruct (Nat.eqb_spec m n) as [->|Hne]; simpl.
  - rewrite andb_false_r.
    destruct (l !! n) as [node|] eqn:Hn.
    + destruct (SG.status node) eqn:Hs; unfold SG.playingIn.
      * rewrite list_lookup_insert_eq by (eapply lookup_lt_Some; eauto).
        reflexivity.
      * rewrite Hn, Hs. reflexivity.
      * rewrite Hn, Hs. reflexivity.
    + unfold SG.playingIn. now rewrite Hn.
  - rewrite andb_true_r.
    destruct (l !! n) as [node|] eqn:Hn; [|reflexivity].
    destruct (SG.status node); try reflexivity.
    unfold SG.playingIn. now rewrite list_lookup_insert_ne by congruence.
Qed.

Lemma playingIn_started (l : list SG.SourceNode) (samples : list Q) (m : nat) :
  SG.playingIn
    (l ++ [{| SG.buffer := samples; SG.sampleRate := 24000;
              SG.status := SG.Playing |}]) m
  = SG.playingIn l m || Nat.eqb m (length l).
Proof.
  unfold SG.playingIn.
  destruct (Nat.lt_total m (length l)) as [Hlt|[->|Hgt]].
  - rewrite lookup_app_l by exact Hlt.
    rewrite (proj2 (Nat.eqb_neq m (length l))) by lia. now rewrite orb_false_r.
  - rewrite lookup_app_r by lia. rewrite Nat.sub_diag, Nat.eqb_refl. simpl.
    now rewrite orb_true_r.
  - rewrite lookup_app_r by lia.
    rewrite (proj2 (lookup_ge_None l m)) by lia.
    rewrite (proj2 (Nat.eqb_neq m (length l))) by lia.
    destruct (m - length l)%nat as [|k] eqn:Hk; [lia|]. reflexivity.
Qed.

Lemma anyPlaying_false (st : SG.State) :
  SG.anyPlaying st = false -> forall m, SG.playing st m = false.
Proof.
  unfold SG.anyPlaying, SG.playing. intros Hnone m.
  destruct (SG.playingIn (SG.nodes st) m) eqn:Hm; [|reflexivity].
  apply playingIn_lookup in Hm as (node & Hnode & Hs).
  assert (Hex : existsb
            (fun node => match SG.status node with
                         | SG.Playing => true | _ => false end)
            (SG.nodes st) = true).
  { apply existsb_exists. exists node. split.
    - apply list_elem_of_In. eapply list_elem_of_lookup_2. exact Hnode.
    - now rewrite Hs. }
  congruence.
Qed.

(** [playFromBase64] either starts nothing, or appends one playing node
    and points the ref at it; the nodes already there are not touched. *)
Lemma playFromBase64_cases (atob : string -> option string) (base64 : string)
    (st : SG.State) (w : World) :
  (SG.nodes (fst (SG.playFromBase64 atob base64 st w)) = SG.nodes st
   /\ SG.sourceNodeRef (fst (SG.playFromBase64 atob base64 st w))
      = SG.sourceNodeRef st)
  \/ (exists samples : list Q,
        SG.nodes (fst (SG.playFromBase64 atob base64 st w))
        = (SG.nodes st ++ [{| SG.buffer := samples; SG.sampleRate := 24000;
                              SG.status := SG.Playing |}])%list
        /\ SG.sourceNodeRef (fst (SG.playFromBase64 atob base64 st w))
           = Some (length (SG.nodes st))).
Proof.
  unfold SG.playFromBase64.
  destruct (atob base64) as [bin|]; [|left; split; reflexivity].
  destruct (SG.decodePCM bin) as [[|x samples]|];
    try (left; split; reflexivity).
  right. exists (x :: samples). split; reflexivity.
Qed.

Lemma playAudio_cases (atob : string -> option string)
    (st : SG.State) (w : World) :
  (SG.nodes (fst (SG.playAudio atob st w)) = SG.nodes st
   /\ SG.sourceNodeRef (fst (SG.playAudio atob st w)) = SG.sourceNodeRef st)
  \/ (exists samples : list Q,
        SG.nodes (fst (SG.playAudio atob st w))
        = (SG.nodes st ++ [{| SG.buffer := samples; SG.sampleRate := 24000;
                              SG.status := SG.Playing |}])%list
        /\ SG.sourceNodeRef (fst (SG.playAudio atob st w))
           = Some (length (SG.nodes st))).
Proof.
  unfold SG.playAudio.
  destruct (SG.story st) as [s|]; [|left; split; reflexivity].
  destruct (truthy (SG.audioBase64 st)); [apply playFromBase64_cases|].
  destruct (generateTextToSpeech (sr_content s) w) as [[b64|e] w'].
  - destruct (truthy b64); [|left; split; reflexivity].
    pose proof (playFromBase64_cases atob (default EmptyString b64)
                  (SG.setAudioBase64 b64 (SG.setIsGeneratingAudio true st)) w')
      as Hplay.
    destruct (SG.playFromBase64 atob (default EmptyString b64)
                (SG.setAudioBase64 b64 (SG.setIsGeneratingAudio true st)) w')
      as [st2 w2]. simpl in *. exact Hplay.
  - left. split; reflexivity.
Qed.

Lemma handleGenerate_cases (atob : string -> option string)
    `{parser : !JSONParse StoryResponse}
    (words : list string) (st : SG.State) (w : World) :
  (SG.nodes (fst (SG.handleGenerate words st w)) = SG.nodes st
   /\ SG.sourceNodeRef (fst (SG.handleGenerate words st w)) = SG.sourceNodeRef st)
  \/ (SG.nodes (fst (SG.handleGenerate words st w)) = SG.nodes (SG.stopAudio st)
      /\ SG.sourceNodeRef (fst (SG.handleGenerate words st w))
         = SG.sourceNodeRef (SG.stopAudio st)).
Proof.
  unfold SG.handleGenerate.
  destruct words as [|word words]; [left; split; reflexivity|].
  right.
  destruct (generateStoryFromWords (word :: words) (SG.theme st) w)
    as [[result|e] w'];
    unfold SG.stopAudio; simpl; destruct (SG.sourceNodeRef st);
    split; reflexivity.
Qed.

(** After [stopAudio], from a state whose active sources are tracked,
    nothing plays. *)
Lemma stopAudio_silences (st : SG.State) :
  tracked st -> forall m, SG.playing (SG.stopAudio st) m = false.
Proof.
  intros Htr m. unfold SG.stopAudio, SG.playing.
  destruct (SG.sourceNodeRef st) as [n|] eqn:Href; simpl.
  - rewrite playingIn_stopNode.
    destruct (Nat.eqb_spec m n) as [->|Hne]; [apply andb_false_r|].
    rewrite andb_true_r.
    destruct (SG.playingIn (SG.nodes st) m) eqn:Hm; [|reflexivity].
    specialize (Htr m Hm). congruence.
  - destruct (SG.playingIn (SG.nodes st) m) eqn:Hm; [|reflexivity].
    specialize (Htr m Hm). congruence.
Qed.

Lemma stopAudio_ref (st : SG.State) :
  SG.sourceNodeRef (SG.stopAudio st) = None
  /\ SG.isPlaying (SG.stopAudio st) = false.
Proof.
  unfold SG.stopAudio.
  destruct (SG.sourceNodeRef st) eqn:Href; simpl; split; auto.
Qed.

Lemma onended_playing (n : nat) (st : SG.State) (m : nat) :
  SG.playing (SG.onended n st) m = SG.playing st m && negb (Nat.eqb m n).
Proof.
  unfold SG.onended, SG.playing.
  destruct (SG.nodes st !! n) as [node|] eqn:Hn; simpl.
  - apply playingIn_finishNode.
  - destruct (Nat.eqb_spec m n) as [->|Hne]; simpl.
    + unfold SG.playingIn. rewrite Hn. reflexivity.
    + now rewrite andb_true_r.
Qed.

Lemma onended_ref (n : nat) (st : SG.State) :
  SG.sourceNodeRef (SG.onended n st) = SG.sourceNodeRef st.
Proof.
  unfold SG.onended. destruct (SG.nodes st !! n); reflexivity.
Qed.

(** One event keeps the active sources tracked, provided Listen is not
    clicked while a source is active. *)
Lemma step_tracked (atob : string -> option string)
    `{parser : !JSONParse StoryResponse}
    (e : SG.Event) (sw : SG.State * World) :
  tracked (fst sw) ->
  match e with
  | SG.ClickListen => SG.anyPlaying (fst sw) = false
  | _ => True
  end ->
  tracked (fst (SG.step atob e sw)).
Proof.
  destruct sw as [st w]. simpl. intros Htr Hidle.
  destruct e as [| |words|n]; simpl.
  - pose proof (anyPlaying_false st Hidle) as Hnone.
    unfold tracked, SG.playing in *.
    destruct (playAudio_cases atob st w)
      as [[Hnodes Href]|(samples & Hnodes & Href)];
      intros m Hm; rewrite Hnodes in Hm.
    + rewrite (Hnone m) in Hm. discriminate.
    + rewrite playingIn_started, (Hnone m) in Hm. simpl in Hm.
      apply Nat.eqb_eq in Hm. subst m. exact Href.
  - intros m Hm. rewrite (stopAudio_silences st Htr m) in Hm. discriminate.
  - pose proof (stopAudio_silences st Htr) as Hsilent.
    unfold tracked, SG.playing in *.
    destruct (handleGenerate_cases atob words st w)
      as [[Hnodes Href]|[Hnodes Href]];
      intros m Hm; rewrite Hnodes in Hm.
    + rewrite Href. apply Htr. exact Hm.
    + rewrite (Hsilent m) in Hm. discriminate.
  - intros m Hm. rewrite onended_playing in Hm.
    apply andb_true_iff in Hm as [Hm _].
    rewrite onended_ref. apply Htr. exact Hm.
Qed.

Lemma run_tracked (atob : string -> option string)
    `{parser : !JSONParse StoryResponse} (evs : list SG.Event) :
  forall sw : SG.State * World,
    tracked (fst sw) ->
    SG.listen_only_when_idle atob evs sw = true ->
    tracked (fst (SG.run atob evs sw)).
Proof.
  induction evs as [|e evs IH]; intros sw Htr Hidle; [exact Htr|].
  simpl in Hidle. apply andb_true_iff in Hidle as [He Hrest].
  unfold SG.run. simpl. apply IH; [|exact Hrest].
  apply step_tracked; [exact Htr|].
  destruct e; try exact I. now apply negb_true_iff in He.
Qed.

(** C5, as the code has it: [playFromBase64] starts a new source and
    leaves every source that is already playing playing; it does not stop
    the previous one. So at most one source is active as long as playback
    is started only while none is active, which is what the component
    aims at by offering Listen only while [isPlaying] is false and by
    calling [stopAudio] before a new story is generated. In every state
    reached that way, [stopAudio] leaves no source active and clears the
    reference and the flag; and the [ended] event of the active source
    leaves no source active and clears the flag, the reference staying
    where it was. *)
Theorem playback_exclusive_when_started_idle
    (atob : string -> option string) `{parser : !JSONParse StoryResponse}
    (evs : list SG.Event) (st0 : SG.State) (w0 : World) :
  tracked st0 ->
  SG.listen_only_when_idle atob evs (st0, w0) = true ->
  let st := fst (SG.run atob evs (st0, w0)) in
  SG.at_most_one_active st
  /\ ((forall m, SG.playing (SG.stopAudio st) m = false)
      /\ SG.sourceNodeRef (SG.stopAudio st) = None
      /\ SG.isPlaying (SG.stopAudio st) = false)
  /\ (forall n, SG.playing st n = true ->
        (forall m, SG.playing (SG.onended n st) m = false)
        /\ SG.isPlaying (SG.onended n st) = false
        /\ SG.sourceNodeRef (SG.onended n st) = SG.sourceNodeRef st)
  /\ (forall (base64 : string) (w : World) (n : nat),
        SG.playing st n = true ->
        SG.playing (fst (SG.playFromBase64 atob base64 st w)) n = true).
Proof.
  intros Htr0 Hidle st.
  assert (Htr : tracked st) by (now apply run_tracked).
  split; [|split; [|split]].
  - intros i j Hi Hj. pose proof (Htr i Hi). pose proof (Htr j Hj). congruence.
  - split; [now apply stopAudio_silences | apply stopAudio_ref].
  - intros n Hn. split; [|split].
    + intros m. rewrite onended_playing.
      destruct (Nat.eqb_spec m n) as [->|Hne]; [apply andb_false_r|].
      rewrite andb_true_r.
      destruct (SG.playing st m) eqn:Hm; [|reflexivity].
      pose proof (Htr m Hm). pose proof (Htr n Hn). congruence.
    + unfold SG.onended.
      apply playingIn_lookup in Hn as (node & Hnode & _).
      unfold SG.playing in *. now rewrite Hnode.
    + apply onended_ref.
  - intros base64 w n Hn.
    destruct (playFromBase64_cases atob base64 st w)
      as [[Hnodes _]|(samples & Hnodes & _)];
      unfold SG.playing in *; rewrite Hnodes; [exact Hn|].
    rewrite playingIn_started, Hn. reflexivity.
Qed.

Lemma playback_exclusive_when_started_idle_witness :
  SG.at_most_one_active
    (fst (SG.run Fixtures.atob_AAD_f (parser := Fixtures.parse_story)
            [SG.ClickGenerate ["gato"]; SG.ClickListen; SG.ClickStop;
             SG.EndedEvent 0; SG.ClickListen; SG.EndedEvent 1; SG.ClickListen]
            (SG.initial, Fixtures.w_studio))).
Proof.
  apply (playback_exclusive_when_started_idle Fixtures.atob_AAD_f
           (parser := Fixtures.parse_story)).
  - intros n Hn. discriminate.
  - vm_compute. reflexivity.
Defined.

(** C5, as the claim states it, fails: a second [playFromBase64] while the
    first source is playing leaves both playing, and the first one is out
    of reach of [stopAudio]. *)
Lemma playFromBase64_does_not_stop_previous :
  let first := SG.playFromBase64 Fixtures.atob_AAD_f "AAD/fw=="
                 SG.initial Fixtures.w_studio in
  let second := SG.playFromBase64 Fixtures.atob_AAD_f "AAD/fw=="
                  (fst first) (snd first) in
  SG.playing (fst first) 0 = true
  /\ SG.playing (fst second) 0 = true
  /\ SG.playing (fst second) 1 = true
  /\ ~ SG.at_most_one_active (fst second)
  /\ SG.playing (SG.stopAudio (fst second)) 0 = true.
Proof.
  cbv zeta. repeat split; try (vm_compute; reflexivity).
  intros Hone.
  assert (H01 : 0%nat = 1%nat)
    by (apply Hone; vm_compute; reflexivity).
  discriminate.
Qed.

(** The flag can lag behind the audio graph: the [ended] event that
    follows an explicit stop arrives after the next playback has started
    and clears [isPlaying]; Listen is offered again, and a click on it
    starts a second source next to the one still playing. *)
Example stale_ended_event_reopens_listen :
  let before :=
    SG.run Fixtures.atob_AAD_f (parser := Fixtures.parse_story)
      [SG.ClickGenerate ["gato"]; SG.ClickListen; SG.ClickStop;
       SG.ClickListen; SG.EndedEvent 0]
      (SG.initial, Fixtures.w_studio) in
  let after := SG.step Fixtures.atob_AAD_f (parser := Fixtures.parse_story)
                 SG.ClickListen before in
  listen_offered (fst before) = true
  /\ SG.playing (fst before) 1 = true
  /\ SG.playing (fst after) 1 = true
  /\ SG.playing (fst after) 2 = true.
Proof. vm_compute. repeat split. Qed.


(* ================================================================== *)
(** * Further properties of the code around the claims *)

Import Props2.

(** ** The controller: languages, patches, outcomes *)

(** X1: swapping languages does nothing while the source language is
    "Auto"; otherwise the source becomes the old target, the target the old
    source, and every other field of the state is as it was. So a target
    that is not "Auto" stays so, and swapping twice gives back the state
    when neither language is "Auto". *)
Theorem swapLanguages_exchanges (st : App.State) :
  (App.sourceLang st = "Auto" -> App.swapLanguages st = st)
  /\ (App.sourceLang st <> "Auto" ->
      App.swapLanguages st
      = {| App.view := App.view st; App.history := App.history st;
           App.currentId := App.currentId st;
           App.textInput := App.textInput st;
           App.selectedImage := App.selectedImage st;
           App.isAnalyzing := App.isAnalyzing st; App.error := App.error st;
           App.quickViewItem := App.quickViewItem st;
           App.isQuickAnalyzing := App.isQuickAnalyzing st;
           App.sourceLang := App.targetLang st;
           App.targetLang := App.sourceLang st;
           App.systemLanguage := App.systemLanguage st;
           App.showStoryMode := App.showStoryMode st |})
  /\ (App.targetLang st <> "Auto" ->
      App.targetLang (App.swapLanguages st) <> "Auto")
  /\ (App.sourceLang st <> "Auto" -> App.targetLang st <> "Auto" ->
      App.swapLanguages (App.swapLanguages st) = st).
Proof.
  unfold App.swapLanguages. split; [|split; [|split]].
  - intros Hauto. rewrite Hauto. reflexivity.
  - intros Hsrc. apply String.eqb_neq in Hsrc. rewrite Hsrc. reflexivity.
  - intros Htgt. destruct (String.eqb_spec (App.sourceLang st) "Auto");
      [exact Htgt | simpl; assumption].
  - intros Hsrc Htgt. apply String.eqb_neq in Hsrc. rewrite Hsrc. simpl.
    apply String.eqb_neq in Htgt. rewrite Htgt.
    destruct st. reflexivity.
Qed.

Lemma swapLanguages_exchanges_witness :
  let st := App.setLanguages "Spanish" "Chinese" App.initial in
  App.sourceLang (App.swapLanguages st) = "Chinese"
  /\ App.showStoryMode (App.swapLanguages st) = App.showStoryMode st
  /\ App.swapLanguages (App.swapLanguages st) = st.
Proof.
  cbv zeta.
  destruct (swapLanguages_exchanges
              (App.setLanguages "Spanish" "Chinese" App.initial))
    as (_ & Hswap & _ & Htwice).
  split; [|split].
  - rewrite Hswap by discriminate. reflexivity.
  - rewrite Hswap by discriminate. reflexivity.
  - apply Htwice; discriminate.
Defined.

Lemma patch_maps_commute (a b url : string) (l : list HistoryItem) :
  map (fun item => if String.eqb (id item) a then App.flipFavorite item else item)
      (map (fun item => if String.eqb (id item) b
                        then App.withImage url item else item) l)
  = map (fun item => if String.eqb (id item) b
                     then App.withImage url item else item)
        (map (fun item => if String.eqb (id item) a
                          then App.flipFavorite item else item) l).
Proof.
  induction l as [|x l IH]; simpl; [reflexivity|].
  rewrite IH. f_equal.
  destruct (String.eqb (id x) a) eqn:Ha, (String.eqb (id x) b) eqn:Hb;
    simpl; rewrite ?Ha, ?Hb; reflexivity.
Qed.

Lemma image_maps_last_wins (b u1 u2 : string) (l : list HistoryItem) :
  map (fun item => if String.eqb (id item) b then App.withImage u2 item else item)
      (map (fun item => if String.eqb (id item) b
                        then App.withImage u1 item else item) l)
  = map (fun item => if String.eqb (id item) b
                     then App.withImage u2 item else item) l.
Proof.
  induction l as [|x l IH]; simpl; [reflexivity|].
  rewrite IH. f_equal.
  destruct (String.eqb (id x) b) eqn:Hb; simpl; rewrite Hb; reflexivity.
Qed.

(** X2: the two patches addressed by id compose cleanly. Toggling the
    favorite flag of one id and caching an image on another (or the same)
    id give the same state in either order, list and quick-view copy
    alike; and of two images cached on the same id the later one stays. *)
Theorem patches_commute_and_last_image_wins
    (a b url u1 u2 : string) (st : App.State) :
  App.toggleFavorite a (App.updateGeneratedImage b url st)
  = App.updateGeneratedImage b url (App.toggleFavorite a st)
  /\ App.updateGeneratedImage b u2 (App.updateGeneratedImage b u1 st)
     = App.updateGeneratedImage b u2 st.
Proof.
  destruct st as [v h c t im an er q qa sl tl sy sm]. split.
  - unfold App.toggleFavorite, App.updateGeneratedImage, App.quickViewHas,
      App.setQuickViewItem, App.setHistory. simpl.
    destruct q as [q|]; simpl.
    + destruct (String.eqb (id q) a) eqn:Ha, (String.eqb (id q) b) eqn:Hb;
        simpl; rewrite ?Ha, ?Hb; simpl; rewrite ?Ha, ?Hb; simpl;
        now rewrite patch_maps_commute.
    + now rewrite patch_maps_commute.
  - unfold App.updateGeneratedImage, App.quickViewHas,
      App.setQuickViewItem, App.setHistory. simpl.
    destruct q as [q|]; simpl.
    + destruct (String.eqb (id q) b) eqn:Hb; simpl; rewrite ?Hb; simpl;
        now rewrite image_maps_last_wins.
    + now rewrite image_maps_last_wins.
Qed.

(** X3: a main analysis, by what the gateway does. With neither text nor
    image nothing happens at all. Otherwise the gateway is called with the
    text, the payload of the picked image and the two languages: when that
    call fails, the history, the view, the draft text and the picked image
    are as before, the busy flag is down and the error message is shown;
    when it succeeds, an item holding its result is at the head of the
    history and is the item on screen, the view is the analysis view, the
    inputs are cleared, no error is shown and the busy flag is down. *)
Theorem handleAnalyze_outcomes `{parser : !JSONParse LearningAnalysis}
    (inputText : string) (st : App.State) (w : World) :
  let r := App.handleAnalyze_with inputText st w in
  if negb (truthy (Some inputText)) && negb (truthy (App.selectedImage st))
  then r = (st, w)
  else
    match fst (analyzeContent (Some inputText) (payload_of st)
                 (App.sourceLang st) (App.targetLang st) w) with
    | Rejected _ =>
        App.history (fst r) = App.history st
        /\ App.error (fst r)
           = Some "Failed to analyze content. Please try again."
        /\ App.isAnalyzing (fst r) = false
        /\ App.textInput (fst r) = App.textInput st
        /\ App.selectedImage (fst r) = App.selectedImage st
        /\ App.view (fst r) = App.view st
        /\ App.currentId (fst r) = App.currentId st
    | Fulfilled result =>
        exists item : HistoryItem,
          data item = result
          /\ App.history (fst r) = item :: App.history st
          /\ AppView.currentItem (fst r) = Some item
          /\ App.view (fst r) = ANALYSIS
          /\ App.textInput (fst r) = EmptyString
          /\ App.selectedImage (fst r) = None
          /\ App.error (fst r) = None
          /\ App.isAnalyzing (fst r) = false
    end.
Proof.
  cbv zeta.
  pose proof (handleAnalyze_with_cases inputText st w) as Hcases.
  destruct (negb (truthy (Some inputText))
            && negb (truthy (App.selectedImage st))); [exact Hcases|].
  cbv zeta in Hcases.
  destruct (fst (analyzeContent _ _ _ _ w)) as [result|e];
    destruct Hcases as (w' & -> & _).
  - (exists {| id := toString (clock w (ticks w));
               timestamp := clock w (S (ticks w));
               data := result; isFavorite := false;
               generatedImageUrl := None |}).
    split; [reflexivity|]. split; [reflexivity|]. split.
    + unfold AppView.currentItem. simpl. now rewrite String.eqb_refl.
    + repeat split.
  - repeat split.
Qed.

(** X4: a quick lookup never touches what the main screen shows (view,
    current item, draft text, picked image, busy flag, error). With an
    empty word nothing happens. Otherwise the gateway is called with the
    word: when that call fails the modal is closed with no item in it,
    whatever it showed before, and the history is as before; when it
    succeeds an item holding its result, not a favorite, is at the head of
    the history and in the open modal. *)
Theorem handleQuickLookup_outcomes `{parser : !JSONParse LearningAnalysis}
    (word : string) (st : App.State) (w : World) :
  let r := App.handleQuickLookup word st w in
  (App.view (fst r) = App.view st
   /\ App.currentId (fst r) = App.currentId st
   /\ App.textInput (fst r) = App.textInput st
   /\ App.selectedImage (fst r) = App.selectedImage st
   /\ App.isAnalyzing (fst r) = App.isAnalyzing st
   /\ App.error (fst r) = App.error st)
  /\ if negb (truthy (Some word))
     then r = (st, w)
     else
       match fst (analyzeContent (Some word) None (lookup_source st)
                    (App.targetLang st) w) with
       | Rejected _ =>
           App.history (fst r) = App.history st
           /\ App.quickViewItem (fst r) = None
           /\ AppView.modalOpen (fst r) = false
       | Fulfilled result =>
           exists item : HistoryItem,
             data item = result
             /\ App.history (fst r) = item :: App.history st
             /\ App.quickViewItem (fst r) = Some item
             /\ isFavorite item = false
             /\ AppView.modalOpen (fst r) = true
       end.
Proof.
  cbv zeta.
  pose proof (handleQuickLookup_cases word st w) as Hcases.
  destruct (negb (truthy (Some word)));
    [rewrite Hcases; split; [repeat split|reflexivity]|].
  cbv zeta in Hcases.
  destruct (fst (analyzeContent _ _ _ _ w)) as [result|e];
    destruct Hcases as (w' & -> & _).
  - split; [repeat split|].
    (exists {| id := toString (clock w (ticks w));
               timestamp := clock w (S (ticks w));
               data := result; isFavorite := false;
               generatedImageUrl := None |}).
    repeat split.
  - split; repeat split.
Qed.

Lemma patched_elem (f : HistoryItem -> HistoryItem) (target : string)
    (q : HistoryItem) (l : list HistoryItem) :
  q ∈ l ->
  (if String.eqb (id q) target then f q else q)
  ∈ map (fun item => if String.eqb (id item) target then f item else item) l.
Proof.
  intros Hin.
  change (map ?g l) with (g <$> l).
  apply (list_elem_of_fmap_2
           (fun item => if String.eqb (id item) target then f item else item)).
  exact Hin.
Qed.

Lemma perform_quickViewInHistory `{parser : !JSONParse LearningAnalysis}
    (a : App.Action) (sw : App.State * World) :
  quickViewInHistory (fst sw) -> quickViewInHistory (fst (App.perform a sw)).
Proof.
  destruct sw as [st w]. unfold quickViewInHistory. simpl. intros Hinv.
  destruct a as [txt|img| |wd|d|target|target url|]; simpl.
  - exact Hinv.
  - exact Hinv.
  - unfold App.handleAnalyze, App.handleAnalyze_with.
    destruct (negb (truthy (Some (App.textInput st)))
              && negb (truthy (App.selectedImage st))); [exact Hinv|].
    analysis_cases w.
    + exact Hinv.
    + intros q Hq. apply list_elem_of_further. now apply Hinv.
  - unfold App.handleQuickLookup.
    destruct (negb (truthy (Some wd))); [exact Hinv|].
    analysis_cases w.
    + intros q Hq. discriminate.
    + intros q Hq. inversion Hq; subst. apply list_elem_of_here.
  - intros q Hq. apply list_elem_of_further. now apply Hinv.
  - unfold App.toggleFavorite, App.quickViewHas.
    destruct (App.quickViewItem st) as [q0|] eqn:Hq0; simpl.
    + specialize (Hinv q0 eq_refl).
      pose proof (patched_elem App.flipFavorite target q0 _ Hinv) as Hp.
      destruct (String.eqb (id q0) target) eqn:Hid; simpl;
        rewrite Hq0; simpl; intros q Hq; inversion Hq; subst; exact Hp.
    + rewrite Hq0. intros q Hq. discriminate.
  - unfold App.updateGeneratedImage, App.quickViewHas.
    destruct (App.quickViewItem st) as [q0|] eqn:Hq0; simpl.
    + specialize (Hinv q0 eq_refl).
      pose proof (patched_elem (App.withImage url) target q0 _ Hinv) as Hp.
      destruct (String.eqb (id q0) target) eqn:Hid; simpl;
        rewrite Hq0; simpl; intros q Hq; inversion Hq; subst; exact Hp.
    + rewrite Hq0. intros q Hq. discriminate.
  - unfold App.swapLanguages.
    destruct (String.eqb (App.sourceLang st) "Auto"); exact Hinv.
Qed.

(** X5: as long as every handler has run to its end before the next one
    starts, the item shown in the quick-view modal is an item of the
    history list, flags and cached image included. An image callback that
    arrives late keeps this when the guard of the render that created it
    agrees with the state of the moment; but when it was created with one
    item open and arrives while an item of another id is open, it writes
    its image into the open copy and not into that item of the list, so
    that the modal shows an image the list does not have. *)
Theorem quick_view_in_history_unless_late_image
    `{parser : !JSONParse LearningAnalysis}
    (actions : list App.Action) (st : App.State) (w : World)
    (closure : option HistoryItem) (target url : string) :
  quickViewInHistory st ->
  let st' := fst (App.run actions (st, w)) in
  quickViewInHistory st'
  /\ (Late.guard closure target = App.quickViewHas target st' ->
      Late.updateGeneratedImage closure target url st'
      = App.updateGeneratedImage target url st'
      /\ quickViewInHistory (Late.updateGeneratedImage closure target url st'))
  /\ (forall open : HistoryItem,
        App.quickViewItem st' = Some open ->
        Late.guard closure target = true ->
        id open <> target ->
        App.withImage url open ∉ App.history st' ->
        App.quickViewItem (Late.updateGeneratedImage closure target url st')
        = Some (App.withImage url open)
        /\ ~ quickViewInHistory
               (Late.updateGeneratedImage closure target url st')).
Proof.
  intros Hinv. cbv zeta.
  assert (Hrun : quickViewInHistory (fst (App.run actions (st, w)))).
  { unfold App.run.
    induction actions as [|a actions IH] using rev_ind; [exact Hinv|].
    rewrite fold_left_app. simpl. now apply perform_quickViewInHistory. }
  set (st' := fst (App.run actions (st, w))) in *.
  split; [exact Hrun|]. split.
  - intros Hguard.
    assert (Hsame : Late.updateGeneratedImage closure target url st'
                    = App.updateGeneratedImage target url st').
    { unfold Late.updateGeneratedImage, App.updateGeneratedImage.
      now rewrite Hguard. }
    split; [exact Hsame|]. rewrite Hsame.
    exact (perform_quickViewInHistory (App.UpdateImage target url) (st', w) Hrun).
  - intros open Hopen Hguard Hid Hfresh.
    unfold Late.updateGeneratedImage. rewrite Hguard.
    assert (Hq : App.quickViewItem
                   (App.setQuickViewItem
                      (fun prev => option_map (App.withImage url) prev)
                      (App.setHistory
                         (fun prev =>
                            map (fun item =>
                                   if String.eqb (id item) target
                                   then App.withImage url item else item)
                                prev) st'))
                 = Some (App.withImage url open)).
    { simpl. now rewrite Hopen. }
    split; [exact Hq|].
    intros Hin. specialize (Hin _ Hq). simpl in Hin.
    change (map ?g ?l) with (g <$> l) in Hin.
    apply list_elem_of_fmap in Hin as (h & Heq & Hh).
    destruct (String.eqb_spec (id h) target) as [Hht|Hht].
    + apply (f_equal id) in Heq. simpl in Heq. congruence.
    + subst h. contradiction.
Qed.

Lemma quick_view_in_history_unless_late_image_witness :
  let st' :=
    fst (App.run (parser := Fixtures.parse_gato) [App.QuickLookup "gato"]
           (Fixtures.app_with [Fixtures.bare] (Some Fixtures.bare),
            Fixtures.w_gato)) in
  ~ quickViewInHistory
      (Late.updateGeneratedImage (Some Fixtures.bare) "1729999999000"
         "data:image/png;base64,iVBORw0KGgo=" st').
Proof.
  cbv zeta.
  destruct (quick_view_in_history_unless_late_image
              (parser := Fixtures.parse_gato) [App.QuickLookup "gato"]
              (Fixtures.app_with [Fixtures.bare] (Some Fixtures.bare))
              Fixtures.w_gato (Some Fixtures.bare) "1729999999000"
              "data:image/png;base64,iVBORw0KGgo=")
    as (_ & _ & Hdrift).
  - intros q Hq. inversion Hq; subst. apply list_elem_of_here.
  - refine (proj2 (Hdrift _ eq_refl eq_refl _ _)).
    + vm_compute. discriminate.
    + vm_compute. intros Hin.
      repeat (apply elem_of_cons in Hin as [Hin|Hin]; [discriminate Hin|]).
      inversion Hin.
Defined.

(** What the two patches and the saves leave alone in an item. *)
Lemma perform_core `{parser : !JSONParse LearningAnalysis}
    (a : App.Action) (sw : App.State * World) :
  exists new : list HistoryItem,
    (length new <= 1)%nat
    /\ map (fun h => (id h, timestamp h, data h))
           (App.history (fst (App.perform a sw)))
       = (map (fun h => (id h, timestamp h, data h)) new
          ++ map (fun h => (id h, timestamp h, data h))
                 (App.history (fst sw)))%list.
Proof.
  destruct sw as [st w].
  assert (Hpatch : forall (f : HistoryItem -> HistoryItem) target l,
             (forall h, id (f h) = id h /\ timestamp (f h) = timestamp h
                        /\ data (f h) = data h) ->
             map (fun h => (id h, timestamp h, data h))
                 (map (fun item => if String.eqb (id item) target
                                   then f item else item) l)
             = map (fun h => (id h, timestamp h, data h)) l).
  { intros f target l Hf. induction l as [|x l IH]; simpl; [reflexivity|].
    rewrite IH. f_equal.
    destruct (String.eqb (id x) target); [|reflexivity].
    destruct (Hf x) as (-> & -> & ->). reflexivity. }
  destruct a as [txt|img| |wd|d|target|target url|]; simpl.
  - exists []. split; [simpl; lia|reflexivity].
  - exists []. split; [simpl; lia|reflexivity].
  - unfold App.handleAnalyze, App.handleAnalyze_with.
    destruct (negb (truthy (Some (App.textInput st)))
              && negb (truthy (App.selectedImage st)));
      [exists []; split; [simpl; lia|reflexivity]|].
    analysis_cases w.
    + exists []. split; [simpl; lia|reflexivity].
    + exists [item]. split; [simpl; lia|reflexivity].
  - unfold App.handleQuickLookup.
    destruct (negb (truthy (Some wd)));
      [exists []; split; [simpl; lia|reflexivity]|].
    analysis_cases w.
    + exists []. split; [simpl; lia|reflexivity].
    + exists [item]. split; [simpl; lia|reflexivity].
  - exists [ {| id := toString (clock w (ticks w));
                timestamp := clock w (S (ticks w)); data := d;
                isFavorite := true; generatedImageUrl := None |} ].
    split; [simpl; lia|reflexivity].
  - exists []. split; [simpl; lia|].
    unfold App.toggleFavorite. destruct (App.quickViewHas target st); simpl;
      apply Hpatch; intros h; repeat split.
  - exists []. split; [simpl; lia|].
    unfold App.updateGeneratedImage. destruct (App.quickViewHas target st);
      simpl; apply Hpatch; intros h; repeat split.
  - exists []. split; [simpl; lia|].
    unfold App.swapLanguages.
    destruct (String.eqb (App.sourceLang st) "Auto"); reflexivity.
Qed.

(** X6: the history only grows at the front. After any sequence of
    actions the items that were in the list are still there, in the same
    order and with the same id, timestamp and analysis data, behind at
    most one new item for each action. Nothing is ever deleted or
    reordered; only the favorite flag and the cached image of an item
    change. *)
Theorem history_only_grows_at_front `{parser : !JSONParse LearningAnalysis}
    (actions : list App.Action) (st : App.State) (w : World) :
  exists new : list HistoryItem,
    (length new <= length actions)%nat
    /\ map (fun h => (id h, timestamp h, data h))
           (App.history (fst (App.run actions (st, w))))
       = (map (fun h => (id h, timestamp h, data h)) new
          ++ map (fun h => (id h, timestamp h, data h)) (App.history st))%list.
Proof.
  unfold App.run.
  induction actions as [|a actions IH] using rev_ind.
  - exists []. split; [simpl; lia|reflexivity].
  - rewrite fold_left_app. simpl.
    destruct IH as (new & Hlen & Hcore).
    destruct (perform_core a
                (fold_left (fun acc a => App.perform a acc) actions (st, w)))
      as (one & Hone & Hstep).
    exists (one ++ new)%list. split.
    + rewrite !length_app. simpl. lia.
    + rewrite Hstep, Hcore, map_app, app_assoc. reflexivity.
Qed.

(** ** The controller: persistence *)

Lemma keys_distinct :
  AppView.HISTORY_KEY <> AppView.SYSTEM_LANG_KEY
  /\ AppView.HISTORY_KEY <> AppView.PREFS_KEY
  /\ AppView.SYSTEM_LANG_KEY <> AppView.PREFS_KEY.
Proof. repeat split; discriminate. Qed.

(** X7: the history survives a reload. Once the save effect has written a
    history that [JSON.parse] reads back, mounting the application over
    that storage starts with the same history; the mount logs nothing and
    leaves the storage as it found it. *)
Theorem history_survives_reload
    `{parser : !JSONParse (list HistoryItem)}
    `{printer : !AppView.JSONStringify (list HistoryItem)}
    (st : App.State) (storage : gmap string string) (w : World) :
  JSON_parse (AppView.JSON_stringify (App.history st)) = Some (App.history st) ->
  truthy (Some (AppView.JSON_stringify (App.history st))) = true ->
  let r := AppView.mount (AppView.persistHistory st storage) w in
  App.history (fst (fst r)) = App.history st
  /\ snd (fst r) = AppView.persistHistory st storage
  /\ snd r = w.
Proof.
  intros Hparse Htruthy. cbv zeta.
  unfold AppView.mount, AppView.loadPersistence, AppView.persistHistory.
  rewrite lookup_insert_eq, Htruthy, Hparse.
  rewrite lookup_insert_ne by apply keys_distinct.
  assert (Hstore : forall st' : App.State,
            App.history st' = App.history st ->
            <[AppView.HISTORY_KEY := AppView.JSON_stringify (App.history st')]>
              (<[AppView.HISTORY_KEY := AppView.JSON_stringify (App.history App.initial)]>
                 (<[AppView.HISTORY_KEY := AppView.JSON_stringify (App.history st)]>
                    storage))
            = <[AppView.HISTORY_KEY := AppView.JSON_stringify (App.history st)]>
                storage).
  { intros st' ->. now rewrite !insert_insert_eq. }
  destruct (storage !! AppView.SYSTEM_LANG_KEY) as [[|c lang]|]; simpl;
    (split; [reflexivity|]); (split; [|reflexivity]); now apply Hstore.
Qed.

Lemma history_survives_reload_witness :
  App.history
    (fst (fst (AppView.mount (parser := Fixtures2.parse_history)
                 (printer := Fixtures2.print_history)
                 (AppView.persistHistory (printer := Fixtures2.print_history)
                    (Fixtures.app_with [Fixtures.bare] None) ∅)
                 Fixtures.w_gato)))
  = [Fixtures.bare].
Proof.
  apply (history_survives_reload (parser := Fixtures2.parse_history)
           (printer := Fixtures2.print_history)
           (Fixtures.app_with [Fixtures.bare] None) ∅ Fixtures.w_gato);
    reflexivity.
Defined.

Lemma persist_keeps_language
    `{printer : !AppView.JSONStringify (list HistoryItem)}
    (writes : list App.State) (storage : gmap string string) :
  fold_left (fun s st => AppView.persistHistory st s) writes storage
    !! AppView.SYSTEM_LANG_KEY
  = storage !! AppView.SYSTEM_LANG_KEY.
Proof.
  revert storage. induction writes as [|st writes IH]; intros storage;
    [reflexivity|].
  simpl. rewrite IH. unfold AppView.persistHistory.
  apply lookup_insert_ne, keys_distinct.
Qed.

(** X8: the explanation language and the history are stored under
    different keys and do not disturb each other. A language chosen with
    [handleSystemLanguageChange] is the language of the next mount, however
    many times the history has been written in between, provided the
    language is not the empty string; and choosing a language leaves the
    stored history as it is. *)
Theorem language_survives_reload
    `{parser : !JSONParse (list HistoryItem)}
    `{printer : !AppView.JSONStringify (list HistoryItem)}
    (lang : string) (st : App.State) (writes : list App.State)
    (storage : gmap string string) (w : World) :
  lang <> EmptyString ->
  let chosen := AppView.handleSystemLanguageChange lang st storage in
  let later :=
    fold_left (fun s st' => AppView.persistHistory st' s) writes (snd chosen) in
  App.systemLanguage (fst (fst (AppView.mount later w))) = lang
  /\ App.systemLanguage (fst chosen) = lang
  /\ snd chosen !! AppView.HISTORY_KEY = storage !! AppView.HISTORY_KEY.
Proof.
  intros Hlang. cbv zeta. unfold AppView.handleSystemLanguageChange. simpl.
  split; [|split; [reflexivity|]].
  - unfold AppView.mount, AppView.loadPersistence.
    rewrite persist_keeps_language, lookup_insert_eq.
    assert (Htruthy : truthy (Some lang) = true)
      by (destruct lang; [congruence|reflexivity]).
    rewrite Htruthy.
    match goal with
    | |- context [fold_left ?f writes ?s !! AppView.HISTORY_KEY] =>
        destruct (fold_left f writes s !! AppView.HISTORY_KEY) as [saved|]
    end; [|reflexivity].
    destruct (truthy (Some saved)); [|reflexivity].
    destruct (JSON_parse saved); [reflexivity|].
    destruct (console_error "Failed to load history" w). reflexivity.
  - apply lookup_insert_ne. intros Heq. symmetry in Heq.
    now apply keys_distinct in Heq.
Qed.

Lemma language_survives_reload_witness :
  App.systemLanguage
    (fst (fst (AppView.mount (parser := Fixtures2.parse_history)
                 (printer := Fixtures2.print_history)
                 (fold_left
                    (fun s st' =>
                       AppView.persistHistory (printer := Fixtures2.print_history)
                         st' s)
                    [Fixtures.app_with [Fixtures.bare] None; App.initial]
                    (snd (AppView.handleSystemLanguageChange "Japanese"
                            App.initial ∅)))
                 Fixtures.w_gato)))
  = "Japanese".
Proof.
  apply (language_survives_reload (parser := Fixtures2.parse_history)
           (printer := Fixtures2.print_history)
           "Japanese" App.initial
           [Fixtures.app_with [Fixtures.bare] None; App.initial] ∅
           Fixtures.w_gato).
  discriminate.
Defined.

(** X9: a stored history that does not parse is treated as no history:
    the application starts with an empty list, reports "Failed to load
    history" on the console, still picks up the stored language, and its
    save effect replaces the unreadable value by the empty list. *)
Theorem unreadable_history_is_dropped
    `{parser : !JSONParse (list HistoryItem)}
    `{printer : !AppView.JSONStringify (list HistoryItem)}
    (saved : string) (storage : gmap string string) (w : World) :
  storage !! AppView.HISTORY_KEY = Some saved ->
  truthy (Some saved) = true ->
  JSON_parse saved = None ->
  let r := AppView.mount storage w in
  App.history (fst (fst r)) = []
  /\ console (snd r) = (console w ++ ["Failed to load history"])%list
  /\ snd (fst r) !! AppView.HISTORY_KEY = Some (AppView.JSON_stringify [])
  /\ (forall lang, storage !! AppView.SYSTEM_LANG_KEY = Some lang ->
                   lang <> EmptyString ->
                   App.systemLanguage (fst (fst r)) = lang).
Proof.
  intros Hsaved Htruthy Hparse. cbv zeta.
  unfold AppView.mount, AppView.loadPersistence, AppView.persistHistory.
  rewrite Hsaved, Htruthy, Hparse. simpl.
  destruct (storage !! AppView.SYSTEM_LANG_KEY) as [[|c lang]|] eqn:Hlang;
    simpl; (split; [reflexivity|]); (split; [reflexivity|]);
    (split; [apply lookup_insert_eq|]);
    intros l Hl Hne; inversion Hl; subst; congruence.
Qed.

Lemma unreadable_history_is_dropped_witness :
  App.history
    (fst (fst (AppView.mount (parser := Fixtures2.parse_history)
                 (printer := Fixtures2.print_history)
                 (<[AppView.HISTORY_KEY := "[{"]> ∅) Fixtures.w_gato)))
  = [].
Proof.
  apply (unreadable_history_is_dropped (parser := Fixtures2.parse_history)
           (printer := Fixtures2.print_history)
           "[{" (<[AppView.HISTORY_KEY := "[{"]> ∅) Fixtures.w_gato).
  - apply lookup_insert_eq.
  - reflexivity.
  - reflexivity.
Defined.

(** ** The gateway: what fails, what is logged, what is drawn *)

(** X10: [analyzeContent] swallows nothing. It is fulfilled only with
    what the provider's non-empty text parses to, and then logs nothing.
    Every rejection is either the missing-input error, raised before
    anything is sent or logged, or comes after exactly one request and is
    logged once as "Analysis failed:" before it is thrown again: the
    provider's own error unchanged, the empty-response error, or the
    parser's syntax error. *)
Theorem analyzeContent_rethrows `{parser : !JSONParse LearningAnalysis}
    (text imageBase64 : option string) (sourceLang targetLang : string)
    (w : World) :
  let r := analyzeContent text imageBase64 sourceLang targetLang w in
  (forall a : LearningAnalysis,
      fst r = Fulfilled a ->
      console (snd r) = console w
      /\ exists (ps : list ContentPart) (resp : Response),
           sent (snd r) = (sent w ++ [analysis_request ps])%list
           /\ service w (length (sent w)) (analysis_request ps) = Fulfilled resp
           /\ truthy (Env.text resp) = true
           /\ JSON_parse (default EmptyString (Env.text resp)) = Some a)
  /\ (forall e : Exn,
        fst r = Rejected e ->
        (e = Error "No input provided" /\ snd r = w)
        \/ (console (snd r) = (console w ++ ["Analysis failed:"])%list
            /\ exists ps : list ContentPart,
                 sent (snd r) = (sent w ++ [analysis_request ps])%list
                 /\ (service w (length (sent w)) (analysis_request ps)
                     = Rejected e
                     \/ e = Error "Empty response from AI"
                     \/ e = SyntaxError))).
Proof.
  cbv zeta. unfold analyzeContent, analysis_parts, await.
  assert (Hsent : forall ps,
    let r := try_catch
      (fun w0 =>
         match generateContent (analysis_request ps) w0 with
         | (Fulfilled response, w') =>
             (if negb (truthy (Env.text response))
              then throw (Error "Empty response from AI")
              else match JSON_parse (default EmptyString (Env.text response)) with
                   | Some analysis => resolve analysis
                   | None => throw SyntaxError
                   end) w'
         | (Rejected e, w') => (Rejected e, w')
         end)
      (fun error => await (console_error "Analysis failed:")
                          (fun _ => throw error)) w in
    (forall a, fst r = Fulfilled a ->
       console (snd r) = console w
       /\ exists ps0 resp,
            sent (snd r) = (sent w ++ [analysis_request ps0])%list
            /\ service w (length (sent w)) (analysis_request ps0) = Fulfilled resp
            /\ truthy (Env.text resp) = true
            /\ JSON_parse (default EmptyString (Env.text resp)) = Some a)
    /\ (forall e, fst r = Rejected e ->
          (e = Error "No input provided" /\ snd r = w)
          \/ (console (snd r) = (console w ++ ["Analysis failed:"])%list
              /\ exists ps0,
                   sent (snd r) = (sent w ++ [analysis_request ps0])%list
                   /\ (service w (length (sent w)) (analysis_request ps0)
                       = Rejected e
                       \/ e = Error "Empty response from AI"
                       \/ e = SyntaxError)))).
  { intros ps. cbv zeta.
    unfold try_catch, generateContent, await, console_error, throw, resolve.
    destruct (service w (length (sent w)) (analysis_request ps))
      as [resp|e0] eqn:Hsrv; simpl.
    - destruct (truthy (Env.text resp)) eqn:Ht; simpl.
      + destruct (JSON_parse (default EmptyString (Env.text resp)))
          as [a0|] eqn:Hp; simpl; split; intros x Hx; inversion Hx; subst.
        * split; [reflexivity|]. exists ps, resp. repeat split; assumption.
        * right. split; [reflexivity|]. exists ps. split; auto.
      + split; intros x Hx; inversion Hx; subst.
        right. split; [reflexivity|]. exists ps. split; auto.
    - split; intros x Hx; inversion Hx; subst.
      right. split; [reflexivity|]. exists ps. split; auto. }
  destruct (truthy imageBase64); [apply Hsent|].
  destruct (truthy text); [apply Hsent|].
  unfold throw. simpl. split; intros x Hx; inversion Hx; subst.
  left. split; reflexivity.
Qed.

Lemma analyzeContent_rethrows_witness :
  console (snd (analyzeContent (parser := Fixtures.parse_gato)
                  (Some "gato") None "Auto" "Chinese" Fixtures.w_gato))
  = console Fixtures.w_gato.
Proof.
  destruct (analyzeContent_rethrows (parser := Fixtures.parse_gato)
              (Some "gato") None "Auto" "Chinese" Fixtures.w_gato)
    as [Hok _].
  destruct (Hok Fixtures.gato) as [Hconsole _];
    [vm_compute; reflexivity | exact Hconsole].
Defined.

(** X11: a daily lesson costs one request and one random draw for each
    item returned. On success nothing is logged and the random source has
    advanced by the number of items; on any failure the random source is
    untouched and "Daily lesson generation failed:" is logged once. *)
Theorem generateDailyLesson_requests_and_draws
    `{parser : !JSONParse (list DailyLessonItem)}
    (level : UserLevel) (count : Z) (previousTopics : list string)
    (systemLanguage : string) (w : World) :
  let r := generateDailyLesson level count previousTopics systemLanguage w in
  sent (snd r)
  = (sent w ++ [lesson_request level count previousTopics systemLanguage])%list
  /\ match fst r with
     | Fulfilled items =>
         draws (snd r) = (draws w + length items)%nat
         /\ console (snd r) = console w
     | Rejected _ =>
         draws (snd r) = draws w
         /\ console (snd r)
            = (console w ++ ["Daily lesson generation failed:"])%list
     end.
Proof.
  cbv zeta. unfold generateDailyLesson, try_catch, await, generateContent.
  destruct (service w (length (sent w))
              (lesson_request level count previousTopics systemLanguage))
    as [resp|e]; simpl.
  - destruct (truthy (Env.text resp)); simpl.
    + destruct (JSON_parse (default EmptyString (Env.text resp)))
        as [parsed|]; simpl.
      * set (w1 := Build_World _ _ _ _ _ _ _).
        destruct (mapP_assign_id_world parsed w1)
          as (items & w' & Hrun & Hlen & Hsent & Hcons & Hdraws).
        rewrite Hrun. simpl. rewrite Hsent, Hcons, Hdraws, Hlen.
        repeat split.
      * repeat split.
    + repeat split.
  - repeat split.
Qed.

Lemma first_inline_uri_find (ps : list ContentPart) :
  first_inline_uri ps
  = match List.find (fun part => bool_decide (is_Some (inlineData part))) ps with
    | Some part =>
        match inlineData part with
        | Some d => "data:" +:+ mimeType d +:+ ";base64," +:+ inline_data d
        | None => EmptyString
        end
    | None => EmptyString
    end.
Proof.
  induction ps as [|p ps IH]; [reflexivity|].
  cbn [first_inline_uri List.find].
  destruct (inlineData p) as [d|] eqn:Hd.
  - rewrite bool_decide_eq_true_2 by eauto. now rewrite Hd.
  - rewrite bool_decide_eq_false_2 by (intros [x Hx]; discriminate).
    exact IH.
Qed.

(** The image gateway in terms of the first inline part. *)
Lemma generateMnemonicImage_first_inline (prompt : string) (w : World)
    (resp : Response) :
  service w (length (sent w)) (image_request prompt) = Fulfilled resp ->
  fst (generateMnemonicImage prompt w)
  = Fulfilled
      match first_inline resp with
      | Some d => "data:" +:+ mimeType d +:+ ";base64," +:+ inline_data d
      | None => EmptyString
      end.
Proof.
  intros Hsrv. rewrite generateMnemonicImage_result, Hsrv.
  rewrite first_inline_uri_find. unfold first_inline.
  destruct (List.find _ _) as [part|] eqn:Hfind; [|reflexivity].
  destruct (inlineData part); reflexivity.
Qed.

(** X12: when the provider answers, the image is the first part with
    inline data among the parts of the first candidate, as a data URI of
    its MIME type and payload; parts after it and other candidates play no
    role. The result is the empty string exactly when the first candidate
    has no such part. *)
Theorem generateMnemonicImage_first_inline_part (prompt : string)
    (w : World) (resp : Response) :
  service w (length (sent w)) (image_request prompt) = Fulfilled resp ->
  fst (generateMnemonicImage prompt w)
  = Fulfilled
      match first_inline resp with
      | Some d => "data:" +:+ mimeType d +:+ ";base64," +:+ inline_data d
      | None => EmptyString
      end
  /\ (fst (generateMnemonicImage prompt w) = Fulfilled EmptyString
      <-> first_inline resp = None).
Proof.
  intros Hsrv.
  pose proof (generateMnemonicImage_first_inline prompt w resp Hsrv) as Hres.
  split; [exact Hres|]. rewrite Hres.
  destruct (first_inline resp) as [d|]; split; intros H;
    try reflexivity; try discriminate.
Qed.

Lemma generateMnemonicImage_first_inline_part_witness :
  fst (generateMnemonicImage "A cat asleep on a sunny windowsill"
         Fixtures2.w_picture)
  = Fulfilled "data:image/png;base64,iVBORw0KGgo=".
Proof.
  apply (generateMnemonicImage_first_inline_part
           "A cat asleep on a sunny windowsill" Fixtures2.w_picture
           {| text := None;
              candidates :=
                Some [ {| content := Some {| parts := Some
                  [ text_part "here it is";
                    inline_part "image/png" "iVBORw0KGgo=";
                    inline_part "image/jpeg" "/9j/4AAQ" ] |} |} ] |}).
  reflexivity.
Defined.

(** X13: an image is generated at most once for an item. When the card of
    an item of the history that has no image yet asks for one and the
    provider's answer carries one, the item in the list gets the image;
    and the card of the updated item, asked again, sends nothing and
    changes nothing, whatever the provider would answer. *)
Theorem image_is_generated_once (item : HistoryItem) (i : nat)
    (st : App.State) (w : World) (generatingImage : bool)
    (resp : Response) (d : InlineData) :
  App.history st !! i = Some item ->
  truthy (generatedImageUrl item) = false ->
  service w (length (sent w)) (image_request (visualAidPrompt (data item)))
  = Fulfilled resp ->
  first_inline resp = Some d ->
  let st' :=
    snd (fst (AnalysisCard.handleGenerateImage App.updateGeneratedImage
                item generatingImage st w)) in
  exists item' : HistoryItem,
    App.history st' !! i = Some item'
    /\ id item' = id item /\ data item' = data item
    /\ generatedImageUrl item'
       = Some ("data:" +:+ mimeType d +:+ ";base64," +:+ inline_data d)
    /\ forall (flag : bool) (w2 : World),
         AnalysisCard.handleGenerateImage App.updateGeneratedImage
           item' flag st' w2
         = ((flag, st'), w2).
Proof.
  intros Hitem Hnone Hsrv Hinline. cbv zeta.
  pose proof (generateMnemonicImage_first_inline _ w resp Hsrv) as Hres.
  rewrite Hinline in Hres.
  unfold AnalysisCard.handleGenerateImage. rewrite Hnone.
  destruct (generateMnemonicImage (visualAidPrompt (data item)) w)
    as [[url|e] w'] eqn:Hrun; simpl in Hres; [|discriminate].
  inversion Hres as [Hurl]. clear Hres. subst url.
  set (url := "data:" +:+ mimeType d +:+ ";base64," +:+ inline_data d).
  assert (Htruthy : truthy (Some url) = true) by reflexivity.
  rewrite Htruthy. cbn [fst snd].
  exists (App.withImage url item).
  assert (Hh : App.history (App.updateGeneratedImage (id item) url st)
               = map (fun x => if String.eqb (id x) (id item)
                               then App.withImage url x else x)
                     (App.history st)).
  { unfold App.updateGeneratedImage.
    destruct (App.quickViewHas (id item) st); reflexivity. }
  split.
  - rewrite Hh. change (map ?f ?l) with (f <$> l).
    rewrite list_lookup_fmap, Hitem. simpl. now rewrite String.eqb_refl.
  - split; [reflexivity|]. split; [reflexivity|]. split; [reflexivity|].
    intros flag w2. reflexivity.
Qed.

Lemma image_is_generated_once_witness :
  exists item' : HistoryItem,
    App.history
      (snd (fst (AnalysisCard.handleGenerateImage App.updateGeneratedImage
                   Fixtures.bare false
                   (Fixtures.app_with [Fixtures.cached; Fixtures.bare] None)
                   Fixtures2.w_picture))) !! 1%nat
    = Some item'
    /\ generatedImageUrl item' = Some "data:image/png;base64,iVBORw0KGgo=".
Proof.
  destruct (image_is_generated_once Fixtures.bare 1
              (Fixtures.app_with [Fixtures.cached; Fixtures.bare] None)
              Fixtures2.w_picture false
              {| text := None;
                 candidates :=
                   Some [ {| content := Some {| parts := Some
                     [ text_part "here it is";
                       inline_part "image/png" "iVBORw0KGgo=";
                       inline_part "image/jpeg" "/9j/4AAQ" ] |} |} ] |}
              {| mimeType := "image/png"; inline_data := "iVBORw0KGgo=" |}
              eq_refl eq_refl eq_refl eq_refl)
    as (item' & Hlook & _ & _ & Hurl & _).
  exists item'. split; [exact Hlook | exact Hurl].
Defined.

(** ** The chat *)

(** X14: the tutor's reply is never empty and a failure is never hidden.
    When the chat endpoint answers, [sendChatMessage] returns its text if
    that is non-empty and the fixed fallback sentence otherwise; when the
    endpoint fails, the same error reaches the caller. The world is left
    alone either way. *)
Theorem sendChatMessage_reply
    (chat_backend : Chat.ChatRequest -> Settled Response)
    (currentHistory : list ChatMessage) (newMessage : string)
    (context : LearningAnalysis) (w : World) :
  match chat_backend (Chat.chat_request currentHistory newMessage context) with
  | Rejected e =>
      Chat.sendChatMessage chat_backend currentHistory newMessage context w
      = (Rejected e, w)
  | Fulfilled resp =>
      exists reply : string,
        Chat.sendChatMessage chat_backend currentHistory newMessage context w
        = (Fulfilled reply, w)
        /\ reply <> EmptyString
        /\ (truthy (Env.text resp) = true -> Env.text resp = Some reply)
        /\ (truthy (Env.text resp) = false -> reply = Chat.FALLBACK)
  end.
Proof.
  unfold Chat.sendChatMessage, await, resolve.
  destruct (chat_backend _) as [resp|e]; [|reflexivity].
  destruct (Env.text resp) as [[|c s]|] eqn:Htext; simpl.
  - exists Chat.FALLBACK. repeat split; try discriminate.
  - exists (String c s). repeat split; try discriminate.
  - exists Chat.FALLBACK. repeat split; try discriminate.
Qed.

Lemma sendChatMessage_reply_witness :
  exists reply : string,
    Chat.sendChatMessage Fixtures2.mute [] "Is this formal?" Fixtures.gato
      Fixtures.w_gato
    = (Fulfilled reply, Fixtures.w_gato)
    /\ reply = Chat.FALLBACK.
Proof.
  pose proof (sendChatMessage_reply Fixtures2.mute [] "Is this formal?"
                Fixtures.gato Fixtures.w_gato) as Hreply.
  change (Fixtures2.mute _) with
    (@Fulfilled Response {| text := None; candidates := None |}) in Hreply.
  destruct Hreply as (reply & Hrun & _ & _ & Hfallback).
  exists reply. split; [exact Hrun|]. apply Hfallback. reflexivity.
Defined.

(** What one send does to the transcript. *)
Lemma handleSend_cases
    (chat_backend : Chat.ChatRequest -> Settled Response)
    (trim : string -> string)
    (context : LearningAnalysis) (st : Chat.State) (w : World) :
  let r := Chat.handleSend chat_backend trim context st w in
  (truthy (Some (trim (Chat.input st))) = false /\ r = (st, w))
  \/ (truthy (Some (trim (Chat.input st))) = true
      /\ Chat.input (fst r) = EmptyString
      /\ Chat.isLoading (fst r) = false
      /\ exists userMsg : ChatMessage,
           role userMsg = user
           /\ cm_text userMsg = Chat.input st
           /\ cm_id userMsg = toString (clock w (ticks w))
           /\ match chat_backend
                      (Chat.chat_request (Chat.messages st) (Chat.input st)
                                         context) with
              | Rejected _ =>
                  Chat.messages (fst r) = (Chat.messages st ++ [userMsg])%list
                  /\ console (snd r) = (console w ++ ["Chat error"])%list
              | Fulfilled _ =>
                  exists botMsg : ChatMessage,
                    Chat.messages (fst r)
                    = (Chat.messages st ++ [userMsg; botMsg])%list
                    /\ role botMsg = model
                    /\ cm_text botMsg <> EmptyString
                    /\ cm_id botMsg
                       = toString (clock w (ticks w + 2) + 1)
              end).
Proof.
  cbv zeta. unfold Chat.handleSend.
  destruct (truthy (Some (trim (Chat.input st)))) eqn:Hblank; simpl negb;
    cbv iota; [right|left; split; reflexivity].
  split; [reflexivity|].
  unfold Chat.sendChatMessage.
  remember (chat_backend
              (Chat.chat_request (Chat.messages st) (Chat.input st) context))
    as outcome eqn:Houtcome.
  replace (ticks w + 2)%nat with (S (S (ticks w))) by lia.
  unfold await, Date_now, resolve, console_error.
  cbn [fst snd ticks clock service sent random36 draws console].
  destruct outcome as [resp|e];
    cbn [fst snd ticks clock service sent random36 draws console
         Chat.messages Chat.input Chat.isLoading].
  - split; [reflexivity|]. split; [reflexivity|].
    exists {| cm_id := toString (clock w (ticks w)); role := user;
              cm_text := Chat.input st;
              cm_timestamp := clock w (S (ticks w)) |}.
    split; [reflexivity|]. split; [reflexivity|].
    split; [reflexivity|].
    exists {| cm_id := toString (clock w (S (S (ticks w))) + 1);
              role := model;
              cm_text := if truthy (Env.text resp)
                         then default EmptyString (Env.text resp)
                         else Chat.FALLBACK;
              cm_timestamp := clock w (S (S (S (ticks w)))) |}.
    split; [rewrite <- app_assoc; reflexivity|].
    split; [reflexivity|]. split; [|reflexivity].
    cbn [cm_text]. destruct (Env.text resp) as [[|c s]|]; discriminate.
  - split; [reflexivity|]. split; [reflexivity|].
    exists {| cm_id := toString (clock w (ticks w)); role := user;
              cm_text := Chat.input st;
              cm_timestamp := clock w (S (ticks w)) |}.
    split; [reflexivity|]. split; [reflexivity|].
    split; [reflexivity|]. split; reflexivity.
Qed.

(** X15: sending a chat message. A blank input does nothing. Otherwise
    the box is cleared, the busy flag ends down, and the transcript gets
    the user's message, followed by the tutor's reply (never empty) when
    the chat endpoint answers, and by nothing but a "Chat error" line on
    the console when it fails: the user's message stays. The history given
    to the endpoint is the transcript from before this message. *)
Theorem handleSend_outcomes
    (chat_backend : Chat.ChatRequest -> Settled Response)
    (trim : string -> string)
    (context : LearningAnalysis) (st : Chat.State) (w : World) :
  let r := Chat.handleSend chat_backend trim context st w in
  (truthy (Some (trim (Chat.input st))) = false /\ r = (st, w))
  \/ (truthy (Some (trim (Chat.input st))) = true
      /\ Chat.input (fst r) = EmptyString
      /\ Chat.isLoading (fst r) = false
      /\ exists userMsg : ChatMessage,
           role userMsg = user
           /\ cm_text userMsg = Chat.input st
           /\ cm_id userMsg = toString (clock w (ticks w))
           /\ match chat_backend
                      (Chat.chat_request (Chat.messages st) (Chat.input st)
                                         context) with
              | Rejected _ =>
                  Chat.messages (fst r) = (Chat.messages st ++ [userMsg])%list
                  /\ console (snd r) = (console w ++ ["Chat error"])%list
              | Fulfilled _ =>
                  exists botMsg : ChatMessage,
                    Chat.messages (fst r)
                    = (Chat.messages st ++ [userMsg; botMsg])%list
                    /\ role botMsg = model
                    /\ cm_text botMsg <> EmptyString
                    /\ cm_id botMsg
                       = toString (clock w (ticks w + 2) + 1)
              end).
Proof. apply handleSend_cases. Qed.

Lemma replies_follow_user (b : bool) (l : list ChatMessage) (u : ChatMessage) :
  role u = user ->
  replies_follow b l = true -> replies_follow b (l ++ [u]) = true.
Proof.
  intros Hu. revert b. induction l as [|m l IH]; intros b Hl; simpl in *.
  - now rewrite Hu.
  - destruct (role m); [now apply IH|].
    apply andb_true_iff in Hl as [-> Hl]. simpl. now apply IH.
Qed.

Lemma replies_follow_exchange (b : bool) (l : list ChatMessage)
    (u m : ChatMessage) :
  role u = user -> role m = model ->
  replies_follow b l = true -> replies_follow b (l ++ [u; m]) = true.
Proof.
  intros Hu Hm. revert b. induction l as [|x l IH]; intros b Hl; simpl in *.
  - now rewrite Hu, Hm.
  - destruct (role x); [now apply IH|].
    apply andb_true_iff in Hl as [-> Hl]. simpl. now apply IH.
Qed.

(** X16: over a whole conversation the transcript is append-only and well
    formed: whatever texts are sent and whether the endpoint answers or
    fails, the messages that were there stay at the front unchanged, and
    every message of the tutor comes directly after a message of the
    user. *)
Theorem transcript_is_append_only_and_well_formed
    (chat_backend : Chat.ChatRequest -> Settled Response)
    (trim : string -> string)
    (context : LearningAnalysis) (txts : list string)
    (st : Chat.State) (w : World) :
  replies_follow false (Chat.messages st) = true ->
  let st' := fst (Chat.converse chat_backend trim context txts (st, w)) in
  replies_follow false (Chat.messages st') = true
  /\ exists added : list ChatMessage,
       Chat.messages st' = (Chat.messages st ++ added)%list
       /\ (length added <= 2 * length txts)%nat.
Proof.
  intros Hwf. cbv zeta. unfold Chat.converse.
  induction txts as [|txt txts IH] using rev_ind.
  - simpl. split; [exact Hwf|]. exists []. split; [now rewrite app_nil_r|].
    simpl. lia.
  - rewrite fold_left_app. simpl.
    destruct IH as (Hwf' & added & Hadd & Hlen).
    set (sw := fold_left _ txts (st, w)) in *.
    unfold Chat.say.
    set (typed := {| Chat.messages := Chat.messages (fst sw);
                     Chat.input := txt;
                     Chat.isLoading := Chat.isLoading (fst sw) |}).
    pose proof (handleSend_cases chat_backend trim context typed (snd sw))
      as Hsend. cbv zeta in Hsend.
    rewrite length_app. simpl length.
    destruct Hsend as [[_ Hsame]
                      |(_ & _ & _ & userMsg & Hu & _ & _ & Hcase)].
    + rewrite Hsame. simpl. split; [exact Hwf'|].
      exists added. split; [exact Hadd|lia].
    + simpl in Hcase.
      destruct (chat_backend _) as [resp|e].
      * destruct Hcase as (botMsg & Hmsgs & Hb & _).
        rewrite Hmsgs. split.
        -- now apply replies_follow_exchange.
        -- exists (added ++ [userMsg; botMsg])%list.
           rewrite Hadd, <- app_assoc. split; [reflexivity|].
           rewrite length_app. simpl. lia.
      * destruct Hcase as (Hmsgs & _).
        rewrite Hmsgs. split.
        -- now apply replies_follow_user.
        -- exists (added ++ [userMsg])%list.
           rewrite Hadd, <- app_assoc. split; [reflexivity|].
           rewrite length_app. simpl. lia.
Qed.

Lemma transcript_is_append_only_and_well_formed_witness :
  replies_follow false
    (Chat.messages
       (fst (Chat.converse Fixtures2.chatty Fixtures2.trim_plain Fixtures.gato
               ["Is this formal?"; "   "; "Other synonyms?"]
               (Chat.initial, Fixtures.w_gato))))
  = true.
Proof.
  apply (transcript_is_append_only_and_well_formed
           Fixtures2.chatty Fixtures2.trim_plain Fixtures.gato
           ["Is this formal?"; "   "; "Other synonyms?"]
           Chat.initial Fixtures.w_gato).
  reflexivity.
Defined.

(** ** The story screen: requests and the audio cache *)

Lemma generateTextToSpeech_sent (text : string) (w : World) :
  sent (snd (generateTextToSpeech text w)) = (sent w ++ [tts_request text])%list.
Proof.
  unfold generateTextToSpeech, try_catch, await, generateContent.
  destruct (service w (length (sent w)) (tts_request text)); reflexivity.
Qed.

Lemma generateStoryFromWords_sent `{parser : !JSONParse StoryResponse}
    (words : list string) (theme : string) (w : World) :
  sent (snd (generateStoryFromWords words theme w))
  = (sent w ++ [story_request words theme])%list.
Proof.
  unfold generateStoryFromWords, try_catch, await, generateContent.
  destruct (service w (length (sent w)) (story_request words theme))
    as [resp|e]; simpl; [|reflexivity].
  destruct (truthy (Env.text resp)); simpl; [|reflexivity].
  destruct (JSON_parse _); reflexivity.
Qed.

(** [playFromBase64] asks the provider nothing and keeps the story and the
    cached payload. *)
Lemma playFromBase64_keeps (atob : string -> option string) (base64 : string)
    (st : SG.State) (w : World) :
  sent (snd (SG.playFromBase64 atob base64 st w)) = sent w
  /\ SG.audioBase64 (fst (SG.playFromBase64 atob base64 st w))
     = SG.audioBase64 st
  /\ SG.story (fst (SG.playFromBase64 atob base64 st w)) = SG.story st
  /\ SG.isGeneratingAudio (fst (SG.playFromBase64 atob base64 st w))
     = SG.isGeneratingAudio st.
Proof.
  unfold SG.playFromBase64.
  destruct (atob base64) as [bin|]; [|repeat split].
  destruct (SG.decodePCM bin) as [[|x samples]|]; repeat split.
Qed.

Lemma step_cached (atob : string -> option string)
    `{parser : !JSONParse StoryResponse}
    (e : SG.Event) (sw : SG.State * World) :
  truthy (SG.audioBase64 (fst sw)) = true ->
  match e with SG.ClickGenerate _ => False | _ => True end ->
  sent (snd (SG.step atob e sw)) = sent (snd sw)
  /\ SG.audioBase64 (fst (SG.step atob e sw)) = SG.audioBase64 (fst sw).
Proof.
  destruct sw as [st w]. simpl. intros Hcached He.
  destruct e as [| |words|n]; simpl.
  - unfold SG.playAudio. destruct (SG.story st); [|split; reflexivity].
    rewrite Hcached.
    destruct (playFromBase64_keeps atob
                (default EmptyString (SG.audioBase64 st)) st w)
      as (Hsent & Haudio & _). split; assumption.
  - split; [reflexivity|]. unfold SG.stopAudio.
    destruct (SG.sourceNodeRef st); reflexivity.
  - contradiction.
  - split; [reflexivity|]. unfold SG.onended.
    destruct (SG.nodes st !! n); reflexivity.
Qed.

(** X17: once a speech payload is cached, no click on Listen or Stop and
    no end of playback sends anything to the provider or changes the
    cached payload, however many of them follow; only Generate Story
    does. *)
Theorem cached_audio_is_not_requested_again
    (atob : string -> option string) `{parser : !JSONParse StoryResponse}
    (evs : list SG.Event) (st : SG.State) (w : World) :
  truthy (SG.audioBase64 st) = true ->
  no_generate evs = true ->
  sent (snd (SG.run atob evs (st, w))) = sent w
  /\ SG.audioBase64 (fst (SG.run atob evs (st, w))) = SG.audioBase64 st.
Proof.
  intros Hcached Hevs. unfold SG.run.
  induction evs as [|e evs IH] using rev_ind; [split; reflexivity|].
  unfold no_generate in *. rewrite forallb_app in Hevs.
  apply andb_true_iff in Hevs as [Hevs He]. simpl in He.
  rewrite andb_true_r in He.
  destruct (IH Hevs) as [Hsent Haudio].
  rewrite fold_left_app. simpl.
  destruct (step_cached atob e
              (fold_left (fun acc e => SG.step atob e acc) evs (st, w)))
    as [Hs Ha].
  - now rewrite Haudio.
  - destruct e; try exact I. discriminate.
  - split; congruence.
Qed.

Lemma cached_audio_is_not_requested_again_witness :
  sent (snd (SG.run Fixtures.atob_AAD_f (parser := Fixtures.parse_story)
               [SG.ClickListen; SG.ClickStop; SG.ClickListen; SG.EndedEvent 1;
                SG.ClickListen]
               (Fixtures2.story_state, Fixtures.w_down)))
  = [].
Proof.
  apply (cached_audio_is_not_requested_again Fixtures.atob_AAD_f
           (parser := Fixtures.parse_story)
           [SG.ClickListen; SG.ClickStop; SG.ClickListen; SG.EndedEvent 1;
            SG.ClickListen]
           Fixtures2.story_state Fixtures.w_down); reflexivity.
Defined.

Lemma stopNode_length (n : nat) (l : list SG.SourceNode) :
  length (SG.stopNode n l) = length l.
Proof.
  unfold SG.stopNode. destruct (l !! n) as [node|]; [|reflexivity].
  destruct (SG.status node); try reflexivity. apply length_insert.
Qed.

Lemma handleGenerate_begin_nodes (st : SG.State) :
  length (SG.nodes (Phases.handleGenerate_begin st)) = length (SG.nodes st).
Proof.
  unfold Phases.handleGenerate_begin, SG.stopAudio. simpl.
  destruct (SG.sourceNodeRef st); simpl; [apply stopNode_length|reflexivity].
Qed.

(** X18: Generate Story, with words to work on, stops the audio and
    forgets the cached speech at once, before it waits for the story: no
    source is playing, the reference and the playing flag are cleared and
    no payload is cached. What it does when the story arrives touches the
    story and the loading flag only. So with nothing else running while it
    waits the audio is still silent and uncached when the new story is
    shown. But a speech request that was pending is not cancelled: when
    its answer arrives during the wait, that payload is cached and, if it
    decodes, played, and it is still there when the new story is shown. *)
Theorem handleGenerate_resets_audio_at_once
    (atob : string -> option string) `{parser : !JSONParse StoryResponse}
    (words : list string) (st : SG.State) (w : World) :
  words <> [] ->
  tracked st ->
  let st1 := Phases.handleGenerate_begin st in
  let story_call := generateStoryFromWords words (SG.theme st) w in
  ((forall m, SG.playing st1 m = false)
   /\ SG.sourceNodeRef st1 = None
   /\ SG.isPlaying st1 = false
   /\ SG.audioBase64 st1 = None
   /\ SG.isLoading st1 = true
   /\ SG.story st1 = SG.story st)
  /\ (forall (outcome : Settled StoryResponse) (st2 : SG.State) (w2 : World),
        let r := Phases.handleGenerate_resume outcome st2 w2 in
        SG.nodes (fst r) = SG.nodes st2
        /\ SG.sourceNodeRef (fst r) = SG.sourceNodeRef st2
        /\ SG.isPlaying (fst r) = SG.isPlaying st2
        /\ SG.audioBase64 (fst r) = SG.audioBase64 st2
        /\ SG.isLoading (fst r) = false
        /\ SG.story (fst r)
           = match outcome with
             | Fulfilled result => Some result
             | Rejected _ => SG.story st2
             end
        /\ sent (snd r) = sent w2)
  /\ (SG.handleGenerate words st w
      = Phases.handleGenerate_resume (fst story_call) st1 (snd story_call)
      /\ sent (snd story_call)
         = (sent w ++ [story_request words (SG.theme st)])%list)
  /\ (forall (b64 : string) (outcome : Settled StoryResponse) (w2 : World),
        b64 <> EmptyString ->
        let mid :=
          Phases.playAudio_resume atob (Fulfilled (Some b64)) st1 w2 in
        let r := Phases.handleGenerate_resume outcome (fst mid) (snd mid) in
        SG.audioBase64 (fst r) = Some b64
        /\ forall (binaryString : string) (x : Q) (samples : list Q),
             atob b64 = Some binaryString ->
             SG.decodePCM binaryString = Some (x :: samples) ->
             SG.isPlaying (fst r) = true
             /\ SG.playing (fst r) (length (SG.nodes st)) = true).
Proof.
  intros Hwords Htr. cbv zeta.
  split; [|split; [|split]].
  - pose proof (stopAudio_silences (SG.setIsLoading true st)) as Hsilent.
    unfold Phases.handleGenerate_begin.
    destruct (stopAudio_ref (SG.setIsLoading true st)) as [Href Hplay].
    split; [|split; [|split; [|split; [|split]]]].
    + intros m. apply (Hsilent Htr m).
    + exact Href.
    + exact Hplay.
    + reflexivity.
    + unfold SG.stopAudio. simpl. destruct (SG.sourceNodeRef st); reflexivity.
    + unfold SG.stopAudio. simpl. destruct (SG.sourceNodeRef st); reflexivity.
  - intros [result|e] st2 w2; simpl; repeat split.
  - split; [|apply generateStoryFromWords_sent].
    unfold SG.handleGenerate, Phases.handleGenerate_resume,
      Phases.handleGenerate_begin.
    destruct words as [|word words]; [congruence|].
    destruct (generateStoryFromWords (word :: words) (SG.theme st) w)
      as [[result|e] w']; reflexivity.
  - intros b64 outcome w2 Hb64.
    assert (Htruthy : truthy (Some b64) = true)
      by (destruct b64; [congruence|reflexivity]).
    unfold Phases.playAudio_resume. rewrite Htruthy.
    change (default EmptyString (Some b64)) with b64.
    set (st2 := SG.setAudioBase64 (Some b64) (Phases.handleGenerate_begin st)).
    destruct (playFromBase64_keeps atob b64 st2 w2) as (_ & Haudio & _).
    pose proof (playFromBase64_buffer atob b64) as Hbuffer.
    assert (Hflag : forall bin x samples,
               atob b64 = Some bin ->
               SG.decodePCM bin = Some (x :: samples) ->
               SG.isPlaying (fst (SG.playFromBase64 atob b64 st2 w2)) = true).
    { intros bin x samples Ha Hd. unfold SG.playFromBase64.
      rewrite Ha, Hd. reflexivity. }
    destruct (SG.playFromBase64 atob b64 st2 w2) as [st3 w3] eqn:Hplay.
    simpl in Haudio, Hflag.
    assert (Hframe : forall st4 w4,
               SG.audioBase64
                 (fst (Phases.handleGenerate_resume outcome st4 w4))
               = SG.audioBase64 st4
               /\ SG.isPlaying
                    (fst (Phases.handleGenerate_resume outcome st4 w4))
                  = SG.isPlaying st4
               /\ SG.nodes
                    (fst (Phases.handleGenerate_resume outcome st4 w4))
                  = SG.nodes st4).
    { intros st4 w4. destruct outcome; simpl; repeat split. }
    destruct (Hframe (SG.setIsGeneratingAudio false st3) w3)
      as (Ha & Hp & Hn).
    cbn [fst snd]. split.
    + rewrite Ha. simpl. exact Haudio.
    + intros bin x samples Hbin Hdec. split.
      * rewrite Hp. simpl. exact (Hflag bin x samples Hbin Hdec).
      * unfold SG.playing. rewrite Hn.
        specialize (Hbuffer bin x samples st2 w2 Hbin Hdec).
        rewrite Hplay in Hbuffer. cbn [fst] in Hbuffer.
        change (SG.nodes (SG.setIsGeneratingAudio false st3))
          with (SG.nodes st3).
        rewrite Hbuffer, playingIn_started.
        assert (Hlen : length (SG.nodes st2) = length (SG.nodes st))
          by apply handleGenerate_begin_nodes.
        rewrite Hlen, Nat.eqb_refl. apply orb_true_r.
Qed.

Lemma handleGenerate_resets_audio_at_once_witness :
  let waiting :=
    Phases.handleGenerate_begin
      (SG.setIsGeneratingAudio true
         (SG.setAudioBase64 None Fixtures2.story_state)) in
  let mid :=
    Phases.playAudio_resume Fixtures.atob_AAD_f (Fulfilled (Some "AAD/fw=="))
      waiting Fixtures.w_studio in
  let r :=
    Phases.handleGenerate_resume
      (Fulfilled {| title := "Two"; sr_content := "Another story.";
                    englishContent := "Another story." |})
      (fst mid) (snd mid) in
  SG.audioBase64 (fst r) = Some "AAD/fw==" /\ SG.isPlaying (fst r) = true.
Proof.
  cbv zeta.
  destruct (handleGenerate_resets_audio_at_once Fixtures.atob_AAD_f
              (parser := Fixtures.parse_story) ["gato"]
              (SG.setIsGeneratingAudio true
                 (SG.setAudioBase64 None Fixtures2.story_state))
              Fixtures.w_studio)
    as (_ & _ & _ & Hlate).
  - discriminate.
  - intros n Hn. vm_compute in Hn. destruct n; discriminate.
  - destruct (Hlate "AAD/fw=="
                (Fulfilled {| title := "Two"; sr_content := "Another story.";
                              englishContent := "Another story." |})
                Fixtures.w_studio) as [Hcached Hplays]; [discriminate|].
    split; [exact Hcached|].
    destruct (Hplays Fixtures.pcm4 (0 # 32768)%Q [(32767 # 32768)%Q]
                eq_refl eq_refl) as [Hflag _].
    exact Hflag.
Defined.

(** X19: when no speech comes back, Listen leaves no trace. With a story
    on screen and no payload cached, if the provider call fails or its
    answer carries no audio, then after [playAudio] exactly one request
    has been sent, no source has been created, nothing is cached, the
    playing flag is as before and the generating flag is down. *)
Theorem playAudio_without_speech (atob : string -> option string)
    (st : SG.State) (w : World) (s : StoryResponse) :
  SG.story st = Some s ->
  truthy (SG.audioBase64 st) = false ->
  generation_fails (tts_request (sr_content s)) w ->
  let r := SG.playAudio atob st w in
  sent (snd r) = (sent w ++ [tts_request (sr_content s)])%list
  /\ SG.nodes (fst r) = SG.nodes st
  /\ SG.sourceNodeRef (fst r) = SG.sourceNodeRef st
  /\ SG.audioBase64 (fst r) = SG.audioBase64 st
  /\ SG.isPlaying (fst r) = SG.isPlaying st
  /\ SG.isGeneratingAudio (fst r) = false.
Proof.
  intros Hstory Hnocache Hfail. cbv zeta.
  pose proof (generateTextToSpeech_result (sr_content s) w) as Hres.
  pose proof (generateTextToSpeech_sent (sr_content s) w) as Hsent.
  unfold generation_fails in Hfail.
  unfold SG.playAudio. rewrite Hstory, Hnocache.
  destruct (generateTextToSpeech (sr_content s) w) as [[b64|e] w'];
    simpl in Hres, Hsent; [|discriminate].
  assert (Hnone : b64 = None).
  { destruct (service w (length (sent w)) (tts_request (sr_content s)))
      as [resp|e]; inversion Hres; [|reflexivity].
    now rewrite (first_part_audio_none resp Hfail). }
  subst b64. simpl. repeat split. exact Hsent.
Qed.

Lemma playAudio_without_speech_witness :
  SG.nodes
    (fst (SG.playAudio Fixtures.atob_AAD_f
            (SG.setAudioBase64 None Fixtures2.story_state) Fixtures.w_down))
  = [].
Proof.
  apply (playAudio_without_speech Fixtures.atob_AAD_f
           (SG.setAudioBase64 None Fixtures2.story_state) Fixtures.w_down
           {| title := "The Cat"; sr_content := "A cat sat.";
              englishContent := "A cat sat." |} eq_refl eq_refl).
  vm_compute. exact I.
Defined.

Lemma playAudio_cached (atob : string -> option string)
    (st : SG.State) (w : World) :
  truthy (SG.audioBase64 st) = true ->
  sent (snd (SG.playAudio atob st w)) = sent w.
Proof.
  intros Hcached. unfold SG.playAudio.
  destruct (SG.story st); [|reflexivity].
  rewrite Hcached. apply playFromBase64_keeps.
Qed.

(** X20: the payload is cached as soon as it arrives, before it is
    decoded. With a story on screen and nothing cached, when the
    provider's first part carries a non-empty payload, [playAudio] caches
    it; if the payload then fails to decode, nothing plays and the playing
    flag is down, and every later Listen fails the same way without asking
    the provider again. *)
Theorem playAudio_caches_before_decoding (atob : string -> option string)
    (st : SG.State) (w : World) (s : StoryResponse)
    (resp : Response) (b64 : string) :
  SG.story st = Some s ->
  truthy (SG.audioBase64 st) = false ->
  service w (length (sent w)) (tts_request (sr_content s)) = Fulfilled resp ->
  first_part_audio resp = Some b64 ->
  b64 <> EmptyString ->
  let r := SG.playAudio atob st w in
  SG.audioBase64 (fst r) = Some b64
  /\ SG.isGeneratingAudio (fst r) = false
  /\ (atob b64 = None ->
      SG.nodes (fst r) = SG.nodes st /\ SG.isPlaying (fst r) = false)
  /\ forall w2 : World,
       sent (snd (SG.playAudio atob (fst r) w2)) = sent w2.
Proof.
  intros Hstory Hnocache Hsrv Haudio Hne. cbv zeta.
  assert (Htruthy : truthy (Some b64) = true)
    by (destruct b64; [congruence|reflexivity]).
  assert (Hmain :
    SG.audioBase64 (fst (SG.playAudio atob st w)) = Some b64
    /\ SG.isGeneratingAudio (fst (SG.playAudio atob st w)) = false
    /\ (atob b64 = None ->
        SG.nodes (fst (SG.playAudio atob st w)) = SG.nodes st
        /\ SG.isPlaying (fst (SG.playAudio atob st w)) = false)).
  { pose proof (generateTextToSpeech_result (sr_content s) w) as Hres.
    rewrite Hsrv, Haudio in Hres. unfold or_else in Hres.
    rewrite Htruthy in Hres.
    unfold SG.playAudio. rewrite Hstory, Hnocache.
    destruct (generateTextToSpeech (sr_content s) w) as [[got|e] w'];
      cbn [fst] in Hres; [|discriminate].
    inversion Hres; subst got. rewrite Htruthy.
    change (default EmptyString (Some b64)) with b64.
    set (st1 := SG.setAudioBase64 (Some b64) (SG.setIsGeneratingAudio true st)).
    destruct (playFromBase64_keeps atob b64 st1 w') as (_ & Hkeep & _).
    assert (Hfailed : atob b64 = None ->
              SG.nodes (fst (SG.playFromBase64 atob b64 st1 w')) = SG.nodes st
              /\ SG.isPlaying (fst (SG.playFromBase64 atob b64 st1 w')) = false).
    { intros Hatob. unfold SG.playFromBase64. rewrite Hatob.
      split; reflexivity. }
    destruct (SG.playFromBase64 atob b64 st1 w') as [st2 w2].
    cbn [fst] in *. split; [exact Hkeep|]. split; [reflexivity|].
    exact Hfailed. }
  destruct Hmain as (Hcache & Hflag & Hfailed).
  split; [exact Hcache|]. split; [exact Hflag|]. split; [exact Hfailed|].
  intros w2. apply playAudio_cached. rewrite Hcache. exact Htruthy.
Qed.

Lemma playAudio_caches_before_decoding_witness :
  SG.audioBase64
    (fst (SG.playAudio (fun _ => None)
            (SG.setAudioBase64 None Fixtures2.story_state) Fixtures.w_studio))
  = Some "AAD/fw==".
Proof.
  apply (playAudio_caches_before_decoding (fun _ => None)
           (SG.setAudioBase64 None Fixtures2.story_state) Fixtures.w_studio
           {| title := "The Cat"; sr_content := "A cat sat.";
              englishContent := "A cat sat." |}
           {| text := None;
              candidates :=
                Some [ {| content := Some {| parts :=
                  Some [inline_part "audio/L16;rate=24000" "AAD/fw=="] |} |} ] |}
           "AAD/fw==" eq_refl eq_refl eq_refl eq_refl).
  discriminate.
Defined.

(** ** Word spans *)

Lemma cleanWord_clean (s : string) :
  Words.hasPunctuation (Words.cleanWord s) = false.
Proof.
  induction s as [|c s IH]; simpl; [reflexivity|].
  destruct (Words.isPunctuation c) eqn:Hc; simpl; [exact IH|].
  now rewrite Hc.
Qed.

Lemma cleanWord_fixes_clean (s : string) :
  Words.hasPunctuation s = false -> Words.cleanWord s = s.
Proof.
  induction s as [|c s IH]; simpl; [reflexivity|].
  intros H. apply orb_false_iff in H as [Hc Hs].
  rewrite Hc. now rewrite IH.
Qed.

Lemma cleanWord_filter (s : string) :
  String.list_ascii_of_string (Words.cleanWord s)
  = List.filter (fun c => negb (Words.isPunctuation c))
      (String.list_ascii_of_string s).
Proof.
  induction s as [|c s IH]; simpl; [reflexivity|].
  destruct (Words.isPunctuation c); simpl; [exact IH | now rewrite IH].
Qed.

Lemma cleanWord_changes (s : string) :
  String.eqb (Words.cleanWord s) s = negb (Words.hasPunctuation s).
Proof.
  destruct (Words.hasPunctuation s) eqn:Hp; simpl.
  - apply String.eqb_neq. intros Heq.
    pose proof (cleanWord_clean s) as Hclean. rewrite Heq in Hclean.
    congruence.
  - apply String.eqb_eq. now apply cleanWord_fixes_clean.
Qed.

(** X21: the word handed to the lookup is the span's text without the
    punctuation of the class: its characters are those of the text that
    are not in the class, in the order they have there. So no character of
    the class is left, the word equals the text exactly when the text has
    none, cleaning twice is cleaning once, and the word is never longer
    than the text. *)
Theorem cleanWord_strips_punctuation (segment : string) :
  String.list_ascii_of_string (Words.cleanWord segment)
  = List.filter (fun c => negb (Words.isPunctuation c))
      (String.list_ascii_of_string segment)
  /\ Words.hasPunctuation (Words.cleanWord segment) = false
  /\ String.eqb (Words.cleanWord segment) segment
     = negb (Words.hasPunctuation segment)
  /\ Words.cleanWord (Words.cleanWord segment) = Words.cleanWord segment
  /\ (String.length (Words.cleanWord segment) <= String.length segment)%nat.
Proof.
  split; [apply cleanWord_filter|].
  split; [apply cleanWord_clean|]. split; [apply cleanWord_changes|].
  split; [apply cleanWord_fixes_clean, cleanWord_clean|].
  induction segment as [|c s IH]; simpl; [lia|].
  destruct (Words.isPunctuation c); simpl; lia.
Qed.

Lemma cleanWord_strips_punctuation_witness :
  String.list_ascii_of_string (Words.cleanWord "it's,")
  = ["i"; "t"; "s"]%char.
Proof.
  rewrite (proj1 (cleanWord_strips_punctuation "it's,")). reflexivity.
Defined.

Lemma cleanWord_only_punctuation (s : string) :
  Words.onlyPunctuation s = true -> Words.cleanWord s = EmptyString.
Proof.
  induction s as [|c s IH]; simpl; [reflexivity|].
  intros H. apply andb_true_iff in H as [Hc Hs]. rewrite Hc. now apply IH.
Qed.

(** X22: a click on a span made only of punctuation looks nothing up: the
    cleaned word is empty, [handleQuickLookup] returns at once, and the
    controller state and the world (no request, no modal) are as before. *)
Theorem punctuation_click_is_ignored `{parser : !JSONParse LearningAnalysis}
    (segment : string) (st : App.State) (w : World) :
  Words.onlyPunctuation segment = true ->
  Words.clickWord segment st w = (st, w).
Proof.
  intros Honly. unfold Words.clickWord.
  rewrite (cleanWord_only_punctuation segment Honly). reflexivity.
Qed.

Lemma punctuation_click_is_ignored_witness :
  Words.clickWord (parser := Fixtures.parse_gato) "..." App.initial
    Fixtures.w_gato
  = (App.initial, Fixtures.w_gato).
Proof.
  apply (punctuation_click_is_ignored (parser := Fixtures.parse_gato)).
  reflexivity.
Defined.

(** ** Daily study: quiz, progression, screens, settings *)

Lemma answer_locked (item : DailyLessonItem) (clicks : list nat)
    (st : DailyStudy.State) :
  DailyStudy.selectedOption st <> None -> DailyView.answer item clicks st = st.
Proof.
  unfold DailyView.answer. revert st.
  induction clicks as [|idx clicks IH]; intros st Hsel; [reflexivity|].
  simpl. unfold DailyStudy.clickOption at 2, DailyStudy.handleQuizAnswer.
  destruct (DailyStudy.selectedOption st) eqn:Hs; [|congruence].
  apply IH. now rewrite Hs.
Qed.

(** X23: the first answer locks the quiz. On an item nobody has answered,
    after any series of clicks on options the state is the one the first
    click left: that option is the selected one and it is marked correct
    exactly when it is the item's [correctOptionIndex] (0 when the item
    has none); the other clicks change nothing. Next, when it moves to
    another item, clears the selection and the verdict. *)
Theorem first_answer_locks (item : DailyLessonItem) (idx : nat)
    (clicks : list nat) (st : DailyStudy.State) :
  DailyStudy.selectedOption st = None ->
  DailyView.answer item (idx :: clicks) st = DailyStudy.clickOption item idx st
  /\ DailyStudy.selectedOption (DailyView.answer item (idx :: clicks) st)
     = Some idx
  /\ DailyStudy.isCorrect (DailyView.answer item (idx :: clicks) st)
     = Some (Z.of_nat idx =? default 0%Z (correctOptionIndex item))%Z
  /\ ((S (DailyStudy.currentIndex st) < length (DailyStudy.lesson st))%nat ->
      DailyStudy.selectedOption
        (DailyStudy.handleNext (DailyView.answer item (idx :: clicks) st))
      = None
      /\ DailyStudy.isCorrect
           (DailyStudy.handleNext (DailyView.answer item (idx :: clicks) st))
         = None).
Proof.
  intros Hfree.
  assert (Hfirst : DailyView.answer item (idx :: clicks) st
                   = DailyStudy.clickOption item idx st).
  { change (DailyView.answer item (idx :: clicks) st)
      with (DailyView.answer item clicks (DailyStudy.clickOption item idx st)).
    apply answer_locked.
    unfold DailyStudy.clickOption, DailyStudy.handleQuizAnswer.
    rewrite Hfree. simpl. discriminate. }
  rewrite Hfirst.
  unfold DailyStudy.clickOption, DailyStudy.handleQuizAnswer. rewrite Hfree.
  repeat split.
  - unfold DailyStudy.handleNext. simpl.
    destruct (Z.ltb_spec (Z.of_nat (DailyStudy.currentIndex st))
                (Z.of_nat (length (DailyStudy.lesson st)) - 1));
      [reflexivity|lia].
  - unfold DailyStudy.handleNext. simpl.
    destruct (Z.ltb_spec (Z.of_nat (DailyStudy.currentIndex st))
                (Z.of_nat (length (DailyStudy.lesson st)) - 1));
      [reflexivity|lia].
Qed.

Lemma first_answer_locks_witness :
  DailyStudy.isCorrect
    (DailyView.answer Fixtures.sound [1; 0; 3]%nat
       (Fixtures2.session [Fixtures.sound; Fixtures.stray]))
  = Some true.
Proof.
  apply (first_answer_locks Fixtures.sound 1 [0; 3]%nat
           (Fixtures2.session [Fixtures.sound; Fixtures.stray])).
  reflexivity.
Defined.

Lemma handleNext_cases (st : DailyStudy.State) :
  DailyStudy.lesson (DailyStudy.handleNext st) = DailyStudy.lesson st
  /\ (((S (DailyStudy.currentIndex st) < length (DailyStudy.lesson st))%nat
       /\ DailyStudy.currentIndex (DailyStudy.handleNext st)
          = S (DailyStudy.currentIndex st)
       /\ DailyStudy.completed (DailyStudy.handleNext st)
          = DailyStudy.completed st)
      \/ ((length (DailyStudy.lesson st) <= S (DailyStudy.currentIndex st))%nat
          /\ DailyStudy.currentIndex (DailyStudy.handleNext st)
             = DailyStudy.currentIndex st
          /\ DailyStudy.completed (DailyStudy.handleNext st) = true)).
Proof.
  unfold DailyStudy.handleNext.
  destruct (Z.ltb_spec (Z.of_nat (DailyStudy.currentIndex st))
              (Z.of_nat (length (DailyStudy.lesson st)) - 1)); simpl.
  - split; [reflexivity|]. left. repeat split. lia.
  - split; [reflexivity|]. right. repeat split. lia.
Qed.

Lemma next_times_invariant (st : DailyStudy.State) (k : nat) :
  (1 <= length (DailyStudy.lesson st))%nat ->
  DailyStudy.currentIndex st = 0%nat ->
  DailyStudy.completed st = false ->
  DailyStudy.lesson (DailyView.next_times k st) = DailyStudy.lesson st
  /\ (((k < length (DailyStudy.lesson st))%nat
       /\ DailyStudy.currentIndex (DailyView.next_times k st) = k
       /\ DailyStudy.completed (DailyView.next_times k st) = false)
      \/ ((length (DailyStudy.lesson st) <= k)%nat
          /\ DailyStudy.currentIndex (DailyView.next_times k st)
             = (length (DailyStudy.lesson st) - 1)%nat
          /\ DailyStudy.completed (DailyView.next_times k st) = true)).
Proof.
  intros Hlen Hidx Hdone. unfold DailyView.next_times.
  induction k as [|k IH].
  - simpl. split; [reflexivity|]. left. repeat split; [lia|assumption..].
  - simpl. destruct IH as [Hlesson IH].
    destruct (handleNext_cases (Nat.iter k DailyStudy.handleNext st))
      as [Hl Hcase].
    rewrite Hlesson in Hl, Hcase. split; [exact Hl|].
    destruct IH as [(Hk & Hi & Hc)|(Hk & Hi & Hc)];
      destruct Hcase as [(Hlt & Hi' & Hc')|(Hge & Hi' & Hc')];
      rewrite Hi in *.
    + left. repeat split; [lia| congruence | congruence].
    + right. repeat split; [lia | rewrite Hi'; lia | exact Hc'].
    + lia.
    + right. repeat split; [lia | congruence | exact Hc'].
Qed.

(** X24: a session walks through its lesson once, in order, and never
    points outside it. From the first item of a lesson of [n] items,
    after [k] clicks on Next with [k < n] item [k] is on screen and the
    session is not completed; from the [n]-th click on, the session is
    completed and the index stays on the last item. The lesson itself
    never changes. *)
Theorem session_progression (st : DailyStudy.State) (k : nat) :
  (1 <= length (DailyStudy.lesson st))%nat ->
  DailyStudy.currentIndex st = 0%nat ->
  DailyStudy.completed st = false ->
  DailyStudy.lesson (DailyView.next_times k st) = DailyStudy.lesson st
  /\ ((k < length (DailyStudy.lesson st))%nat ->
      DailyStudy.completed (DailyView.next_times k st) = false
      /\ DailyView.currentLessonItem (DailyView.next_times k st)
         = DailyStudy.lesson st !! k)
  /\ ((length (DailyStudy.lesson st) <= k)%nat ->
      DailyStudy.completed (DailyView.next_times k st) = true
      /\ DailyStudy.currentIndex (DailyView.next_times k st)
         = (length (DailyStudy.lesson st) - 1)%nat)
  /\ is_Some (DailyView.currentLessonItem (DailyView.next_times k st)).
Proof.
  intros Hlen Hidx Hdone.
  destruct (next_times_invariant st k Hlen Hidx Hdone)
    as [Hlesson [(Hk & Hi & Hc)|(Hk & Hi & Hc)]];
    (split; [exact Hlesson|]); unfold DailyView.currentLessonItem;
    rewrite Hlesson, Hi.
  - split; [intros _; split; [exact Hc|reflexivity]|].
    split; [intros Hge; lia|]. now apply lookup_lt_is_Some_2.
  - split; [intros Hlt; lia|].
    split; [intros _; split; [exact Hc|reflexivity]|].
    apply lookup_lt_is_Some_2. lia.
Qed.

Lemma session_progression_witness :
  DailyStudy.completed
    (DailyView.next_times 2 (Fixtures2.session [Fixtures.sound; Fixtures.stray]))
  = true.
Proof.
  apply (session_progression
           (Fixtures2.session [Fixtures.sound; Fixtures.stray]) 2);
    simpl; try lia; reflexivity.
Defined.

Lemma screen_summary (st : DailyStudy.State) :
  DailyView.screen st = DailyView.Summary <->
  is_Some (DailyStudy.preferences st) /\ DailyStudy.completed st = true.
Proof.
  unfold DailyView.screen.
  destruct (DailyStudy.preferences st) as [p|];
    destruct (DailyStudy.completed st);
    destruct (Nat.eqb (length (DailyStudy.lesson st)) 0); simpl;
    split; try discriminate; try (intros [[x Hx] Hc]; discriminate);
    try (intros _; split; eauto).
Qed.

(** X25: the summary screen cannot be left from within the component.
    Its only button, "Back to Dashboard", empties the lesson but leaves
    the completed flag up, so the component keeps returning the summary
    screen, now counting zero items; the dashboard, the only place a new
    session can start from, is not reached until the component is mounted
    afresh. *)
Theorem summary_is_not_left (st : DailyStudy.State) (k : nat) :
  DailyView.screen st = DailyView.Summary ->
  DailyView.screen (Nat.iter k DailyView.backToDashboard st) = DailyView.Summary
  /\ ((1 <= k)%nat ->
      DailyStudy.lesson (Nat.iter k DailyView.backToDashboard st) = []).
Proof.
  intros Hsummary. induction k as [|k [IHscreen IHlesson]].
  - split; [exact Hsummary|]. intros Hk. lia.
  - simpl. split; [|reflexivity].
    apply screen_summary in IHscreen as [Hprefs Hdone].
    apply screen_summary. split; assumption.
Qed.

Lemma summary_is_not_left_witness :
  DailyView.screen
    (DailyView.backToDashboard
       (DailyView.next_times 2
          (Fixtures2.session [Fixtures.sound; Fixtures.stray])))
  = DailyView.Summary.
Proof.
  apply (summary_is_not_left
           (DailyView.next_times 2
              (Fixtures2.session [Fixtures.sound; Fixtures.stray])) 1).
  reflexivity.
Defined.

(** X26: saving the settings form starts the streak over. The form is on
    screen only while there are no preferences, so [savePreferences]
    always stores the chosen level and goal with a streak of zero and no
    last study date, in the component and under the preferences key of
    the storage; the stored history is not touched. In particular
    "Adjust Level" followed by a save forgets the streak there was. *)
Theorem saving_settings_resets_streak
    `{printer : !AppView.JSONStringify UserPreferences}
    (tempLevel : UserLevel) (tempGoal : Z)
    (st : DailyStudy.State) (storage : gmap string string) :
  DailyView.screen st = DailyView.Settings ->
  let fresh := {| level := tempLevel; dailyGoal := tempGoal;
                  lastStudyDate := None; streak := 0 |} in
  let r := DailyView.savePreferences tempLevel tempGoal st storage in
  DailyStudy.preferences (fst r) = Some fresh
  /\ snd r !! AppView.PREFS_KEY = Some (AppView.JSON_stringify fresh)
  /\ snd r !! AppView.HISTORY_KEY = storage !! AppView.HISTORY_KEY.
Proof.
  intros Hscreen. cbv zeta.
  assert (Hnone : DailyStudy.preferences st = None).
  { unfold DailyView.screen in Hscreen.
    destruct (DailyStudy.preferences st); [|reflexivity].
    destruct (_ && _); [discriminate|].
    destruct (DailyStudy.completed st); discriminate. }
  unfold DailyView.savePreferences. rewrite Hnone. simpl.
  split; [reflexivity|]. split; [apply lookup_insert_eq|].
  apply lookup_insert_ne. intros Heq. symmetry in Heq.
  now apply keys_distinct in Heq.
Qed.

Lemma saving_settings_resets_streak_witness :
  DailyStudy.preferences
    (fst (DailyView.savePreferences (printer := Fixtures2.print_prefs) C1 7
            (DailyView.adjustLevel (Fixtures2.session [])) ∅))
  = Some {| level := C1; dailyGoal := 7; lastStudyDate := None; streak := 0 |}.
Proof.
  apply (saving_settings_resets_streak (printer := Fixtures2.print_prefs) C1 7
           (DailyView.adjustLevel (Fixtures2.session [])) ∅).
  reflexivity.
Defined.

(** X27: Start Session on the dashboard. The history words come from the
    local storage: none when nothing is stored, the originals of at most
    the first ten stored items when the stored text parses. When it does
    not parse, the handler ends in its catch: nothing is sent, the error is
    logged and the dashboard stays. Otherwise one request is sent, built
    from the stored level and daily goal and those words; when the gateway
    fails, or returns an empty lesson, the dashboard stays on screen, and
    when it returns a lesson, that lesson is loaded with its first item on
    screen and no option selected. The loading flag ends down. *)
Theorem startDailySession_outcomes
    `{parser : !JSONParse (list DailyLessonItem)}
    `{history_parser : !JSONParse (list HistoryItem)}
    (systemLanguage : string) (storage : gmap string string)
    (st : DailyStudy.State) (w : World) (prefs : UserPreferences) :
  DailyStudy.preferences st = Some prefs ->
  DailyStudy.lesson st = [] ->
  DailyStudy.completed st = false ->
  let r := DailyStudy.startDailySession systemLanguage storage st w in
  DailyStudy.isLoading (fst r) = false
  /\ (storage !! AppView.HISTORY_KEY = None ->
      DailyStudy.historyWords storage = Some [])
  /\ (forall raw : string,
        storage !! AppView.HISTORY_KEY = Some raw ->
        truthy (Some raw) = true ->
        DailyStudy.historyWords storage
        = option_map
            (fun items => take 10 (map (fun h => originalText (data h)) items))
            (JSON_parse raw))
  /\ match DailyStudy.historyWords storage with
     | None =>
         sent (snd r) = sent w
         /\ console (snd r) = (console w ++ ["daily session"])%list
         /\ DailyView.screen (fst r) = DailyView.Dashboard
         /\ DailyStudy.lesson (fst r) = []
     | Some words =>
         (length words <= 10)%nat
         /\ sent (snd r)
            = (sent w ++ [lesson_request (level prefs) (dailyGoal prefs)
                                         words systemLanguage])%list
         /\ match fst (generateDailyLesson (level prefs) (dailyGoal prefs)
                         words systemLanguage w) with
            | Rejected _ | Fulfilled [] =>
                DailyView.screen (fst r) = DailyView.Dashboard
                /\ DailyStudy.lesson (fst r) = []
            | Fulfilled (first :: rest) =>
                DailyView.screen (fst r) = DailyView.ActiveItem
                /\ DailyStudy.lesson (fst r) = first :: rest
                /\ DailyView.currentLessonItem (fst r) = Some first
                /\ DailyStudy.selectedOption (fst r) = None
                /\ DailyStudy.isCorrect (fst r) = None
            end
     end.
Proof.
  intros Hprefs Hlesson Hdone. cbv zeta.
  assert (Hwords : forall words, DailyStudy.historyWords storage = Some words ->
                                 (length words <= 10)%nat).
  { unfold DailyStudy.historyWords. intros words.
    destruct (truthy (storage !! "lingo_history")).
    - destruct (JSON_parse _) as [items|]; [|discriminate].
      intros Heq.
      replace words
        with (slice0 10 (map (fun h => originalText (data h)) items))
        by congruence.
      unfold slice0. rewrite length_take. lia.
    - intros Heq. replace words with (@nil string) by congruence.
      simpl. lia. }
  split; [|split; [|split]].
  - unfold DailyStudy.startDailySession. rewrite Hprefs.
    destruct (DailyStudy.historyWords storage) as [words|]; [|reflexivity].
    destruct (generateDailyLesson _ _ _ _ w) as [[newLesson|e] w'];
      reflexivity.
  - unfold DailyStudy.historyWords, AppView.HISTORY_KEY.
    intros ->. reflexivity.
  - unfold DailyStudy.historyWords, AppView.HISTORY_KEY.
    intros raw -> Hraw. rewrite Hraw. simpl.
    destruct (JSON_parse raw); reflexivity.
  - unfold DailyStudy.startDailySession. rewrite Hprefs.
    destruct (DailyStudy.historyWords storage) as [words|] eqn:Hhw.
    + split; [now apply Hwords|].
      pose proof (generateDailyLesson_sent (level prefs) (dailyGoal prefs)
                    words systemLanguage w) as Hsent.
      destruct (generateDailyLesson (level prefs) (dailyGoal prefs) words
                  systemLanguage w) as [[newLesson|e] w'];
        simpl in Hsent |- *; (split; [exact Hsent|]).
      * destruct newLesson as [|first rest];
          unfold DailyView.screen, DailyView.currentLessonItem; simpl;
          rewrite ?Hprefs; repeat split.
      * unfold DailyView.screen. simpl.
        rewrite ?Hprefs, ?Hlesson, ?Hdone. split; reflexivity.
    + unfold DailyView.screen. simpl.
      rewrite ?Hprefs, ?Hlesson, ?Hdone. repeat split.
Qed.

Lemma startDailySession_outcomes_witness :
  let r :=
    DailyStudy.startDailySession (parser := Fixtures.parse_lesson)
      (history_parser := Fixtures2.parse_history)
      "Chinese" (<["lingo_history" := "[{"]> ∅) (Fixtures2.session [])
      Fixtures.w_sound in
  sent (snd r) = [] /\ DailyView.screen (fst r) = DailyView.Dashboard.
Proof.
  cbv zeta.
  destruct (startDailySession_outcomes (parser := Fixtures.parse_lesson)
              (history_parser := Fixtures2.parse_history)
              "Chinese" (<["lingo_history" := "[{"]> ∅) (Fixtures2.session [])
              Fixtures.w_sound Fixtures2.prefs_b1 eq_refl eq_refl eq_refl)
    as (_ & _ & _ & Hmatch).
  change (DailyStudy.historyWords (history_parser := Fixtures2.parse_history)
            (<["lingo_history" := "[{"]> ∅))
    with (@None (list string)) in Hmatch.
  destruct Hmatch as (Hsent & _ & Hscreen & _).
  split; [exact Hsent | exact Hscreen].
Defined.

(** ** The story gateway, and the image payload of the main analysis *)

(** X28: [generateStoryFromWords] sends one request and swallows nothing.
    It is fulfilled exactly with what the provider's non-empty text parses
    to, logging nothing; otherwise it logs "Story generation failed" once
    and throws: the provider's own error, "No story generated" for an
    empty answer, or the parser's syntax error. *)
Theorem generateStoryFromWords_rethrows `{parser : !JSONParse StoryResponse}
    (words : list string) (theme : string) (w : World) :
  let r := generateStoryFromWords words theme w in
  sent (snd r) = (sent w ++ [story_request words theme])%list
  /\ (forall story : StoryResponse,
        fst r = Fulfilled story ->
        console (snd r) = console w
        /\ exists resp : Response,
             service w (length (sent w)) (story_request words theme)
             = Fulfilled resp
             /\ truthy (Env.text resp) = true
             /\ JSON_parse (default EmptyString (Env.text resp)) = Some story)
  /\ (forall e : Exn,
        fst r = Rejected e ->
        console (snd r) = (console w ++ ["Story generation failed"])%list
        /\ (service w (length (sent w)) (story_request words theme)
            = Rejected e
            \/ e = Error "No story generated"
            \/ e = SyntaxError)).
Proof.
  cbv zeta. split; [apply generateStoryFromWords_sent|].
  unfold generateStoryFromWords, try_catch, await, generateContent,
    console_error, throw, resolve.
  destruct (service w (length (sent w)) (story_request words theme))
    as [resp|e0] eqn:Hsrv; simpl.
  - destruct (truthy (Env.text resp)) eqn:Ht; simpl.
    + destruct (JSON_parse (default EmptyString (Env.text resp)))
        as [story0|] eqn:Hp; simpl; split; intros x Hx; inversion Hx; subst.
      * split; [reflexivity|]. exists resp. repeat split; assumption.
      * split; [reflexivity|]. auto.
    + split; intros x Hx; inversion Hx; subst.
      split; [reflexivity|]. auto.
  - split; intros x Hx; inversion Hx; subst.
    split; [reflexivity|]. auto.
Qed.

Lemma generateStoryFromWords_rethrows_witness :
  console (snd (generateStoryFromWords (parser := Fixtures.parse_story)
                  ["gato"] "Mystery" Fixtures.w_studio))
  = console Fixtures.w_studio.
Proof.
  destruct (generateStoryFromWords_rethrows (parser := Fixtures.parse_story)
              ["gato"] "Mystery" Fixtures.w_studio)
    as (_ & Hok & _).
  destruct (Hok {| title := "The Cat"; sr_content := "A cat sat.";
                   englishContent := "A cat sat." |}) as [Hconsole _];
    [vm_compute; reflexivity | exact Hconsole].
Defined.

Lemma split_comma_plain (s : string) :
  no_comma s = true -> App.split_comma s = [s].
Proof.
  induction s as [|c s IH]; simpl; [reflexivity|].
  intros H. apply andb_true_iff in H as [Hc Hs].
  apply negb_true_iff in Hc. rewrite Hc, (IH Hs). reflexivity.
Qed.

Lemma split_comma_header (header rest : string) :
  no_comma header = true ->
  App.split_comma (header +:+ "," +:+ rest) = header :: App.split_comma rest.
Proof.
  induction header as [|c h IH]; simpl; [reflexivity|].
  intros H. apply andb_true_iff in H as [Hc Hs].
  apply negb_true_iff in Hc. rewrite Hc. simpl in IH. rewrite (IH Hs).
  reflexivity.
Qed.

(** After the analysis the handler sends nothing more. *)
Lemma analyze_then_item_sent `{parser : !JSONParse LearningAnalysis}
    (text imageBase64 : option string) (sourceLang targetLang : string)
    (w : World) :
  sent (snd ((result <~ analyzeContent text imageBase64 sourceLang targetLang;
              App.newHistoryItem result false) w))
  = sent (snd (analyzeContent text imageBase64 sourceLang targetLang w)).
Proof.
  unfold await at 1.
  destruct (analyzeContent text imageBase64 sourceLang targetLang w)
    as [[result|e] w1]; reflexivity.
Qed.

(** X29: when an image is picked, the main analysis sends the image and
    ignores the text. For a picked data URI made of a header, a comma and
    a non-empty payload (neither with further commas), [handleAnalyze]
    sends exactly one request, and its parts are the prompt, the payload
    as an inline JPEG part, and the instruction to extract the text;
    whatever text is typed does not appear in it. *)
Theorem handleAnalyze_sends_image_payload
    `{parser : !JSONParse LearningAnalysis}
    (inputText header payload : string) (st : App.State) (w : World) :
  App.selectedImage st = Some (header +:+ "," +:+ payload) ->
  no_comma header = true ->
  no_comma payload = true ->
  payload <> EmptyString ->
  sent (snd (App.handleAnalyze_with inputText st w))
  = (sent w ++
     [analysis_request
        [ text_part (analysis_prompt (App.sourceLang st) (App.targetLang st));
          inline_part "image/jpeg" payload;
          text_part "Extract the text from this image and analyze it." ]])%list.
Proof.
  intros Himg Hheader Hpayload Hne.
  assert (Htruthy : truthy (Some (header +:+ "," +:+ payload)) = true)
    by (destruct header; reflexivity).
  assert (Hp : truthy (Some payload) = true)
    by (destruct payload; [congruence|reflexivity]).
  unfold App.handleAnalyze_with. rewrite Himg, Htruthy, andb_false_r.
  change (default EmptyString (Some (header +:+ "," +:+ payload)))
    with (header +:+ "," +:+ payload).
  rewrite (split_comma_header header payload Hheader).
  rewrite (split_comma_plain payload Hpayload).
  change ((header :: [payload]) !! 1%nat) with (Some payload).
  pose proof (analyze_then_item_sent (Some inputText) (Some payload)
                (App.sourceLang st) (App.targetLang st) w) as Hsame.
  pose proof (analyzeContent_sends (Some inputText) (Some payload)
                (App.sourceLang st) (App.targetLang st)
                [ text_part (analysis_prompt (App.sourceLang st) (App.targetLang st));
                  inline_part "image/jpeg" payload;
                  text_part "Extract the text from this image and analyze it." ]
                w) as Hsends.
  rewrite Hsends in Hsame.
  - destruct ((result <~ analyzeContent (Some inputText) (Some payload)
                           (App.sourceLang st) (App.targetLang st);
               App.newHistoryItem result false) w) as [[item|e] w'];
      exact Hsame.
  - unfold analysis_parts. rewrite Hp. reflexivity.
Qed.

Lemma handleAnalyze_sends_image_payload_witness :
  length
    (sent (snd (App.handleAnalyze_with (parser := Fixtures.parse_gato)
                  "ignored text"
                  (App.setSelectedImage
                     (Some "data:image/jpeg;base64,/9j/4AAQSkZJRg==")
                     App.initial)
                  Fixtures.w_gato)))
  = 1%nat.
Proof.
  rewrite (handleAnalyze_sends_image_payload (parser := Fixtures.parse_gato)
             "ignored text" "data:image/jpeg;base64" "/9j/4AAQSkZJRg=="
             (App.setSelectedImage
                (Some "data:image/jpeg;base64,/9j/4AAQSkZJRg==") App.initial)
             Fixtures.w_gato eq_refl eq_refl eq_refl);
    [reflexivity | discriminate].
Defined.

(** X30: a picked image that is not a data URI with a comma passes the
    form's guard but not the gateway's. With no text typed and a
    non-empty picked image without a comma, [handleAnalyze] sends nothing,
    leaves the world and the history alone, keeps the image picked, and
    ends with the error message shown and the busy flag down. *)
Theorem handleAnalyze_rejects_image_without_payload
    `{parser : !JSONParse LearningAnalysis}
    (img : string) (st : App.State) (w : World) :
  App.selectedImage st = Some img ->
  img <> EmptyString ->
  no_comma img = true ->
  let r := App.handleAnalyze_with EmptyString st w in
  snd r = w
  /\ App.history (fst r) = App.history st
  /\ App.selectedImage (fst r) = Some img
  /\ App.error (fst r) = Some "Failed to analyze content. Please try again."
  /\ App.isAnalyzing (fst r) = false.
Proof.
  intros Himg Hne Hplain. cbv zeta.
  assert (Htruthy : truthy (Some img) = true)
    by (destruct img; [congruence|reflexivity]).
  unfold App.handleAnalyze_with. rewrite Himg, Htruthy, andb_false_r.
  change (default EmptyString (Some img)) with img.
  rewrite (split_comma_plain img Hplain).
  change ([img] !! 1%nat) with (@None string).
  unfold await, analyzeContent, analysis_parts, throw. simpl.
  repeat split. exact Himg.
Qed.

Lemma handleAnalyze_rejects_image_without_payload_witness :
  App.error
    (fst (App.handleAnalyze_with (parser := Fixtures.parse_gato) EmptyString
            (App.setSelectedImage (Some "blob") App.initial) Fixtures.w_gato))
  = Some "Failed to analyze content. Please try again.".
Proof.
  apply (handleAnalyze_rejects_image_without_payload
           (parser := Fixtures.parse_gato) "blob"
           (App.setSelectedImage (Some "blob") App.initial) Fixtures.w_gato);
    [reflexivity | discriminate | reflexivity].
Defined.
